(** * V1-1 trading core: position ledger, execution core, decision gate
      and reconnect backoff

    A shallow embedding of the parts of the Python sources that the
    specification's testable properties talk about:

    - [core/position_manager.py]   -> [Module PositionManager]
    - [core/trading_engine.py]     -> [Module TradingEngine]
    - [core/ai_orchestrator.py]    -> [Module AIOrchestrator]
    - [core/market_data_manager.py]-> [Module MarketDataManager]

    Modelling conventions.

    - A Python [float] is an exact rational ([Q]); comparisons are the
      decidable ones of [Q].  Binary rounding is outside that model, so a
      statement about a computed amount gives the expression the code
      evaluates, and no cancellation or bound that holds of the exact
      value only is claimed of the code.  [Module Binary64] evaluates the
      paper-balance arithmetic of the execution core in binary64, where
      rounding decides a property.
    - A Python [dict] that is iterated is an insertion-ordered association
      list ([Py.dict]); the state document of [StateManager] is a record
      whose optional keys are [option] fields.
    - [time.time()], [date.today()] and [uuid.uuid4()] are inputs of the
      functions that call them.
    - A raised [ValueError] is the [ValueError] constructor of [Py.result].
    - Logging, listener callbacks, Telegram messages and the write-through
      of the ledger to disk do not feed back into the values modelled here
      and are left out. *)

From Stdlib Require Import QArith Qround ZArith List String Ascii Bool Lia Lqa.
From Stdlib Require Floats.
Import ListNotations.

Set Warnings "-inexact-float".

Open Scope string_scope.
Open Scope Q_scope.

(* ================================================================== *)
(** * Python primitives *)
(* ================================================================== *)

Module Py.

(** ** Floats as rationals *)

Definition Qlt_bool (x y : Q) : bool := negb (Qle_bool y x).

(** [max(a, b)]: the first argument unless the second is larger. *)
Definition max (a b : Q) : Q := if Qlt_bool a b then b else a.

(** [min(a, b)]: the first argument unless the second is smaller. *)
Definition min (a b : Q) : Q := if Qlt_bool b a then b else a.

(** [float(x or d)] where [x] may be missing, [None] or [0.0]. *)
Definition float_or (x : option Q) (d : Q) : Q :=
  match x with
  | Some v => if Qeq_bool v 0 then d else v
  | None => d
  end.

(** [float(x) if x else None]. *)
Definition truthy (x : option Q) : option Q :=
  match x with
  | Some v => if Qeq_bool v 0 then None else Some v
  | None => None
  end.

(** Nearest integer, ties to even: the rounding of [format(x, ".Nf")]. *)
Definition round_half_even (x : Q) : Z :=
  let f := Qfloor x in
  let r := x - inject_Z f in
  if Qlt_bool r (1 # 2) then f
  else if Qlt_bool (1 # 2) r then (f + 1)%Z
  else if Z.even f then f else (f + 1)%Z.

(** [float(f"{x:.6f}")] and [float(f"{x:.8f}")], of the exact value: the
    code formats the binary64 value, which can lie on the other side of a
    tie (0.0003125 is formatted as 0.000313 by the code and rounded to
    0.000312 here). *)
Definition round_decimals (n : nat) (x : Q) : Q :=
  let scale := (10 ^ Z.of_nat n)%Z in
  inject_Z (round_half_even (x * inject_Z scale)) / inject_Z scale.

(** ** Strings *)

Definition upper_ascii (c : ascii) : ascii :=
  let n := nat_of_ascii c in
  if ((97 <=? n) && (n <=? 122))%nat then ascii_of_nat (n - 32) else c.

Definition lower_ascii (c : ascii) : ascii :=
  let n := nat_of_ascii c in
  if ((65 <=? n) && (n <=? 90))%nat then ascii_of_nat (n + 32) else c.

Fixpoint upper (s : string) : string :=
  match s with
  | EmptyString => EmptyString
  | String c r => String (upper_ascii c) (upper r)
  end.

Fixpoint lower (s : string) : string :=
  match s with
  | EmptyString => EmptyString
  | String c r => String (lower_ascii c) (lower r)
  end.

(** ASCII whitespace as [str.isspace] has it. *)
Definition is_space (c : ascii) : bool :=
  let n := nat_of_ascii c in
  (((9 <=? n) && (n <=? 13)) || ((28 <=? n) && (n <=? 32)))%nat.

Fixpoint lstrip (s : string) : string :=
  match s with
  | EmptyString => EmptyString
  | String c r => if is_space c then lstrip r else s
  end.

Fixpoint rstrip (s : string) : string :=
  match s with
  | EmptyString => EmptyString
  | String c r =>
      match rstrip r with
      | EmptyString => if is_space c then EmptyString else String c EmptyString
      | r' => String c r'
      end
  end.

Definition strip (s : string) : string := rstrip (lstrip s).

(** [not s] for a string. *)
Definition is_empty (s : string) : bool :=
  match s with EmptyString => true | _ => false end.

(** ** Insertion-ordered dictionaries with string keys *)

Definition dict (V : Type) : Type := list (string * V).

Fixpoint get {V} (k : string) (d : dict V) : option V :=
  match d with
  | [] => None
  | (k', v) :: r => if String.eqb k' k then Some v else get k r
  end.

(** [d[k] = v]: overwrite in place, or append a new key. *)
Fixpoint set {V} (k : string) (v : V) (d : dict V) : dict V :=
  match d with
  | [] => [(k, v)]
  | (k', v') :: r =>
      if String.eqb k' k then (k', v) :: r else (k', v') :: set k v r
  end.

(** [d.pop(k, None)], the returned value dropped. *)
Definition pop {V} (k : string) (d : dict V) : dict V :=
  filter (fun kv => negb (String.eqb (fst kv) k)) d.

Definition values {V} (d : dict V) : list V := List.map snd d.

Definition keys {V} (d : dict V) : list string := List.map fst d.

(** In-place mutation of every value during [for v in d.values()]. *)
Definition map_values {V} (f : V -> V) (d : dict V) : dict V :=
  List.map (fun kv => (fst kv, f (snd kv))) d.

(** ** Exceptions *)

Inductive result (A : Type) : Type :=
| Ok (a : A)
| ValueError (msg : string).
Arguments Ok {A} a.
Arguments ValueError {A} msg.

End Py.

(* ================================================================== *)
(** * core/settings_manager.py: the settings the core reads *)
(* ================================================================== *)

(** Each field is the value stored under the dotted key, [None] when the
    key is absent (so that the caller's default applies). *)
Record Settings : Type := mkSettings {
  trading_mode : option string;                 (* trading.mode *)
  risk_take_profit_pct : option Q;              (* risk_limits.take_profit_pct *)
  risk_stop_loss_pct : option Q;                (* risk_limits.stop_loss_pct *)
  risk_use_trailing : option bool;              (* risk_limits.use_trailing *)
  risk_trailing_sl_pct : option Q;              (* risk_limits.trailing_sl_pct *)
  risk_min_trade_usdt : option Q;               (* risk_limits.min_trade_usdt *)
  risk_max_open_trades : option Z;              (* risk_limits.max_open_trades *)
  risk_max_trades_per_symbol : option Z;        (* risk_limits.max_trades_per_symbol *)
  risk_loss_cooldown_min : option Z;            (* risk_limits.loss_cooldown_min *)
  risk_reentry_delay_min : option Z;            (* risk_limits.reentry_delay_min *)
  ai_min_score : option Q;                      (* ai.min_score *)
  ai_min_valid_signals : option Z;              (* ai.min_valid_signals *)
  ai_eval_cooldown_sec : option Q;              (* ai.eval_cooldown_sec *)
  ai_warmup_relax_sec : option Q;               (* ai.warmup_relax_sec *)
  ai_warmup_relax_score_delta : option Q;       (* ai.warmup_relax_score_delta *)
  ai_warmup_relax_signals_delta : option Z;     (* ai.warmup_relax_signals_delta *)
  ai_default_sl_pct : option Q;                 (* ai.default_sl_pct *)
  ai_default_tp_pct : option Q;                 (* ai.default_tp_pct *)
  ai_default_trailing_sl_pct : option Q;        (* ai.default_trailing_sl_pct *)
  ai_trade_usdt : option Q;                     (* ai.trade_usdt *)
  ai_trade_usdt_min : option Q;                 (* ai.trade_usdt_min *)
  ai_trade_usdt_max : option Q                  (* ai.trade_usdt_max *)
}.

(** [DEFAULT_SETTINGS] of [settings_manager.py], the keys above. *)
Definition DEFAULT_SETTINGS : Settings := {|
  trading_mode := Some "paper";
  risk_take_profit_pct := Some 3.0;
  risk_stop_loss_pct := Some 2.0;
  risk_use_trailing := Some true;
  risk_trailing_sl_pct := Some 1.0;
  risk_min_trade_usdt := Some 2.0;
  risk_max_open_trades := Some 5%Z;
  risk_max_trades_per_symbol := Some 2%Z;
  risk_loss_cooldown_min := Some 5%Z;
  risk_reentry_delay_min := Some 10%Z;
  ai_min_score := Some 0.40;
  ai_min_valid_signals := Some 1%Z;
  ai_eval_cooldown_sec := Some 2.0;
  ai_warmup_relax_sec := Some 300;
  ai_warmup_relax_score_delta := Some 0.10;
  ai_warmup_relax_signals_delta := Some 1%Z;
  ai_default_sl_pct := Some 2.0;
  ai_default_tp_pct := Some 3.0;
  ai_default_trailing_sl_pct := Some 1.0;
  ai_trade_usdt := Some 10.0;
  ai_trade_usdt_min := Some 2.0;
  ai_trade_usdt_max := Some 30.0
|}.

(* ================================================================== *)
(** * core/position_manager.py *)
(* ================================================================== *)

Module PositionManager.

(** The position dictionary built by [open_position]. *)
Record Position : Type := mkPosition {
  id : string;
  symbol : string;
  source : string;                  (* "bot" | "manual" *)
  entry_price : Q;
  qty : Q;
  current_price : Q;
  pnl_usdt : Q;
  pnl_percent : Q;
  tp_price : option Q;
  sl_price : option Q;
  use_trailing : bool;
  trailing_sl_pct : Q;
  peak_price : Q;
  status : string;                  (* "open" | "closed" *)
  mode : string;
  opened_at : Q;
  closed_at : option Q;
  exit_reason : option string;
  meta : list string                (* meta["ai_tags"] *)
}.

(** Assignments [pos[key] = value]. *)
Definition set_price_fields (cur pnl pct : Q) (p : Position) : Position :=
  mkPosition (id p) (symbol p) (source p) (entry_price p) (qty p)
    cur pnl pct
    (tp_price p) (sl_price p) (use_trailing p) (trailing_sl_pct p)
    (peak_price p) (status p) (mode p) (opened_at p) (closed_at p)
    (exit_reason p) (meta p).

Definition set_peak_price (peak : Q) (p : Position) : Position :=
  mkPosition (id p) (symbol p) (source p) (entry_price p) (qty p)
    (current_price p) (pnl_usdt p) (pnl_percent p)
    (tp_price p) (sl_price p) (use_trailing p) (trailing_sl_pct p)
    peak (status p) (mode p) (opened_at p) (closed_at p)
    (exit_reason p) (meta p).

Definition set_sl_price (sl : option Q) (p : Position) : Position :=
  mkPosition (id p) (symbol p) (source p) (entry_price p) (qty p)
    (current_price p) (pnl_usdt p) (pnl_percent p)
    (tp_price p) sl (use_trailing p) (trailing_sl_pct p)
    (peak_price p) (status p) (mode p) (opened_at p) (closed_at p)
    (exit_reason p) (meta p).

Definition set_closed (at_ : Q) (reason : string) (p : Position) : Position :=
  mkPosition (id p) (symbol p) (source p) (entry_price p) (qty p)
    (current_price p) (pnl_usdt p) (pnl_percent p)
    (tp_price p) (sl_price p) (use_trailing p) (trailing_sl_pct p)
    (peak_price p) "closed" (mode p) (opened_at p) (Some at_)
    (Some reason) (meta p).

(** The two containers owned by a [PositionManager]. *)
Record t : Type := mkPM {
  open_positions : Py.dict Position;      (* id -> position *)
  closed_positions : list Position        (* newest first *)
}.

(** A manager constructed over an empty state document. *)
Definition empty : t := mkPM [] [].

Definition get_open_positions (pm : t) : list Position :=
  Py.values (open_positions pm).

Definition get_closed_positions (pm : t) : list Position :=
  closed_positions pm.

(** The test shared by [has_open_bot_position] and
    [get_open_bot_positions_for_symbol]. *)
Definition is_open_bot_on (sym : string) (p : Position) : bool :=
  String.eqb (Py.upper (symbol p)) sym
  && String.eqb (status p) "open"
  && String.eqb (source p) "bot".

Definition has_open_bot_position (pm : t) (symbol_ : string) : bool :=
  let sym := Py.upper symbol_ in
  existsb (is_open_bot_on sym) (get_open_positions pm).

Definition get_open_bot_positions_for_symbol (pm : t) (symbol_ : string)
  : list Position :=
  let sym := Py.upper symbol_ in
  filter (is_open_bot_on sym) (get_open_positions pm).

(** [open_position].  [pos_id] is the fresh [uuid4] and [now] the clock
    reading; the optional arguments are [None] when not passed. *)
Definition open_position (cfg : Settings) (pos_id : string) (now : Q)
    (pm : t) (symbol_ : string) (entry_price_ qty_ : Q)
    (mode_ : option string) (source_ : string) (opened_at_ : option Q)
    (tp_price_ sl_price_ : option Q) (use_trailing_ : option bool)
    (trailing_sl_pct_ : option Q) (meta_ : list string)
  : Py.result (t * Position) :=
  let sym := Py.strip (Py.upper symbol_) in
  if Qle_bool entry_price_ 0 || Qle_bool qty_ 0 || Py.is_empty sym then
    Py.ValueError "Invalid position parameters."
  else if String.eqb source_ "bot" && has_open_bot_position pm sym then
    Py.ValueError ("Bot already has open position on " ++ sym)
  else
    let trade_mode :=
      Py.lower
        (match mode_ with
         | Some m => if Py.is_empty m
                     then match trading_mode cfg with Some s => s | None => "paper" end
                     else m
         | None => match trading_mode cfg with Some s => s | None => "paper" end
         end) in
    let fallback :=
      match tp_price_, sl_price_, use_trailing_, trailing_sl_pct_ with
      | Some _, Some _, Some _, Some _ => false
      | _, _, _, _ => true
      end in
    let take_profit_pct := Py.float_or (risk_take_profit_pct cfg) 1.5 in
    let stop_loss_pct := Py.float_or (risk_stop_loss_pct cfg) 1.0 in
    let use_tr := match risk_use_trailing cfg with Some b => b | None => true end in
    let tr_pct := Py.float_or (risk_trailing_sl_pct cfg) stop_loss_pct in
    let tp1 :=
      match tp_price_ with
      | None => if fallback && Py.Qlt_bool 0 take_profit_pct
                then Some (entry_price_ * (1 + take_profit_pct / 100))
                else None
      | Some v => Some v
      end in
    let sl1 :=
      match sl_price_ with
      | None => if fallback && Py.Qlt_bool 0 stop_loss_pct
                then Some (entry_price_ * (1 - stop_loss_pct / 100))
                else None
      | Some v => Some v
      end in
    let ut1 := match use_trailing_ with Some b => b | None => use_tr end in
    let tr1 := match trailing_sl_pct_ with Some v => v | None => tr_pct end in
    let ts := Py.float_or opened_at_ now in
    let position :=
      {| id := pos_id;
         symbol := sym;
         source := source_;
         entry_price := entry_price_;
         qty := qty_;
         current_price := entry_price_;
         pnl_usdt := 0;
         pnl_percent := 0;
         tp_price := Py.truthy tp1;
         sl_price := Py.truthy sl1;
         use_trailing := if String.eqb source_ "bot" then ut1 else false;
         trailing_sl_pct := tr1;
         peak_price := entry_price_;
         status := "open";
         mode := trade_mode;
         opened_at := ts;
         closed_at := None;
         exit_reason := None;
         meta := meta_ |} in
    Py.Ok (mkPM (Py.set pos_id position (open_positions pm))
                (closed_positions pm),
           position).

(** The body of the loop of [update_price] for one matching position. *)
Definition update_one (price : Q) (pos : Position) : Position :=
  let entry := entry_price pos in
  let q := qty pos in
  let pnl := (price - entry) * q in
  let pnl_pct :=
    if Py.Qlt_bool 0 entry then ((price - entry) / entry) * 100 else 0 in
  let pos := set_price_fields price pnl pnl_pct pos in
  if String.eqb (source pos) "bot" && use_trailing pos then
    match sl_price pos with
    | None => pos
    | Some sl =>
        let peak := peak_price pos in
        if Py.Qlt_bool peak price then
          let pos := set_peak_price price pos in
          let tr_pct := trailing_sl_pct pos in
          if Py.Qlt_bool 0 tr_pct then
            let new_sl := price * (1 - tr_pct / 100) in
            if Py.Qlt_bool sl new_sl then set_sl_price (Some new_sl) pos
            else pos
          else pos
        else pos
    end
  else pos.

(** The [continue] test at the head of that loop. *)
Definition on_symbol (sym : string) (pos : Position) : bool :=
  String.eqb (Py.upper (symbol pos)) sym && String.eqb (status pos) "open".

Definition update_price (pm : t) (symbol_ : string) (price : Q) : t :=
  let sym := Py.strip (Py.upper symbol_) in
  if Qle_bool price 0 || Py.is_empty sym then pm
  else
    mkPM (Py.map_values
            (fun pos => if on_symbol sym pos then update_one price pos else pos)
            (open_positions pm))
         (closed_positions pm).

Definition update_market_price (pm : t) (symbol_ : string) (price : Q) : t :=
  update_price pm symbol_ price.

(** The recommendation, if any, for one position of the loop of
    [check_exit_recommendations]. *)
Definition exit_reason_for (sym : string) (price : Q) (allow_trailing : bool)
    (pos : Position) : option string :=
  if negb (String.eqb (status pos) "open") then None
  else if negb (String.eqb (Py.upper (symbol pos)) sym) then None
  else if negb (String.eqb (source pos) "bot") then None
  else
    let use_tr := use_trailing pos && allow_trailing in
    let tp_hit :=
      match tp_price pos with Some tp => Qle_bool tp price | None => false end in
    let sl_hit :=
      match sl_price pos with Some sl => Qle_bool price sl | None => false end in
    if tp_hit then Some "TP"
    else if sl_hit then Some (if negb use_tr then "SL" else "TRAILING_SL")
    else None.

Fixpoint collect_exits (sym : string) (price : Q) (allow_trailing : bool)
    (d : Py.dict Position) : list (string * string) :=
  match d with
  | [] => []
  | (pid, pos) :: r =>
      match exit_reason_for sym price allow_trailing pos with
      | Some reason => (pid, reason) :: collect_exits sym price allow_trailing r
      | None => collect_exits sym price allow_trailing r
      end
  end.

Definition check_exit_recommendations (pm : t) (symbol_ : string) (price : Q)
    (allow_trailing : bool) : list (string * string) :=
  let sym := Py.strip (Py.upper symbol_) in
  if Qle_bool price 0 then []
  else collect_exits sym price allow_trailing (open_positions pm).

(** [close_position]; [now] is the clock reading used when [closed_at]
    is not passed.  The result is the closed position, or [None]. *)
Definition close_position (now : Q) (pm : t) (position_id : string)
    (exit_price : Q) (reason : string) (closed_at_ : option Q)
  : t * option Position :=
  match Py.get position_id (open_positions pm) with
  | None => (pm, None)
  | Some pos =>
      if negb (String.eqb (status pos) "open") then (pm, None)
      else if String.eqb (source pos) "manual" then (pm, None)
      else
        let entry := entry_price pos in
        let q := qty pos in
        let pnl := (exit_price - entry) * q in
        let pct :=
          if Py.Qlt_bool 0 entry then ((exit_price - entry) / entry) * 100
          else 0 in
        let pos := set_price_fields exit_price pnl pct pos in
        let pos := set_closed (Py.float_or closed_at_ now) reason pos in
        (mkPM (Py.pop position_id (open_positions pm))
              (pos :: closed_positions pm),
         Some pos)
  end.

(** [get_used_bot_balance]: the entry notional of the open bot positions. *)
Definition get_used_bot_balance (pm : t) : Q :=
  fold_left
    (fun used p =>
       if String.eqb (status p) "open" && String.eqb (source p) "bot"
       then used + entry_price p * qty p
       else used)
    (Py.values (open_positions pm)) 0.0.

(** The two containers as [__init__] builds them from the state document:
    [{p["id"]: p for p in state["open_positions"] if p["status"] == "open"}]
    and [state["closed_positions"]]. *)
Definition load (state_open state_closed : list Position) : t :=
  mkPM
    (fold_left (fun d p => Py.set (id p) p d)
       (filter (fun p => String.eqb (status p) "open") state_open) [])
    state_closed.

End PositionManager.

(* ================================================================== *)
(** * core/risk_manager.py *)
(* ================================================================== *)

Module RiskManager.

(** The limits cached by [refresh_settings] and the two timestamps of
    [_load_meta]. *)
Record t : Type := mkRisk {
  max_open_trades : Z;
  max_trades_per_symbol : Z;
  loss_cooldown_min : Z;
  reentry_delay_min : Z;
  last_loss_time : Q;
  last_closed_time_per_symbol : Py.dict Q
}.

Definition refresh_settings (cfg : Settings) (last_loss : Q)
    (last_closed : Py.dict Q) : t :=
  mkRisk
    (match risk_max_open_trades cfg with Some v => v | None => 5%Z end)
    (match risk_max_trades_per_symbol cfg with Some v => v | None => 2%Z end)
    (match risk_loss_cooldown_min cfg with Some v => v | None => 5%Z end)
    (match risk_reentry_delay_min cfg with Some v => v | None => 10%Z end)
    last_loss last_closed.

(** [RiskCheckResult(allowed, reason)]. *)
Definition check_new_position (now : Q) (r : t) (symbol_ : string)
    (open_positions : list PositionManager.Position)
  : bool * option string :=
  let sym := Py.strip (Py.upper symbol_) in
  if (0 <? loss_cooldown_min r)%Z
     && Py.Qlt_bool (now - last_loss_time r)
                    (inject_Z (loss_cooldown_min r * 60)) then
    (false, Some "LOSS_COOLDOWN_ACTIVE")
  else
    let last_close :=
      match Py.get sym (last_closed_time_per_symbol r) with
      | Some v => v | None => 0 end in
    if (0 <? reentry_delay_min r)%Z && Py.Qlt_bool 0 last_close
       && Py.Qlt_bool (now - last_close)
                      (inject_Z (reentry_delay_min r * 60)) then
      (false, Some "REENTRY_DELAY_ACTIVE")
    else if (0 <? max_open_trades r)%Z
            && (max_open_trades r <=? Z.of_nat (List.length open_positions))%Z then
      (false, Some "MAX_OPEN_TRADES_REACHED")
    else
      let cnt_sym :=
        List.length (filter (fun p => String.eqb (Py.upper (PositionManager.symbol p)) sym)
                       open_positions) in
      if (0 <? max_trades_per_symbol r)%Z
         && (max_trades_per_symbol r <=? Z.of_nat cnt_sym)%Z then
        (false, Some "SYMBOL_MAX_TRADES_REACHED")
      else (true, None).

Definition on_position_closed (now : Q) (r : t) (symbol_ : string)
    (pnl_usdt : Q) : t :=
  let sym := Py.strip (Py.upper symbol_) in
  mkRisk (max_open_trades r) (max_trades_per_symbol r)
    (loss_cooldown_min r) (reentry_delay_min r)
    (if Py.Qlt_bool pnl_usdt 0 then now else last_loss_time r)
    (Py.set sym now (last_closed_time_per_symbol r)).

End RiskManager.

(* ================================================================== *)
(** * core/ai_orchestrator.py *)
(* ================================================================== *)

Module AIOrchestrator.

(** What [evaluate_symbol] probes on a strategy output with [getattr];
    a field is [None] when the object has no such attribute. *)
Record StrategyOutput : Type := mkOut {
  out_signal : option string;
  out_score : option Q;
  out_reason_tags : option (list string);
  out_sl_pct : option Q;
  out_tp_pct : option Q;
  out_use_trailing : option bool;
  out_trailing_sl_pct : option Q
}.

Record AITradeDecision : Type := mkDecision {
  symbol : string;
  action : string;                  (* ENTRY | EXIT | HOLD *)
  score : Q;
  signal : string;
  requested_trade_usdt : Q;
  sl_pct : option Q;
  tp_pct : option Q;
  use_trailing : bool;
  trailing_sl_pct : Q;
  reason_tags : list string;
  reject_reason : option string
}.

(** [d.action = a; d.reject_reason = r]. *)
Definition decide (a : string) (r : option string) (d : AITradeDecision)
  : AITradeDecision :=
  mkDecision (symbol d) a (score d) (signal d) (requested_trade_usdt d)
    (sl_pct d) (tp_pct d) (use_trailing d) (trailing_sl_pct d)
    (reason_tags d) r.

(** [d.requested_trade_usdt = v]. *)
Definition with_requested_trade_usdt (v : Q) (d : AITradeDecision)
  : AITradeDecision :=
  mkDecision (symbol d) (action d) (score d) (signal d) v
    (sl_pct d) (tp_pct d) (use_trailing d) (trailing_sl_pct d)
    (reason_tags d) (reject_reason d).

Record t : Type := mkAI {
  _last_eval_ts : Py.dict Q;
  _last_decision_cache : Py.dict AITradeDecision;
  _boot_ts : Q
}.

Definition set_engine_start_ts (ai : t) (ts : Q) : t :=
  mkAI (_last_eval_ts ai) (_last_decision_cache ai) ts.

(** [int(x or 1)]. *)
Definition int_or (x : option Z) (d : Z) : Z :=
  match x with
  | Some v => if (v =? 0)%Z then d else v
  | None => d
  end.

Definition min_score_base (cfg : Settings) : Q :=
  Py.float_or (ai_min_score cfg) 0.40.

Definition min_signals_base (cfg : Settings) : Z :=
  int_or (ai_min_valid_signals cfg) 1.

(** [relaxed = elapsed < warmup_sec]. *)
Definition relaxed (cfg : Settings) (boot_ts now : Q) : bool :=
  let warmup_sec := Py.float_or (ai_warmup_relax_sec cfg) 300.0 in
  Py.Qlt_bool (now - boot_ts) warmup_sec.

(** The pair [(min_score, min_signals)] in force after the block
    "Warmup relaxed logic"; the difference is the exact one. *)
Definition gate_thresholds (cfg : Settings) (boot_ts now : Q) : Q * Z :=
  let min_score := min_score_base cfg in
  let min_signals := min_signals_base cfg in
  if relaxed cfg boot_ts now then
    let relax_score_delta :=
      Py.float_or (ai_warmup_relax_score_delta cfg) 0.10 in
    (Py.max 0.0 (min_score_base cfg - relax_score_delta), min_signals)
  else (min_score, min_signals).

(** The hard-wired [valid_count = 1]. *)
Definition valid_count : Z := 1.

Definition is_exit_signal (s : string) : bool :=
  String.eqb s "EXIT" || String.eqb s "SELL" || String.eqb s "CLOSE".

Definition is_entry_signal (s : string) : bool :=
  String.eqb s "ENTRY" || String.eqb s "BUY" || String.eqb s "LONG".

(** [evaluate_symbol] past the cooldown cache, for a strategy output
    [out] that exists. *)
Definition evaluate_output (cfg : Settings) (boot_ts now : Q) (sym : string)
    (out : StrategyOutput) : AITradeDecision :=
  let signal_ :=
    Py.upper (match out_signal out with
              | Some s => if Py.is_empty s then "HOLD" else s
              | None => "HOLD" end) in
  let score_ := Py.float_or (out_score out) 0.0 in
  let reason_tags_ :=
    match out_reason_tags out with Some l => l | None => [] end in
  let default_sl := match ai_default_sl_pct cfg with Some v => v | None => 2.0 end in
  let default_tp := match ai_default_tp_pct cfg with Some v => v | None => 3.0 end in
  let default_trailing :=
    match ai_default_trailing_sl_pct cfg with Some v => v | None => 1.0 end in
  let trade_usdt := Py.float_or (ai_trade_usdt cfg) 10.0 in
  let trade_usdt_min := Py.float_or (ai_trade_usdt_min cfg) 2.0 in
  let trade_usdt_max := Py.float_or (ai_trade_usdt_max cfg) 30.0 in
  let trade_usdt := Py.max trade_usdt_min (Py.min trade_usdt trade_usdt_max) in
  let '(min_score, min_signals) := gate_thresholds cfg boot_ts now in
  let first_nonzero (a b : Q) : option Q :=
    if Qeq_bool a 0 then (if Qeq_bool b 0 then None else Some b) else Some a in
  let d :=
    {| symbol := sym;
       action := "HOLD";
       score := score_;
       signal := signal_;
       requested_trade_usdt := trade_usdt;
       sl_pct := first_nonzero (Py.float_or (out_sl_pct out) 0.0) default_sl;
       tp_pct := first_nonzero (Py.float_or (out_tp_pct out) 0.0) default_tp;
       use_trailing :=
         match out_use_trailing out with Some b => b | None => false end;
       trailing_sl_pct :=
         (let a := Py.float_or (out_trailing_sl_pct out) 0.0 in
          if Qeq_bool a 0 then default_trailing else a);
       reason_tags := reason_tags_;
       reject_reason := None |} in
  if is_exit_signal signal_ then decide "EXIT" None d
  else if negb (is_entry_signal signal_) then
    decide "HOLD" (Some "STRATEGY_SIGNAL_NOT_ENTRY") d
  else if Py.Qlt_bool score_ min_score then
    decide "HOLD" (Some "SCORE_BELOW_MIN") d
  else if (valid_count <? min_signals)%Z then
    decide "HOLD" (Some "NOT_ENOUGH_VALID_SIGNALS") d
  else decide "ENTRY" None d.

(** [evaluate_symbol]; [outputs] is [self.strategy.outputs]. *)
Definition evaluate_symbol (cfg : Settings) (now : Q)
    (outputs : Py.dict StrategyOutput) (ai : t) (symbol_ : string)
  : t * AITradeDecision :=
  let sym := Py.strip (Py.upper symbol_) in
  let cooldown := Py.float_or (ai_eval_cooldown_sec cfg) 2.0 in
  let last_ts :=
    match Py.get sym (_last_eval_ts ai) with Some v => v | None => 0.0 end in
  let fresh (_ : unit) : t * AITradeDecision :=
    let ts' := Py.set sym now (_last_eval_ts ai) in
    let d :=
      match Py.get sym outputs with
      | None =>
          {| symbol := sym; action := "HOLD"; score := 0.0; signal := "HOLD";
             requested_trade_usdt := 0.0; sl_pct := None; tp_pct := None;
             use_trailing := false; trailing_sl_pct := 0.0;
             reason_tags := [];
             reject_reason := Some "NO_STRATEGY_OUTPUT_YET" |}
      | Some out => evaluate_output cfg (_boot_ts ai) now sym out
      end in
    (mkAI ts' (Py.set sym d (_last_decision_cache ai)) (_boot_ts ai), d) in
  if Py.Qlt_bool 0 cooldown && Py.Qlt_bool (now - last_ts) cooldown then
    match Py.get sym (_last_decision_cache ai) with
    | Some cached => (ai, cached)
    | None => fresh tt
    end
  else fresh tt.

End AIOrchestrator.

(* ================================================================== *)
(** * core/trading_engine.py *)
(* ================================================================== *)

Module TradingEngine.

Module PM := PositionManager.
Module AI := AIOrchestrator.

(** The capital-ledger keys of the state document ([StateManager.state]);
    a field is [None] when the key is absent or holds [None]. *)
Record StateDoc : Type := mkState {
  paper_balance_usdt : option Q;
  realized_pnl_today : option Q;
  daily_date : option string;
  daily_start_equity : option Q;
  capital_usdt : option Q;
  bot_balance_usdt : option Q;
  last_profit_split_date : option string
}.

Definition set_paper_balance (v : Q) (st : StateDoc) : StateDoc :=
  mkState (Some v) (realized_pnl_today st) (daily_date st)
    (daily_start_equity st) (capital_usdt st) (bot_balance_usdt st)
    (last_profit_split_date st).

Definition set_realized_pnl (v : Q) (st : StateDoc) : StateDoc :=
  mkState (paper_balance_usdt st) (Some v) (daily_date st)
    (daily_start_equity st) (capital_usdt st) (bot_balance_usdt st)
    (last_profit_split_date st).

Definition set_daily (d : string) (equity : Q) (st : StateDoc) : StateDoc :=
  mkState (paper_balance_usdt st) (realized_pnl_today st) (Some d)
    (Some equity) (capital_usdt st) (bot_balance_usdt st)
    (last_profit_split_date st).

Definition set_split (capital bot_bal : Q) (d : string) (st : StateDoc)
  : StateDoc :=
  mkState (paper_balance_usdt st) (realized_pnl_today st) (daily_date st)
    (daily_start_equity st) (Some capital) (Some bot_bal) (Some d).

(** The exchange as the engine uses it in LIVE mode. *)
Record LotSize : Type := mkLot { minQty : Q; maxQty : Q; stepSize : Q }.

Record SymbolFilters : Type := mkFilters {
  LOT_SIZE : option LotSize;
  MIN_NOTIONAL : option Q
}.

(** [create_order symbol side quantity] answers
    [(executedQty, cummulativeQuoteQty)], or [None] when the call raises;
    [get_symbol_info] answers the filters the engine keeps per symbol. *)
Record Client : Type := mkClient {
  create_order : string -> string -> Q -> option (Q * Q);
  get_symbol_info : string -> option SymbolFilters
}.

Record t : Type := mkEngine {
  settings : Settings;
  state : StateDoc;
  positions : PM.t;
  risk : RiskManager.t;
  prices : Py.dict Q;                 (* self.market.prices *)
  paper_mode : bool;
  client : option Client;
  api_client : option Client;         (* what Client(api_key, api_secret) yields *)
  max_bot_balance : Q
}.

Definition with_state (st : StateDoc) (e : t) : t :=
  mkEngine (settings e) st (positions e) (risk e) (prices e)
    (paper_mode e) (client e) (api_client e) (max_bot_balance e).

Definition with_positions (pm : PM.t) (e : t) : t :=
  mkEngine (settings e) (state e) pm (risk e) (prices e)
    (paper_mode e) (client e) (api_client e) (max_bot_balance e).

Definition with_risk (r : RiskManager.t) (e : t) : t :=
  mkEngine (settings e) (state e) (positions e) r (prices e)
    (paper_mode e) (client e) (api_client e) (max_bot_balance e).

Definition with_client (c : option Client) (e : t) : t :=
  mkEngine (settings e) (state e) (positions e) (risk e) (prices e)
    (paper_mode e) c (api_client e) (max_bot_balance e).

(** ** Daily rollover and profit split *)

(** [_apply_daily_profit_split(st)]. *)
Definition _apply_daily_profit_split (e : t) : t :=
  let st := state e in
  let prev_date := match daily_date st with Some d => d | None => "" end in
  if Py.is_empty prev_date then e
  else if String.eqb
            (match last_profit_split_date st with Some d => d | None => "" end)
            prev_date then e
  else
    let pnl := Py.float_or (realized_pnl_today st) 0.0 in
    let capital := Py.float_or (capital_usdt st) (max_bot_balance e) in
    let bot_bal := Py.float_or (bot_balance_usdt st) 0.0 in
    let '(capital, bot_bal) :=
      if Py.Qlt_bool 0 pnl then
        let half := pnl * 0.5 in (capital + half, bot_bal + half)
      else if Py.Qlt_bool pnl 0 then (capital + pnl, bot_bal)
      else (capital, bot_bal) in
    with_state (set_split capital bot_bal prev_date st) e.

(** [_ensure_daily_rollover()]; [today] is [date.today().isoformat()]. *)
Definition _ensure_daily_rollover (today : string) (e : t) : t :=
  let st := state e in
  match daily_date st with
  | None =>
      with_state
        (mkState (paper_balance_usdt st)
           (match realized_pnl_today st with
            | Some v => Some v | None => Some 0.0 end)
           (Some today) (Some (max_bot_balance e))
           (capital_usdt st) (bot_balance_usdt st)
           (last_profit_split_date st)) e
  | Some prev_date =>
      if Py.is_empty prev_date then
        with_state
          (mkState (paper_balance_usdt st)
             (match realized_pnl_today st with
              | Some v => Some v | None => Some 0.0 end)
             (Some today) (Some (max_bot_balance e))
             (capital_usdt st) (bot_balance_usdt st)
             (last_profit_split_date st)) e
      else if negb (String.eqb prev_date today) then
        let e1 := _apply_daily_profit_split e in
        with_state
          (set_daily today (max_bot_balance e1)
             (set_realized_pnl 0.0 (state e1))) e1
      else e
  end.

(** ** Quantity filters *)

(** The quotient, the floor and the rounding are those of the exact
    values; the code's binary64 quotient can fall below an integer the
    exact one reaches (0.3 / 0.1), and its result is then one step
    lower. *)
Definition _normalize_quantity (e : t) (symbol_ : string) (qty price : Q) : Q :=
  if Qle_bool qty 0 || Qle_bool price 0 then 0.0
  else if paper_mode e then Py.round_decimals 6 qty
  else
    let f :=
      match client e with
      | Some c => match get_symbol_info c symbol_ with
                  | Some f => f | None => mkFilters None None end
      | None => mkFilters None None
      end in
    let after_lot : option Q :=
      match LOT_SIZE f with
      | Some lot =>
          let qty1 :=
            if Py.Qlt_bool 0 (stepSize lot)
            then inject_Z (Qfloor (qty / stepSize lot)) * stepSize lot
            else qty in
          if Py.Qlt_bool qty1 (minQty lot) then None
          else if Py.Qlt_bool 0 (maxQty lot) && Py.Qlt_bool (maxQty lot) qty1
          then Some (maxQty lot)
          else Some qty1
      | None => Some qty
      end in
    match after_lot with
    | None => 0.0
    | Some qty2 =>
        let mn := Py.float_or (MIN_NOTIONAL f) 0.0 in
        if Py.Qlt_bool 0 mn && Py.Qlt_bool (qty2 * price) mn then 0.0
        else Py.round_decimals 8 qty2
    end.

(** ** Execution *)

Definition _init_live_client_if_needed (e : t) : t :=
  if paper_mode e then with_client None e
  else match client e with
       | Some _ => e
       | None => with_client (api_client e) e
       end.

(** [_log_entry_reject]: whether the code reaches the logger.
    [debug_entry_reasons] is the engine's flag, [False] under the default
    settings; of the codes handed over only the "important" ones are
    written. *)
Definition important_reasons : list string :=
  ["RISK_BLOCK"; "PAPER_BAL_ZERO"; "DUPLICATE_SYMBOL"; "MIN_TRADE_BLOCK";
   "PAPER_INSUFFICIENT_BAL"].

Definition _log_entry_reject (debug_entry_reasons : bool) (code : string)
  : bool :=
  if negb debug_entry_reasons then false
  else existsb (String.eqb code) important_reasons.

(** The tolerance of the paper solvency test. *)
Definition EPS : Q := 1e-9.

(** [_execute_entry]; the second component lists the codes handed to
    [_log_entry_reject]. *)
Definition _execute_entry (now : Q) (pos_id : string) (e : t)
    (symbol_ : string) (price qty : Q) (tp_price sl_price : option Q)
    (use_trailing : bool) (trailing_sl_pct : Q) (reason_tags : list string)
  : t * list string :=
  let sym := Py.upper symbol_ in
  let open_in_manager (e : t) (price qty : Q) : t * list string :=
    match PM.open_position (settings e) pos_id now (positions e) sym
            price qty (Some (if paper_mode e then "paper" else "live")) "bot"
            None (Py.truthy tp_price) (Py.truthy sl_price)
            (Some (use_trailing && Py.Qlt_bool 0 trailing_sl_pct))
            (Some trailing_sl_pct) reason_tags with
    | Py.Ok (pm', _) => (with_positions pm' e, [])
    | Py.ValueError _ => (e, [])
    end in
  if negb (paper_mode e) then
    let e := _init_live_client_if_needed e in
    match client e with
    | None => (e, [])
    | Some c =>
        match create_order c sym "BUY" (Py.round_decimals 8 qty) with
        | None => (e, [])
        | Some (filled_qty, cumm_quote) =>
            if Py.Qlt_bool 0 filled_qty && Py.Qlt_bool 0 cumm_quote
            then open_in_manager e (cumm_quote / filled_qty) filled_qty
            else open_in_manager e price qty
        end
    end
  else
    let st := state e in
    let trade_amount := price * qty in
    let paper_bal := Py.float_or (paper_balance_usdt st) 0.0 in
    if Py.Qlt_bool (paper_bal + EPS) trade_amount then
      (e, ["PAPER_INSUFFICIENT_BAL"])
    else
      let e :=
        with_state
          (set_paper_balance (Py.max 0.0 (paper_bal - trade_amount)) st) e in
      open_in_manager e price qty.

(** [_execute_close]. *)
Definition _execute_close (now : Q) (e : t) (pid : string) (price : Q)
    (reason : string) : t :=
  match Py.get pid (PM.open_positions (positions e)) with
  | None => e
  | Some pos =>
      if negb (String.eqb (PM.source pos) "bot") then e
      else
        let sym := Py.upper (PM.symbol pos) in
        let qty := PM.qty pos in
        if Qle_bool qty 0 then e
        else
          let sold :=
            if negb (paper_mode e) then
              match client e with
              | Some c =>
                  match create_order c sym "SELL" (Py.round_decimals 8 qty) with
                  | Some _ => true
                  | None => false
                  end
              | None => true
              end
            else true in
          if negb sold then e
          else
            match PM.close_position now (positions e) pid price reason None with
            | (_, None) => e
            | (pm', Some closed) =>
                let pnl := PM.pnl_usdt closed in
                let st := state e in
                let st :=
                  set_realized_pnl
                    (Py.float_or (realized_pnl_today st) 0.0 + pnl) st in
                let st :=
                  if paper_mode e then
                    set_paper_balance
                      (Py.float_or (paper_balance_usdt st) 0.0 + qty * price) st
                  else st in
                with_risk
                  (RiskManager.on_position_closed now (risk e) sym pnl)
                  (with_state st (with_positions pm' e))
            end
  end.

(** [_on_price]: the market-data listener. *)
Definition _on_price (e : t) (symbol_ : string) (price : Q) : t :=
  with_positions (PM.update_market_price (positions e) symbol_ price) e.

(** The tail of [_apply_ai_decision] under "Only entry logic below",
    reached with an ENTRY decision; [open_all] and [bot_positions_sym]
    are the snapshots taken before the exits were executed.  The second
    component lists the codes handed to [_log_entry_reject]. *)
Definition _entry_logic (now : Q) (pos_id : string) (e : t) (sym : string)
    (last : Q) (open_all bot_positions_sym : list PM.Position)
    (decision : AI.AITradeDecision) : t * list string :=
  let st := state e in
  let risk_res := RiskManager.check_new_position now (risk e) sym open_all in
  if negb (fst risk_res) then (e, ["RISK_BLOCK"])
  else if negb (match bot_positions_sym with [] => true | _ => false end)
  then (e, ["DUPLICATE_SYMBOL"])
  else
    let req_usdt := AI.requested_trade_usdt decision in
    if Qle_bool req_usdt 0 then (e, ["REQ_USDT_ZERO"])
    else
      let paper_bal := Py.float_or (paper_balance_usdt st) 0.0 in
      if paper_mode e && Qle_bool paper_bal 0 then (e, ["PAPER_BAL_ZERO"])
      else
        let req_usdt :=
          if paper_mode e then Py.min req_usdt paper_bal else req_usdt in
        let min_trade :=
          match risk_min_trade_usdt (settings e) with
          | Some v => v | None => 2.0 end in
        if Py.Qlt_bool req_usdt min_trade then (e, ["MIN_TRADE_BLOCK"])
        else
          let qty_raw := req_usdt / last in
          let qty := _normalize_quantity e sym qty_raw last in
          if Qle_bool qty 0 then (e, ["QTY_NORMALIZE_ZERO"])
          else
            let sl_price :=
              match Py.truthy (AI.sl_pct decision) with
              | Some pct => Some (last * (1 - pct / 100.0))
              | None => None end in
            let tp_price :=
              match Py.truthy (AI.tp_pct decision) with
              | Some pct => Some (last * (1 + pct / 100.0))
              | None => None end in
            _execute_entry now pos_id e sym last qty tp_price sl_price
              (AI.use_trailing decision) (AI.trailing_sl_pct decision)
              (AI.reason_tags decision).

(** [_apply_ai_decision]. *)
Definition _apply_ai_decision (now : Q) (pos_id : string) (e : t)
    (decision : AI.AITradeDecision) : t * list string :=
  let sym := Py.upper (AI.symbol decision) in
  if Py.is_empty sym then (e, [])
  else
    let last := Py.float_or (Py.get sym (prices e)) 0.0 in
    if Qle_bool last 0 then (e, ["NO_PRICE"])
    else
      let e := with_positions (PM.update_market_price (positions e) sym last) e in
      let open_all := PM.get_open_positions (positions e) in
      let bot_positions_sym :=
        filter (fun p => String.eqb (PM.symbol p) sym
                         && String.eqb (PM.source p) "bot") open_all in
      let recs := PM.check_exit_recommendations (positions e) sym last true in
      let e :=
        fold_left (fun e rec => _execute_close now e (fst rec) last (snd rec))
                  recs e in
      if String.eqb (AI.action decision) "EXIT"
         && negb (match bot_positions_sym with [] => true | _ => false end) then
        (fold_left (fun e p => _execute_close now e (PM.id p) last "AI_EXIT")
                   bot_positions_sym e, [])
      else if negb (String.eqb (AI.action decision) "ENTRY") then (e, [])
      else _entry_logic now pos_id e sym last open_all bot_positions_sym decision.

(** What drives the engine between two rollovers: a price tick from the
    market-data listener, or a decision applied by the control loop. *)
Inductive Event : Type :=
| Price (symbol_ : string) (price : Q)
| Decision (now : Q) (pos_id : string) (decision : AI.AITradeDecision).

Definition handle (e : t) (ev : Event) : t :=
  match ev with
  | Price symbol_ price => _on_price e symbol_ price
  | Decision now pos_id decision => fst (_apply_ai_decision now pos_id e decision)
  end.

Definition run (e : t) (evs : list Event) : t := fold_left handle evs e.

(** One pass of [_run_loop] on the date [today]: the rollover check comes
    first, then the decisions of the pass and the ticks that arrive
    meanwhile. *)
Definition loop_iteration (today : string) (e : t) (evs : list Event) : t :=
  run (_ensure_daily_rollover today e) evs.

(** Successive passes of [_run_loop] on one calendar date. *)
Definition loop (today : string) (e : t) (passes : list (list Event)) : t :=
  fold_left (loop_iteration today) passes e.

(** One turn of the loop [for sym in list(outputs.keys())] of
    [_run_loop]: the orchestrator evaluates the symbol at the clock reading
    [eval_at] and the decision is applied at the clock reading [apply_at],
    [fresh_id] being the id an entry would draw.  The orchestrator reads
    the settings the engine reads. *)
Record Turn : Type := mkTurn {
  turn_symbol : string;
  eval_at : Q;
  apply_at : Q;
  fresh_id : string
}.

Definition loop_turn (outputs : Py.dict AI.StrategyOutput) (st : AI.t * t)
    (tn : Turn) : AI.t * t :=
  let '(ai, e) := st in
  let '(ai', decision) :=
    AI.evaluate_symbol (settings e) (eval_at tn) outputs ai (turn_symbol tn) in
  (ai', fst (_apply_ai_decision (apply_at tn) (fresh_id tn) e decision)).

Definition loop_turns (outputs : Py.dict AI.StrategyOutput) (st : AI.t * t)
    (turns : list Turn) : AI.t * t :=
  fold_left (loop_turn outputs) turns st.

(** The keys of the state document written by the rollover and by the
    profit split alone. *)
Definition rollover_keys (e : t)
  : option string * option Q * option Q * option Q * option string :=
  (daily_date (state e), daily_start_equity (state e),
   capital_usdt (state e), bot_balance_usdt (state e),
   last_profit_split_date (state e)).

End TradingEngine.

(* ================================================================== *)
(** * core/trading_engine.py: the paper balance in binary64 *)
(* ================================================================== *)

(** The statements of [_execute_entry] and [_execute_close] that compute
    [paper_balance_usdt], over binary64 floats: every product, sum and
    difference is rounded to the nearest float, as Python rounds it. *)
Module Binary64.

Import PrimFloat.
#[local] Open Scope float_scope.

(** [float(x or d)] where [x] may be missing or [0.0]. *)
Definition float_or (x : option float) (d : float) : float :=
  match x with
  | Some v => if v =? 0 then d else v
  | None => d
  end.

(** [max(a, b)]: the first argument unless the second is larger. *)
Definition max (a b : float) : float := if a <? b then b else a.

(** The paper debit of [_execute_entry]: the balance it stores, [None]
    when it returns with PAPER_INSUFFICIENT_BAL. *)
Definition _execute_entry (paper_balance_usdt : option float)
    (price qty : float) : option float :=
  let trade_amount := price * qty in
  let paper_bal := float_or paper_balance_usdt 0 in
  if paper_bal + 1e-9 <? trade_amount then None
  else Some (max 0 (paper_bal - trade_amount)).

(** The paper credit of [_execute_close]: the balance it stores. *)
Definition _execute_close (paper_balance_usdt : option float)
    (qty price : float) : float :=
  let proceeds := qty * price in
  float_or paper_balance_usdt 0 + proceeds.

End Binary64.

(* ================================================================== *)
(** * core/market_data_manager.py: reconnect control *)
(* ================================================================== *)

Module MarketDataManager.

(** The fields that steer [_ws_loop], and [_lock]: a [threading.Lock],
    which is not reentrant.  [_lock_held] says that a call of
    [update_symbols] that cannot proceed holds it, so that it is never
    released; the short critical sections of the other methods are not
    modelled. *)
Record t : Type := mkMD {
  ws_backoff_sec : list Z;
  _running : bool;
  _symbols : list string;
  _reconnect_index : Z;
  _force_reconnect_event : bool;
  _lock_held : bool
}.

(** How a call ends: it returns, or it waits for [_lock] for ever. *)
Inductive Outcome : Type :=
| Returns
| Hangs.

(** [l[i]] with Python's negative indices; [None] is [IndexError]. *)
Definition list_index {A} (l : list A) (i : Z) : option A :=
  let n := Z.of_nat (List.length l) in
  let j := if (i <? 0)%Z then (i + n)%Z else i in
  if ((0 <=? j) && (j <? n))%Z then nth_error l (Z.to_nat j) else None.

Fixpoint mem (s : string) (l : list string) : bool :=
  match l with
  | [] => false
  | x :: r => String.eqb x s || mem s r
  end.

(** [list(dict.fromkeys(l))]: first occurrences, in order. *)
Fixpoint fromkeys (seen l : list string) : list string :=
  match l with
  | [] => []
  | x :: r => if mem x seen then fromkeys seen r
              else x :: fromkeys (x :: seen) r
  end.

Fixpoint list_eqb (a b : list string) : bool :=
  match a, b with
  | [], [] => true
  | x :: a', y :: b' => String.eqb x y && list_eqb a' b'
  | _, _ => false
  end.

Definition start (m : t) : t :=
  if _running m then m
  else mkMD (ws_backoff_sec m) true (_symbols m) 0 false (_lock_held m).

Definition stop (m : t) : t :=
  mkMD (ws_backoff_sec m) false (_symbols m) (_reconnect_index m) true
       (_lock_held m).

(** [update_symbols].  The list is normalised before the lock is asked
    for.  [with self._lock:] waits while the lock is held.  With the lock
    in hand, an unchanged list returns at once, which releases the lock;
    a changed list is stored and [_rebuild_streams_url] is called inside
    the [with] block, whose first statement is [with self._lock:] again:
    the call waits for the lock it holds itself, so it never reaches
    [_force_reconnect_event.set()] and never releases the lock. *)
Definition update_symbols (m : t) (symbols : list string) : t * Outcome :=
  let new_syms :=
    List.map (fun s => Py.strip (Py.upper s))
             (filter (fun s => negb (Py.is_empty s)) symbols) in
  let new_syms := fromkeys [] new_syms in
  if _lock_held m then (m, Hangs)
  else if list_eqb new_syms (_symbols m) then (m, Returns)
  else (mkMD (ws_backoff_sec m) (_running m) new_syms (_reconnect_index m)
             (_force_reconnect_event m) true,
        Hangs).

(** The list [update_symbols] compares with the stored one: its local
    [new_syms]. *)
Definition new_syms (symbols : list string) : list string :=
  fromkeys []
    (List.map (fun s => Py.strip (Py.upper s))
              (filter (fun s => negb (Py.is_empty s)) symbols)).

(** [_on_open]: the socket reports an established connection. *)
Definition _on_open (m : t) : t :=
  mkMD (ws_backoff_sec m) (_running m) (_symbols m) 0
       (_force_reconnect_event m) (_lock_held m).

(** How one pass of the [while] body of [_ws_loop] ends. *)
Inductive LoopStep : Type :=
| Break                      (* the loop is left *)
| Continue                   (* forced reconnect, no delay *)
| Sleep (delay : Z)          (* [time.sleep(delay)] *)
| IndexError.                (* the delay lookup raised *)

(** The body of [_ws_loop] from the return of [_connect_and_run] on. *)
Definition after_disconnect (m : t) : t * LoopStep :=
  if negb (_running m) then (m, Break)
  else if _force_reconnect_event m then
    (mkMD (ws_backoff_sec m) (_running m) (_symbols m) 0 false
          (_lock_held m),
     Continue)
  else
    let i := Z.min (_reconnect_index m)
                   (Z.of_nat (List.length (ws_backoff_sec m)) - 1) in
    match list_index (ws_backoff_sec m) i with
    | None => (m, IndexError)
    | Some delay =>
        (mkMD (ws_backoff_sec m) (_running m) (_symbols m)
              (_reconnect_index m + 1) (_force_reconnect_event m)
              (_lock_held m),
         Sleep delay)
    end.

(** What happens to a running manager, in order.  [_ws_loop] and
    [_on_open] run on the socket thread and never ask for [_lock];
    [update_symbols] is called from another thread, so a call that hangs
    leaves the loop running.  (The message handlers do ask for the lock;
    a connection attempt that fails delivers no message.) *)
Inductive Event : Type :=
| ConnectFailed                       (* [_connect_and_run] returns, never opened *)
| ConnectOpened                       (* [_on_open] fires *)
| ConnectionLost                      (* [_connect_and_run] returns after an open *)
| WatchSetChanged (symbols : list string).

Definition step (m : t) (ev : Event) : t * list LoopStep :=
  match ev with
  | ConnectFailed | ConnectionLost =>
      let '(m', s) := after_disconnect m in (m', [s])
  | ConnectOpened => (_on_open m, [])
  | WatchSetChanged syms => (fst (update_symbols m syms), [])
  end.

Fixpoint run (m : t) (evs : list Event) : t * list LoopStep :=
  match evs with
  | [] => (m, [])
  | ev :: r =>
      let '(m1, s1) := step m ev in
      let '(m2, s2) := run m1 r in
      (m2, (s1 ++ s2)%list)
  end.

(** The [i]-th delay of the configured sequence, its last element
    repeated from there on. *)
Definition capped_delay (backoff : list Z) (i : nat) : Z :=
  nth (Nat.min i (List.length backoff - 1)) backoff 0%Z.

(** The manager as [__init__] leaves it under the default settings, once
    started. *)
Definition started_default : t :=
  start (mkMD [2; 5; 10; 15]%Z false ["BTCUSDT"] 0 false false).

(** ** The in-memory stores and the message handlers *)

Record Candle : Type := mkCandle {
  open_time : Z;
  open : Q;
  high : Q;
  low : Q;
  close : Q;
  volume : Q;
  close_time : Z;
  is_closed : bool
}.

(** [self.prices], [self.change_24h] and [self.klines]. *)
Record Stores : Type := mkStores {
  prices : Py.dict Q;
  change_24h : Py.dict Q;
  klines : Py.dict (Py.dict (list Candle))
}.

(** One element of the [!ticker@arr] payload: [ticker_s] is [t.get("s")];
    [ticker_c] and [ticker_P] are what [float(t.get("c", 0.0))] and
    [float(t.get("P", 0.0))] yield, [None] when the conversion raises. *)
Record Ticker : Type := mkTicker {
  ticker_s : option string;
  ticker_c : option Q;
  ticker_P : option Q
}.

(** [{iv: [] for iv in self.kline_intervals}]. *)
Definition empty_klines (kline_intervals : list string)
  : Py.dict (list Candle) :=
  fold_left (fun d iv => Py.set iv [] d) kline_intervals [].

(** [_handle_ticker_array]; the second component lists the calls of
    [_emit_price], in order. *)
Fixpoint _handle_ticker_array (watchset kline_intervals : list string)
    (st : Stores) (arr : list Ticker) : Stores * list (string * Q * Q) :=
  match arr with
  | [] => (st, [])
  | t :: r =>
      match ticker_s t with
      | None => _handle_ticker_array watchset kline_intervals st r
      | Some sym =>
          if Py.is_empty sym || negb (mem sym watchset) then
            _handle_ticker_array watchset kline_intervals st r
          else
            match ticker_c t, ticker_P t with
            | Some last_price, Some change_pct =>
                let st1 :=
                  mkStores (Py.set sym last_price (prices st))
                    (Py.set sym change_pct (change_24h st))
                    (match Py.get sym (klines st) with
                     | Some _ => klines st
                     | None =>
                         Py.set sym (empty_klines kline_intervals) (klines st)
                     end) in
                let '(st2, evs) :=
                  _handle_ticker_array watchset kline_intervals st1 r in
                (st2, (sym, last_price, change_pct) :: evs)
            | _, _ => _handle_ticker_array watchset kline_intervals st r
            end
      end
  end.

(** [s.split(sep)] for a non-empty separator, scanning from the left:
    [skip] counts the characters of a matched separator still to pass and
    [cur] is the piece read so far. *)
Fixpoint split_go (sep : string) (skip : nat) (cur s : string) : list string :=
  match s with
  | EmptyString => [cur]
  | String c r =>
      match skip with
      | S k => split_go sep k cur r
      | O =>
          if String.prefix sep s
          then cur :: split_go sep (String.length sep - 1) EmptyString r
          else split_go sep O (cur ++ String c EmptyString) r
      end
  end.

Definition split (sep s : string) : list string := split_go sep O EmptyString s.








End MarketDataManager.

(* ================================================================== *)
(** * Sequences of ledger operations *)
(* ================================================================== *)

Module Ledger.

Module PM := PositionManager.

(** One call of the public interface of [PositionManager], with the
    clock reading and the fresh id it draws. *)
Inductive Call : Type :=
| Open (pos_id : string) (now : Q) (symbol_ : string)
       (entry_price_ qty_ : Q) (mode_ : option string) (source_ : string)
       (opened_at_ : option Q) (tp_price_ sl_price_ : option Q)
       (use_trailing_ : option bool) (trailing_sl_pct_ : option Q)
       (meta_ : list string)
| Update (symbol_ : string) (price : Q)
| Close (now : Q) (position_id : string) (exit_price : Q)
        (reason : string) (closed_at_ : option Q).

(** The ledger after the call; a call that raises leaves it as it was. *)
Definition call (cfg : Settings) (pm : PM.t) (c : Call) : PM.t :=
  match c with
  | Open pos_id now symbol_ entry_price_ qty_ mode_ source_ opened_at_
         tp_price_ sl_price_ use_trailing_ trailing_sl_pct_ meta_ =>
      match PM.open_position cfg pos_id now pm symbol_ entry_price_ qty_
              mode_ source_ opened_at_ tp_price_ sl_price_ use_trailing_
              trailing_sl_pct_ meta_ with
      | Py.Ok (pm', _) => pm'
      | Py.ValueError _ => pm
      end
  | Update symbol_ price => PM.update_price pm symbol_ price
  | Close now position_id exit_price reason closed_at_ =>
      fst (PM.close_position now pm position_id exit_price reason closed_at_)
  end.

(** Every ledger the calls can build, starting from [pm]. *)
Definition run_from (cfg : Settings) (pm : PM.t) (calls : list Call) : PM.t :=
  fold_left (call cfg) calls pm.

Definition run (cfg : Settings) (calls : list Call) : PM.t :=
  run_from cfg PM.empty calls.

(** A stream of price ticks [(symbol, price)] applied in order. *)
Definition ticks (pm : PM.t) (l : list (string * Q)) : PM.t :=
  fold_left (fun pm t => PM.update_price pm (fst t) (snd t)) l pm.

(** Order on stop prices: a stop that is set stays set and does not
    decrease; an unset stop stays unset. *)
Definition sl_le (a b : option Q) : Prop :=
  match a, b with
  | Some x, Some y => x <= y
  | None, None => True
  | _, _ => False
  end.

(** Open bot positions whose stored symbol is exactly [sym]. *)
Definition open_bot_on (pm : PM.t) (sym : string) : list PM.Position :=
  filter (fun p => String.eqb (PM.symbol p) sym
                   && String.eqb (PM.status p) "open"
                   && String.eqb (PM.source p) "bot")
         (PM.get_open_positions pm).

(** [pm'] is obtained from [pm] by calls of the manager's interface. *)
Definition via_calls (cfg : Settings) (pm pm' : PM.t) : Prop :=
  exists calls : list Call, pm' = run_from cfg pm calls.

(** The engine [e'] has the settings of [e] and a ledger obtained from
    that of [e] through the manager's interface. *)
Definition engine_via_calls (e e' : TradingEngine.t) : Prop :=
  TradingEngine.settings e' = TradingEngine.settings e
  /\ via_calls (TradingEngine.settings e)
       (TradingEngine.positions e) (TradingEngine.positions e').

(** At most one open bot position answers to any symbol, in the sense of
    the manager's own test [has_open_bot_position]. *)
Definition one_bot_per_symbol (pm : PM.t) : Prop :=
  forall s : string,
    (List.length (filter (PM.is_open_bot_on s) (PM.get_open_positions pm)) <= 1)%nat.

(** What every ledger built through the interface satisfies: ids are
    distinct, each position is filed under its own id, is open, has a
    non-blank upper-case symbol, a positive entry price and quantity, and
    carries the PnL of its current price. *)
Definition sound_position (pid : string) (p : PM.Position) : Prop :=
  PM.id p = pid
  /\ PM.status p = "open"
  /\ Py.is_empty (PM.symbol p) = false
  /\ Py.upper (PM.symbol p) = PM.symbol p
  /\ 0 < PM.entry_price p
  /\ 0 < PM.qty p
  /\ 0 < PM.current_price p
  /\ PM.pnl_usdt p == (PM.current_price p - PM.entry_price p) * PM.qty p.

Definition sound (pm : PM.t) : Prop :=
  NoDup (Py.keys (PM.open_positions pm))
  /\ (forall pid p, In (pid, p) (PM.open_positions pm) -> sound_position pid p)
  /\ (forall c, In c (PM.closed_positions pm) -> PM.status c = "closed").

(** The paper equity the books account for: the paper balance, plus the
    entry notional tied up in open bot positions, minus the PnL realized
    today. *)
Definition paper_equity (e : TradingEngine.t) : Q :=
  Py.float_or (TradingEngine.paper_balance_usdt (TradingEngine.state e)) 0.0
  + PM.get_used_bot_balance (TradingEngine.positions e)
  - Py.float_or (TradingEngine.realized_pnl_today (TradingEngine.state e)) 0.0.

(** Every decision the orchestrator has cached is filed under its own
    symbol, and that symbol is in normal form (upper case, no surrounding
    blanks). *)
Definition cache_keyed (ai : AIOrchestrator.t) : Prop :=
  forall k d,
    Py.get k (AIOrchestrator._last_decision_cache ai) = Some d ->
    AIOrchestrator.symbol d = k /\ Py.strip (Py.upper k) = k.

(** Ledgers built by the manager hold only named, open positions. *)
Definition well_formed (pm : PM.t) : Prop :=
  forall pid p, In (pid, p) (PM.open_positions pm) ->
    Py.is_empty (PM.symbol p) = false /\ PM.status p = "open".

End Ledger.

(* ================================================================== *)
(** * The market data manager wired to the engine *)
(* ================================================================== *)

Module Wiring.

Module TE := TradingEngine.
Module MD := MarketDataManager.

Definition with_prices (pr : Py.dict Q) (e : TE.t) : TE.t :=
  TE.mkEngine (TE.settings e) (TE.state e) (TE.positions e) (TE.risk e) pr
    (TE.paper_mode e) (TE.client e) (TE.api_client e) (TE.max_bot_balance e).

(** What a [!ticker@arr] message does to the engine: [self.market.prices]
    is the price store of the market data manager, and [_on_price] is the
    price listener the engine registers in its constructor. *)
Definition on_ticker_array (watchset kline_intervals : list string)
    (st : MD.Stores) (e : TE.t) (arr : list MD.Ticker) : MD.Stores * TE.t :=
  let '(st', evs) := MD._handle_ticker_array watchset kline_intervals st arr in
  (st',
   fold_left (fun e ev => TE._on_price e (fst (fst ev)) (snd (fst ev)))
             evs (with_prices (MD.prices st') e)).

End Wiring.

(* ================================================================== *)
(** * Worked scenarios *)
(* ================================================================== *)

Module Scenario.

Module PM := PositionManager.

Definition NOW : Q := 1700000000.

(** A trailing bot position on BTCUSDT: entry 100, quantity 2, take profit
    103, stop 99, trailing distance 1 percent. *)
Definition open_btc : Ledger.Call :=
  Ledger.Open "p1" NOW "btcusdt" 100 2 None "bot" None
    (Some 103) (Some 99) (Some true) (Some 1) [].

Definition position1 : PM.Position :=
  {| PM.id := "p1"; PM.symbol := "BTCUSDT"; PM.source := "bot";
     PM.entry_price := 100; PM.qty := 2; PM.current_price := 100;
     PM.pnl_usdt := 0; PM.pnl_percent := 0;
     PM.tp_price := Some 103; PM.sl_price := Some 99;
     PM.use_trailing := true; PM.trailing_sl_pct := 1;
     PM.peak_price := 100; PM.status := "open"; PM.mode := "paper";
     PM.opened_at := NOW; PM.closed_at := None; PM.exit_reason := None;
     PM.meta := [] |}.

(** The ledger holding that position, and the same ledger after a tick
    at 110 has pulled the stop up to 108.9. *)
Definition ledger1 : PM.t := Ledger.run DEFAULT_SETTINGS [open_btc].

Definition ledger2 : PM.t :=
  Ledger.run DEFAULT_SETTINGS [open_btc; Ledger.Update "BTCUSDT" 110].

(** A paper-mode engine over an empty ledger: [balance] USDT of paper
    money and BTCUSDT quoted at [price]. *)
Definition engine (balance price : Q) : TradingEngine.t :=
  TradingEngine.mkEngine DEFAULT_SETTINGS
    (TradingEngine.mkState (Some balance) (Some 0) (Some "2026-01-01")
       (Some 1000) (Some 1000) (Some 0) None)
    PM.empty (RiskManager.refresh_settings DEFAULT_SETTINGS 0 [])
    [("BTCUSDT", price)] true None None 1000.

(** The ENTRY decision the gate issues under the default settings:
    10 USDT requested, stop 2 percent, take profit 3 percent. *)
Definition entry10 : AIOrchestrator.AITradeDecision :=
  AIOrchestrator.mkDecision "BTCUSDT" "ENTRY" 70 "ENTRY" 10
    (Some 2.0) (Some 3.0) false 1.0 [] None.

(** The day 2026-01-01 closed with [pnl] USDT realized, capital 1000 and
    an empty bot balance. *)
Definition engine_after_day (pnl : Q) : TradingEngine.t :=
  TradingEngine.mkEngine DEFAULT_SETTINGS
    (TradingEngine.mkState (Some 1000) (Some pnl) (Some "2026-01-01")
       (Some 1000) (Some 1000) (Some 0) None)
    PM.empty (RiskManager.refresh_settings DEFAULT_SETTINGS 0 [])
    [("BTCUSDT", 100)] true None None 1000.

(** The default settings with [ai.min_valid_signals] raised to 2; the
    stock [ai.warmup_relax_signals_delta] of 1 is kept. *)
Definition settings_two_signals : Settings :=
  mkSettings (trading_mode DEFAULT_SETTINGS)
    (risk_take_profit_pct DEFAULT_SETTINGS) (risk_stop_loss_pct DEFAULT_SETTINGS)
    (risk_use_trailing DEFAULT_SETTINGS) (risk_trailing_sl_pct DEFAULT_SETTINGS)
    (risk_min_trade_usdt DEFAULT_SETTINGS) (risk_max_open_trades DEFAULT_SETTINGS)
    (risk_max_trades_per_symbol DEFAULT_SETTINGS)
    (risk_loss_cooldown_min DEFAULT_SETTINGS)
    (risk_reentry_delay_min DEFAULT_SETTINGS)
    (ai_min_score DEFAULT_SETTINGS) (Some 2%Z)
    (ai_eval_cooldown_sec DEFAULT_SETTINGS) (ai_warmup_relax_sec DEFAULT_SETTINGS)
    (ai_warmup_relax_score_delta DEFAULT_SETTINGS)
    (ai_warmup_relax_signals_delta DEFAULT_SETTINGS)
    (ai_default_sl_pct DEFAULT_SETTINGS) (ai_default_tp_pct DEFAULT_SETTINGS)
    (ai_default_trailing_sl_pct DEFAULT_SETTINGS)
    (ai_trade_usdt DEFAULT_SETTINGS) (ai_trade_usdt_min DEFAULT_SETTINGS)
    (ai_trade_usdt_max DEFAULT_SETTINGS).

(** A [StrategyOutput(symbol, score, signal, details)] with an ENTRY
    signal and the given score. *)
Definition entry_output (score : Q) : AIOrchestrator.StrategyOutput :=
  AIOrchestrator.mkOut (Some "ENTRY") (Some score) None None None None None.

(** The engine started at [BOOT]; [WARM] lies 10 s into the 300 s warmup
    window, [COLD] lies 400 s after the start. *)
Definition BOOT : Q := 1700000000.
Definition WARM : Q := 1700000010.
Definition COLD : Q := 1700000400.

(** An exchange that fills every market order in full at 100 USDT and
    publishes a lot size of 0.001 to 50 in steps of 0.001 with a minimum
    notional of 5 USDT; and one whose orders are always refused. *)
Definition btc_filters : TradingEngine.SymbolFilters :=
  TradingEngine.mkFilters
    (Some (TradingEngine.mkLot (1 # 1000) 50 (1 # 1000))) (Some 5).

Definition filling_client : TradingEngine.Client :=
  TradingEngine.mkClient (fun _ _ qty => Some (qty, qty * 100))
    (fun _ => Some btc_filters).

Definition refusing_client : TradingEngine.Client :=
  TradingEngine.mkClient (fun _ _ _ => None) (fun _ => Some btc_filters).

(** A LIVE-mode engine connected to [c], holding [position1] with its
    mode left as recorded. *)
Definition live_engine (c : TradingEngine.Client) : TradingEngine.t :=
  TradingEngine.mkEngine DEFAULT_SETTINGS
    (TradingEngine.mkState (Some 1000) (Some 0) (Some "2026-01-01")
       (Some 1000) (Some 1000) (Some 0) None)
    ledger1 (RiskManager.refresh_settings DEFAULT_SETTINGS 0 [])
    [("BTCUSDT", 100)] false (Some c) (Some c) 1000.

(** The paper-mode engine holding [position1], with 800 USDT of paper
    money left. *)
Definition engine_holding : TradingEngine.t :=
  TradingEngine.mkEngine DEFAULT_SETTINGS
    (TradingEngine.mkState (Some 800) (Some 0) (Some "2026-01-01")
       (Some 1000) (Some 1000) (Some 0) None)
    ledger1 (RiskManager.refresh_settings DEFAULT_SETTINGS 0 [])
    [("BTCUSDT", 100)] true None None 1000.

(** The same engine with ETHUSDT quoted as well, an ENTRY decision on
    ETHUSDT and an EXIT decision on BTCUSDT. *)
Definition engine_two_prices : TradingEngine.t :=
  TradingEngine.mkEngine DEFAULT_SETTINGS
    (TradingEngine.mkState (Some 800) (Some 0) (Some "2026-01-01")
       (Some 1000) (Some 1000) (Some 0) None)
    ledger1 (RiskManager.refresh_settings DEFAULT_SETTINGS 0 [])
    [("BTCUSDT", 100); ("ETHUSDT", 2000)] true None None 1000.

Definition entry_eth : AIOrchestrator.AITradeDecision :=
  AIOrchestrator.mkDecision "ETHUSDT" "ENTRY" 70 "ENTRY" 10
    (Some 2.0) (Some 3.0) false 1.0 [] None.

Definition exit_btc : AIOrchestrator.AITradeDecision :=
  AIOrchestrator.mkDecision "BTCUSDT" "EXIT" 30 "EXIT" 10
    (Some 2.0) (Some 3.0) false 1.0 [] None.

(** A freshly constructed orchestrator, strategy outputs calling for an
    entry on ETHUSDT, and two turns of the control loop after the warmup. *)
Definition fresh_ai : AIOrchestrator.t := AIOrchestrator.mkAI [] [] BOOT.

Definition outputs_eth : Py.dict AIOrchestrator.StrategyOutput :=
  [("ETHUSDT", entry_output 0.7)].

Definition two_turns : list TradingEngine.Turn :=
  [TradingEngine.mkTurn "ethusdt " COLD COLD "p2";
   TradingEngine.mkTurn "BTCUSDT" COLD COLD "p3"].

(** A ticker message quoting ETHUSDT, a symbol that is not watched, and
    an element whose price does not convert; a candle opening at [t]; and
    stores holding one 15m candle of BTCUSDT. *)
Definition tickers : list MarketDataManager.Ticker :=
  [MarketDataManager.mkTicker (Some "ETHUSDT") (Some 2010) (Some 1);
   MarketDataManager.mkTicker (Some "DOGEUSDT") (Some 1) (Some 1);
   MarketDataManager.mkTicker (Some "ETHUSDT") None (Some 2)].

Definition empty_stores : MarketDataManager.Stores :=
  MarketDataManager.mkStores [] [] [].



End Scenario.

(* ================================================================== *)
(** * Auxiliary facts *)
(* ================================================================== *)

Section PyFacts.

Lemma Qlt_bool_iff (x y : Q) : Py.Qlt_bool x y = true <-> x < y.
Proof.
  unfold Py.Qlt_bool. rewrite negb_true_iff.
  split; intro H.
  - apply Qnot_le_lt. intro Hle. apply Qle_bool_iff in Hle. congruence.
  - destruct (Qle_bool y x) eqn:E; [|reflexivity].
    apply Qle_bool_iff in E. exfalso. apply (Qlt_not_le _ _ H E).
Qed.

Lemma Qlt_bool_false (x y : Q) : Py.Qlt_bool x y = false <-> y <= x.
Proof.
  unfold Py.Qlt_bool. rewrite negb_false_iff. apply Qle_bool_iff.
Qed.

Lemma Qle_bool_false (x y : Q) : Qle_bool x y = false <-> y < x.
Proof.
  rewrite <- Qlt_bool_iff. unfold Py.Qlt_bool.
  destruct (Qle_bool x y); simpl; split; congruence.
Qed.

Lemma upper_not_empty (s : string) :
  Py.is_empty (Py.upper s) = Py.is_empty s.
Proof. destruct s; reflexivity. Qed.

Context {V : Type}.

Lemma get_map_values (f : V -> V) (k : string) (d : Py.dict V) :
  Py.get k (Py.map_values f d) = option_map f (Py.get k d).
Proof.
  induction d as [|[k' v] r IH]; simpl; [reflexivity|].
  destruct (String.eqb k' k); [reflexivity|exact IH].
Qed.

Lemma in_map_values (f : V -> V) (k : string) (v' : V) (d : Py.dict V) :
  In (k, v') (Py.map_values f d) -> exists v, In (k, v) d /\ v' = f v.
Proof.
  unfold Py.map_values. intro H. apply in_map_iff in H.
  destruct H as [[k0 v0] [E Hin]]. simpl in E. inversion E; subst.
  exists v0. split; [exact Hin|reflexivity].
Qed.

Lemma get_set_same (k : string) (v : V) (d : Py.dict V) :
  Py.get k (Py.set k v d) = Some v.
Proof.
  induction d as [|[k' v'] r IH]; simpl.
  - rewrite String.eqb_refl. reflexivity.
  - destruct (String.eqb k' k) eqn:E; simpl; rewrite E; [reflexivity|exact IH].
Qed.

Lemma get_pop_same (k : string) (d : Py.dict V) :
  Py.get k (Py.pop k d) = None.
Proof.
  induction d as [|[k' v'] r IH]; simpl; [reflexivity|].
  destruct (String.eqb k' k) eqn:E; simpl; [exact IH|].
  rewrite E. exact IH.
Qed.

Lemma get_in (k : string) (v : V) (d : Py.dict V) :
  Py.get k d = Some v -> In (k, v) d.
Proof.
  induction d as [|[k' v'] r IH]; simpl; [discriminate|].
  destruct (String.eqb k' k) eqn:E.
  - apply String.eqb_eq in E. intro H. inversion H; subst. left; reflexivity.
  - intro H. right. apply IH, H.
Qed.

Lemma in_set (k k0 : string) (v v0 : V) (d : Py.dict V) :
  In (k0, v0) (Py.set k v d) -> In (k0, v0) d \/ (k0 = k /\ v0 = v).
Proof.
  induction d as [|[k' v'] r IH]; simpl.
  - intros [H|[]]. inversion H; subst. right. split; reflexivity.
  - destruct (String.eqb k' k) eqn:E; simpl.
    + apply String.eqb_eq in E. subst k'.
      intros [H|H]; [inversion H; subst; right; split; reflexivity|].
      left. right. exact H.
    + intros [H|H]; [left; left; exact H|].
      destruct (IH H) as [H1|H1]; [left; right; exact H1|right; exact H1].
Qed.

Lemma in_pop (k k0 : string) (v0 : V) (d : Py.dict V) :
  In (k0, v0) (Py.pop k d) -> In (k0, v0) d.
Proof. unfold Py.pop. intro H. apply filter_In in H. apply H. Qed.

End PyFacts.


(* ================================================================== *)
(** * PositionLedger: price ticks *)
(* ================================================================== *)

Module PM := PositionManager.

Lemma update_one_static (price : Q) (p : PM.Position) :
  PM.id (PM.update_one price p) = PM.id p
  /\ PM.symbol (PM.update_one price p) = PM.symbol p
  /\ PM.source (PM.update_one price p) = PM.source p
  /\ PM.status (PM.update_one price p) = PM.status p
  /\ PM.entry_price (PM.update_one price p) = PM.entry_price p
  /\ PM.qty (PM.update_one price p) = PM.qty p
  /\ PM.use_trailing (PM.update_one price p) = PM.use_trailing p
  /\ PM.trailing_sl_pct (PM.update_one price p) = PM.trailing_sl_pct p
  /\ PM.tp_price (PM.update_one price p) = PM.tp_price p.
Proof.
  unfold PM.update_one; simpl.
  destruct (String.eqb (PM.source p) "bot" && PM.use_trailing p); simpl;
    [|repeat split].
  destruct (PM.sl_price p); simpl; [|repeat split].
  destruct (Py.Qlt_bool (PM.peak_price p) price); simpl; [|repeat split].
  destruct (Py.Qlt_bool 0 (PM.trailing_sl_pct p)); simpl; [|repeat split].
  destruct (Py.Qlt_bool q _); simpl; repeat split.
Qed.

Lemma update_one_pnl (price : Q) (p : PM.Position) :
  PM.current_price (PM.update_one price p) = price
  /\ PM.pnl_usdt (PM.update_one price p)
     = (price - PM.entry_price p) * PM.qty p.
Proof.
  unfold PM.update_one; simpl.
  destruct (String.eqb (PM.source p) "bot" && PM.use_trailing p); simpl;
    [|split; reflexivity].
  destruct (PM.sl_price p); simpl; [|split; reflexivity].
  destruct (Py.Qlt_bool (PM.peak_price p) price); simpl; [|split; reflexivity].
  destruct (Py.Qlt_bool 0 (PM.trailing_sl_pct p)); simpl; [|split; reflexivity].
  destruct (Py.Qlt_bool q _); simpl; split; reflexivity.
Qed.

(** What one tick does to the stop of one position: it is left alone, or
    the position is a trailing bot position, the tick is a new peak and the
    stop moves up to [price * (1 - trailing_sl_pct / 100)]. *)
Lemma update_one_sl (price : Q) (p : PM.Position) :
  PM.sl_price (PM.update_one price p) = PM.sl_price p
  \/ exists sl,
       PM.sl_price p = Some sl
       /\ PM.source p = "bot"
       /\ PM.use_trailing p = true
       /\ PM.peak_price p < price
       /\ 0 < PM.trailing_sl_pct p
       /\ sl < price * (1 - PM.trailing_sl_pct p / 100)
       /\ PM.sl_price (PM.update_one price p)
          = Some (price * (1 - PM.trailing_sl_pct p / 100)).
Proof.
  unfold PM.update_one; simpl.
  destruct (String.eqb (PM.source p) "bot") eqn:Hs; simpl; [|left; reflexivity].
  destruct (PM.use_trailing p) eqn:Ht; simpl; [|left; reflexivity].
  destruct (PM.sl_price p) as [sl|] eqn:Hsl; simpl; [|left; exact Hsl].
  destruct (Py.Qlt_bool (PM.peak_price p) price) eqn:Hp; simpl;
    [|left; exact Hsl].
  destruct (Py.Qlt_bool 0 (PM.trailing_sl_pct p)) eqn:Hr; simpl;
    [|left; exact Hsl].
  destruct (Py.Qlt_bool sl _) eqn:Hn; simpl; [|left; exact Hsl].
  right. exists sl.
  apply String.eqb_eq in Hs. apply Qlt_bool_iff in Hp, Hr, Hn.
  repeat split; assumption.
Qed.

Lemma sl_le_refl (a : option Q) : Ledger.sl_le a a.
Proof. destruct a; simpl; [apply Qle_refl|exact I]. Qed.

Lemma sl_le_trans (a b c : option Q) :
  Ledger.sl_le a b -> Ledger.sl_le b c -> Ledger.sl_le a c.
Proof.
  destruct a, b, c; simpl; try tauto. apply Qle_trans.
Qed.

Lemma update_one_sl_le (price : Q) (p : PM.Position) :
  Ledger.sl_le (PM.sl_price p) (PM.sl_price (PM.update_one price p)).
Proof.
  destruct (update_one_sl price p) as [E|[sl [E1 [_ [_ [_ [_ [Hlt E2]]]]]]]].
  - rewrite E. apply sl_le_refl.
  - rewrite E1, E2. simpl. apply Qlt_le_weak, Hlt.
Qed.

(** [update_price] keeps every id in place and touches a position only
    through [update_one]. *)
Lemma update_price_get (pm : PM.t) (symbol_ : string) (price : Q)
    (pid : string) (p : PM.Position) :
  Py.get pid (PM.open_positions pm) = Some p ->
  Py.get pid (PM.open_positions (PM.update_price pm symbol_ price)) = Some p
  \/ (Py.get pid (PM.open_positions (PM.update_price pm symbol_ price))
        = Some (PM.update_one price p)
      /\ 0 < price
      /\ PM.on_symbol (Py.strip (Py.upper symbol_)) p = true).
Proof.
  intro H. unfold PM.update_price.
  destruct (Qle_bool price 0) eqn:Hp; simpl; [left; exact H|].
  destruct (Py.is_empty _); simpl; [left; exact H|].
  rewrite get_map_values, H. simpl.
  destruct (PM.on_symbol _ p) eqn:Hon; [right|left; reflexivity].
  split; [reflexivity|]. split; [|reflexivity].
  apply Qle_bool_false, Hp.
Qed.

Lemma update_price_closed (pm : PM.t) (symbol_ : string) (price : Q) :
  PM.closed_positions (PM.update_price pm symbol_ price)
  = PM.closed_positions pm.
Proof.
  unfold PM.update_price.
  destruct (Qle_bool price 0 || Py.is_empty _); reflexivity.
Qed.

Lemma ticks_get_sl (l : list (string * Q)) :
  forall (pm : PM.t) (pid : string) (p : PM.Position),
    Py.get pid (PM.open_positions pm) = Some p ->
    exists p',
      Py.get pid (PM.open_positions (Ledger.ticks pm l)) = Some p'
      /\ Ledger.sl_le (PM.sl_price p) (PM.sl_price p').
Proof.
  induction l as [|[s pr] r IH]; intros pm pid p H; simpl.
  - exists p. split; [exact H|apply sl_le_refl].
  - unfold Ledger.ticks in *. simpl.
    destruct (update_price_get pm s pr pid p H) as [E|[E _]];
      destruct (IH _ _ _ E) as [p' [G L]]; exists p'; split; try exact G.
    + exact L.
    + eapply sl_le_trans; [apply update_one_sl_le|exact L].
Qed.

(** On any ledger: a tick with a positive price on a non-blank symbol
    rewrites the price fields of every open position carrying that symbol. *)
Lemma update_price_pnl_any (pm : PM.t) (symbol_ : string) (price : Q)
    (pid : string) (p' : PM.Position) :
  0 < price ->
  Py.is_empty (Py.strip (Py.upper symbol_)) = false ->
  In (pid, p') (PM.open_positions (PM.update_price pm symbol_ price)) ->
  PM.status p' = "open" ->
  Py.upper (PM.symbol p') = Py.strip (Py.upper symbol_) ->
  exists p,
    In (pid, p) (PM.open_positions pm)
    /\ PM.entry_price p' = PM.entry_price p
    /\ PM.qty p' = PM.qty p
    /\ PM.current_price p' = price
    /\ PM.pnl_usdt p' = (price - PM.entry_price p') * PM.qty p'.
Proof.
  intros Hpos Hne Hin Hst Hsym. unfold PM.update_price in Hin.
  assert (Hp : Qle_bool price 0 = false) by (apply Qle_bool_false, Hpos).
  rewrite Hp, Hne in Hin. simpl in Hin.
  apply in_map_values in Hin. destruct Hin as [p [Hin E]].
  exists p. split; [exact Hin|].
  destruct (PM.on_symbol (Py.strip (Py.upper symbol_)) p) eqn:Hon.
  - subst p'.
    destruct (update_one_static price p) as [_ [_ [_ [_ [He [Hq _]]]]]].
    destruct (update_one_pnl price p) as [Hc Hpnl].
    rewrite He, Hq, Hc, Hpnl. repeat split; reflexivity.
  - subst p'. unfold PM.on_symbol in Hon.
    rewrite Hsym, Hst, String.eqb_refl in Hon. discriminate.
Qed.

Lemma well_formed_empty : Ledger.well_formed PM.empty.
Proof. intros pid p []. Qed.

Lemma open_position_inv (cfg : Settings) (pos_id : string) (now : Q)
    (pm : PM.t) (symbol_ : string) (entry_price_ qty_ : Q)
    (mode_ : option string) (source_ : string) (opened_at_ : option Q)
    (tp_price_ sl_price_ : option Q) (use_trailing_ : option bool)
    (trailing_sl_pct_ : option Q) (meta_ : list string)
    (pm' : PM.t) (pos : PM.Position) :
  PM.open_position cfg pos_id now pm symbol_ entry_price_ qty_ mode_ source_
    opened_at_ tp_price_ sl_price_ use_trailing_ trailing_sl_pct_ meta_
  = Py.Ok (pm', pos) ->
  0 < entry_price_ /\ 0 < qty_
  /\ Py.is_empty (Py.strip (Py.upper symbol_)) = false
  /\ (source_ = "bot" ->
      PM.has_open_bot_position pm (Py.strip (Py.upper symbol_)) = false)
  /\ PM.open_positions pm' = Py.set pos_id pos (PM.open_positions pm)
  /\ PM.closed_positions pm' = PM.closed_positions pm
  /\ PM.id pos = pos_id
  /\ PM.symbol pos = Py.strip (Py.upper symbol_)
  /\ PM.source pos = source_
  /\ PM.status pos = "open"
  /\ PM.entry_price pos = entry_price_
  /\ PM.qty pos = qty_.
Proof.
  unfold PM.open_position.
  destruct (Qle_bool entry_price_ 0) eqn:He; simpl; [discriminate|].
  destruct (Qle_bool qty_ 0) eqn:Hq; simpl; [discriminate|].
  destruct (Py.is_empty (Py.strip (Py.upper symbol_))) eqn:Hs; simpl;
    [discriminate|].
  destruct (String.eqb source_ "bot"
            && PM.has_open_bot_position pm (Py.strip (Py.upper symbol_)))
    eqn:Hb; [discriminate|].
  intro H. inversion H; subst; clear H. simpl.
  apply Qle_bool_false in He, Hq.
  repeat split; try assumption; try reflexivity.
  intro Hsrc. subst source_. simpl in Hb. exact Hb.
Qed.

Lemma open_position_tp (cfg : Settings) (pos_id : string) (now : Q)
    (pm : PM.t) (symbol_ : string) (entry_price_ qty_ : Q)
    (mode_ : option string) (source_ : string) (opened_at_ : option Q)
    (tp sl_price_ : option Q) (use_trailing_ : option bool)
    (trailing_sl_pct_ : option Q) (meta_ : list string)
    (pm' : PM.t) (pos : PM.Position) :
  PM.open_position cfg pos_id now pm symbol_ entry_price_ qty_ mode_ source_
    opened_at_ tp sl_price_ use_trailing_ trailing_sl_pct_ meta_
  = Py.Ok (pm', pos) ->
  forall v, tp = Some v -> PM.tp_price pos = Py.truthy (Some v).
Proof.
  unfold PM.open_position.
  destruct (Qle_bool entry_price_ 0 || Qle_bool qty_ 0
            || Py.is_empty (Py.strip (Py.upper symbol_))); [discriminate|].
  destruct (String.eqb source_ "bot"
            && PM.has_open_bot_position pm (Py.strip (Py.upper symbol_)));
    [discriminate|].
  intros H v Hv. inversion H; subst; clear H. reflexivity.
Qed.

Lemma close_position_inv (now : Q) (pm : PM.t) (pid : string) (price : Q)
    (reason : string) (closed_at_ : option Q) :
  PM.open_positions (fst (PM.close_position now pm pid price reason closed_at_))
  = PM.open_positions pm
  \/ PM.open_positions (fst (PM.close_position now pm pid price reason closed_at_))
     = Py.pop pid (PM.open_positions pm).
Proof.
  unfold PM.close_position.
  destruct (Py.get pid (PM.open_positions pm)) as [pos|]; [|left; reflexivity].
  destruct (negb (String.eqb (PM.status pos) "open")); [left; reflexivity|].
  destruct (String.eqb (PM.source pos) "manual"); [left; reflexivity|].
  right. reflexivity.
Qed.

Lemma well_formed_call (cfg : Settings) (pm : PM.t) (c : Ledger.Call) :
  Ledger.well_formed pm -> Ledger.well_formed (Ledger.call cfg pm c).
Proof.
  intro W. destruct c; simpl.
  - destruct (PM.open_position _ _ _ _ _ _ _ _ _ _ _ _ _ _ _)
      as [[pm' pos]|msg] eqn:E; [|exact W].
    apply open_position_inv in E.
    destruct E as [_ [_ [Hne [_ [Ho [_ [_ [Hsym [_ [Hst _]]]]]]]]]].
    intros pid p Hin. rewrite Ho in Hin. apply in_set in Hin.
    destruct Hin as [Hin|[_ Hp]]; [apply (W _ _ Hin)|].
    subst p. rewrite Hsym, Hst. split; [exact Hne|reflexivity].
  - intros pid p Hin. unfold PM.update_price in Hin.
    destruct (Qle_bool price 0 || Py.is_empty _); [apply (W _ _ Hin)|].
    simpl in Hin. apply in_map_values in Hin. destruct Hin as [p0 [Hin E]].
    destruct (W _ _ Hin) as [Hn Hs].
    destruct (PM.on_symbol _ p0); subst p; [|split; assumption].
    destruct (update_one_static price p0) as [_ [E1 [_ [E2 _]]]].
    rewrite E1, E2. split; assumption.
  - intros pid p Hin.
    destruct (close_position_inv now pm position_id exit_price reason closed_at_)
      as [E|E]; rewrite E in Hin; [apply (W _ _ Hin)|].
    apply in_pop in Hin. apply (W _ _ Hin).
Qed.

Lemma well_formed_run_from (cfg : Settings) (calls : list Ledger.Call) :
  forall pm, Ledger.well_formed pm -> Ledger.well_formed (Ledger.run_from cfg pm calls).
Proof.
  induction calls as [|c r IH]; intros pm W; simpl; [exact W|].
  apply IH, well_formed_call, W.
Qed.

(** C2.  On every ledger and for every position in it, a stream of
    [update_price] calls never lowers [sl_price]: after any sequence of
    ticks the position is still there and its stop is at least what it was;
    and a single tick either leaves the stop as it is or, for a trailing bot
    position, raises it to [price * (1 - trailing_sl_pct / 100)], which
    happens only when the tick exceeds [peak_price] and the new value is
    strictly above the current stop. *)
Theorem C2_trailing_stop_monotone :
  forall (pm : PM.t) (pid : string) (p : PM.Position),
    Py.get pid (PM.open_positions pm) = Some p ->
    (forall l : list (string * Q),
        exists p',
          Py.get pid (PM.open_positions (Ledger.ticks pm l)) = Some p'
          /\ Ledger.sl_le (PM.sl_price p) (PM.sl_price p'))
    /\ (forall (symbol_ : string) (price : Q),
        exists p',
          Py.get pid (PM.open_positions (PM.update_price pm symbol_ price))
            = Some p'
          /\ (PM.sl_price p' = PM.sl_price p
              \/ exists sl,
                   PM.sl_price p = Some sl
                   /\ PM.source p = "bot"
                   /\ PM.use_trailing p = true
                   /\ PM.peak_price p < price
                   /\ sl < price * (1 - PM.trailing_sl_pct p / 100)
                   /\ PM.sl_price p'
                      = Some (price * (1 - PM.trailing_sl_pct p / 100)))).
Proof.
  intros pm pid p H. split.
  - intro l. apply ticks_get_sl, H.
  - intros s price.
    destruct (update_price_get pm s price pid p H) as [E|[E _]].
    + exists p. split; [exact E|left; reflexivity].
    + exists (PM.update_one price p). split; [exact E|].
      destruct (update_one_sl price p)
        as [E1|[sl [E1 [E2 [E3 [E4 [E5 [E6 E7]]]]]]]]; [left; exact E1|].
      right. exists sl. repeat split; assumption.
Qed.

(** C6.  On every ledger the manager can build, after
    [update_price(symbol, price)] with [price > 0] every open position on
    that symbol has [current_price] equal to the tick price and [pnl_usdt]
    equal to [(current_price - entry_price) * qty], with [entry_price] and
    [qty] as they were before the tick. *)
Theorem C6_update_price_pnl :
  forall (cfg : Settings) (calls : list Ledger.Call) (symbol_ : string)
         (price : Q) (pid : string) (p' : PM.Position),
    0 < price ->
    In (pid, p')
       (PM.open_positions (PM.update_price (Ledger.run cfg calls) symbol_ price)) ->
    Py.upper (PM.symbol p') = Py.strip (Py.upper symbol_) ->
    PM.status p' = "open"
    /\ PM.current_price p' = price
    /\ PM.pnl_usdt p' = (PM.current_price p' - PM.entry_price p') * PM.qty p'
    /\ exists p,
         In (pid, p) (PM.open_positions (Ledger.run cfg calls))
         /\ PM.entry_price p' = PM.entry_price p
         /\ PM.qty p' = PM.qty p.
Proof.
  intros cfg calls symbol_ price pid p' Hpos Hin Hsym.
  assert (W : Ledger.well_formed (Ledger.run cfg calls))
    by (apply well_formed_run_from, well_formed_empty).
  assert (W' : Ledger.well_formed (PM.update_price (Ledger.run cfg calls) symbol_ price))
    by (apply (well_formed_call cfg _ (Ledger.Update symbol_ price)), W).
  destruct (W' _ _ Hin) as [Hne Hst].
  assert (Hne' : Py.is_empty (Py.strip (Py.upper symbol_)) = false)
    by (rewrite <- Hsym, upper_not_empty; exact Hne).
  destruct (update_price_pnl_any _ _ _ _ _ Hpos Hne' Hin Hst Hsym)
    as [p [Hp [He [Hq [Hc Hpnl]]]]].
  split; [exact Hst|]. split; [exact Hc|]. split.
  - rewrite Hc. exact Hpnl.
  - exists p. repeat split; assumption.
Qed.

(* ================================================================== *)
(** * PositionLedger: closing *)
(* ================================================================== *)

Lemma pop_length_nodup {V : Type} (k : string) (v : V) (d : Py.dict V) :
  NoDup (Py.keys d) -> Py.get k d = Some v ->
  List.length d = S (List.length (Py.pop k d)).
Proof.
  induction d as [|[k' v'] r IH]; simpl; [discriminate|].
  intros Hnd Hget. inversion Hnd as [|x l Hnot Hnd']; subst.
  destruct (String.eqb k' k) eqn:E; simpl.
  - apply String.eqb_eq in E. subst k'. f_equal.
    assert (Hid : Py.pop k r = r).
    { unfold Py.pop. apply forallb_filter_id. apply forallb_forall.
      intros [k0 v0] Hin. simpl. apply negb_true_iff.
      destruct (String.eqb k0 k) eqn:E0; [|reflexivity].
      apply String.eqb_eq in E0. subst k0. exfalso. apply Hnot.
      unfold Py.keys. apply in_map_iff. exists (k, v0). split; [reflexivity|exact Hin]. }
    fold (Py.pop k r). rewrite Hid. reflexivity.
  - f_equal. apply IH; assumption.
Qed.

Lemma close_position_fail_absent (now : Q) (pm : PM.t) (pid : string)
    (price : Q) (reason : string) (closed_at_ : option Q) :
  Py.get pid (PM.open_positions pm) = None ->
  PM.close_position now pm pid price reason closed_at_ = (pm, None).
Proof. intro H. unfold PM.close_position. rewrite H. reflexivity. Qed.

(** C7.  [close_position] fails, returning [None] and leaving the open set
    and the closed history as they were, for an id that is not open and for
    the id of a manual position.  When it succeeds, the position leaves the
    open set, its closed copy is the one new head of the closed history (one
    entry fewer in the open set when ids are distinct), and every further
    close of the same id fails without touching the ledger. *)
Theorem C7_close_position_terminal :
  forall (now : Q) (pm : PM.t) (pid : string) (price : Q) (reason : string)
         (closed_at_ : option Q),
    (Py.get pid (PM.open_positions pm) = None ->
       PM.close_position now pm pid price reason closed_at_ = (pm, None))
    /\ (forall pos,
          Py.get pid (PM.open_positions pm) = Some pos ->
          PM.source pos = "manual" \/ PM.status pos <> "open" ->
          PM.close_position now pm pid price reason closed_at_ = (pm, None))
    /\ (forall pm' c,
          PM.close_position now pm pid price reason closed_at_ = (pm', Some c) ->
          (exists pos,
              Py.get pid (PM.open_positions pm) = Some pos
              /\ PM.id c = PM.id pos /\ PM.symbol c = PM.symbol pos
              /\ PM.entry_price c = PM.entry_price pos /\ PM.qty c = PM.qty pos
              /\ PM.current_price c = price
              /\ PM.pnl_usdt c = (price - PM.entry_price pos) * PM.qty pos)
          /\ PM.status c = "closed"
          /\ PM.exit_reason c = Some reason
          /\ PM.open_positions pm' = Py.pop pid (PM.open_positions pm)
          /\ Py.get pid (PM.open_positions pm') = None
          /\ PM.closed_positions pm' = c :: PM.closed_positions pm
          /\ (NoDup (Py.keys (PM.open_positions pm)) ->
              List.length (PM.open_positions pm)
              = S (List.length (PM.open_positions pm')))
          /\ (forall now2 price2 reason2 closed_at2,
                PM.close_position now2 pm' pid price2 reason2 closed_at2
                = (pm', None))).
Proof.
  intros now pm pid price reason closed_at_.
  split; [apply close_position_fail_absent|]. split.
  - intros pos Hget Hbad. unfold PM.close_position. rewrite Hget.
    destruct (String.eqb (PM.status pos) "open") eqn:Hs; simpl; [|reflexivity].
    destruct Hbad as [Hm|Hn].
    + rewrite Hm. reflexivity.
    + apply String.eqb_eq in Hs. contradiction.
  - intros pm' c H. unfold PM.close_position in H.
    destruct (Py.get pid (PM.open_positions pm)) as [pos|] eqn:Hget;
      [|discriminate].
    destruct (negb (String.eqb (PM.status pos) "open")); [discriminate|].
    destruct (String.eqb (PM.source pos) "manual"); [discriminate|].
    inversion H; subst; clear H. simpl.
    split; [exists pos; repeat split; reflexivity|].
    split; [reflexivity|]. split; [reflexivity|]. split; [reflexivity|].
    split; [apply get_pop_same|]. split; [reflexivity|]. split.
    + intro Hnd. apply (pop_length_nodup pid pos); assumption.
    + intros. apply close_position_fail_absent. simpl. apply get_pop_same.
Qed.

(* ================================================================== *)
(** * Symbol normalisation *)
(* ================================================================== *)

Lemma upper_ascii_idem (c : ascii) :
  Py.upper_ascii (Py.upper_ascii c) = Py.upper_ascii c.
Proof. destruct c as [[] [] [] [] [] [] [] []]; reflexivity. Qed.

Lemma is_space_upper_ascii (c : ascii) :
  Py.is_space (Py.upper_ascii c) = Py.is_space c.
Proof. destruct c as [[] [] [] [] [] [] [] []]; reflexivity. Qed.

Lemma upper_idem (s : string) : Py.upper (Py.upper s) = Py.upper s.
Proof.
  induction s as [|c r IH]; simpl; [reflexivity|].
  rewrite upper_ascii_idem, IH. reflexivity.
Qed.

Lemma upper_lstrip (s : string) : Py.upper (Py.lstrip s) = Py.lstrip (Py.upper s).
Proof.
  induction s as [|c r IH]; simpl; [reflexivity|].
  rewrite is_space_upper_ascii. destruct (Py.is_space c); [exact IH|reflexivity].
Qed.

Lemma upper_rstrip (s : string) : Py.upper (Py.rstrip s) = Py.rstrip (Py.upper s).
Proof.
  induction s as [|c r IH]; simpl; [reflexivity|].
  rewrite <- IH, is_space_upper_ascii.
  destruct (Py.rstrip r) as [|c' r']; simpl.
  - destruct (Py.is_space c); reflexivity.
  - reflexivity.
Qed.

(** A normalised symbol is a fixed point of [upper]. *)
Lemma upper_strip_upper (s : string) :
  Py.upper (Py.strip (Py.upper s)) = Py.strip (Py.upper s).
Proof.
  unfold Py.strip. rewrite upper_rstrip, upper_lstrip, upper_idem. reflexivity.
Qed.

(* ================================================================== *)
(** * PositionLedger: exit recommendations *)
(* ================================================================== *)

Lemma collect_exits_In (sym : string) (price : Q) (allow : bool)
    (d : Py.dict PM.Position) (pid reason : string) :
  In (pid, reason) (PM.collect_exits sym price allow d)
  <-> exists pos,
        In (pid, pos) d /\ PM.exit_reason_for sym price allow pos = Some reason.
Proof.
  induction d as [|[k v] r IH]; simpl.
  - split; [intros []|intros [pos [[] _]]].
  - destruct (PM.exit_reason_for sym price allow v) as [rs|] eqn:E; simpl.
    + split.
      * intros [H|H].
        -- inversion H; subst. exists v. split; [left; reflexivity|exact E].
        -- apply IH in H. destruct H as [pos [Hin Hr]].
           exists pos. split; [right; exact Hin|exact Hr].
      * intros [pos [[H|H] Hr]].
        -- inversion H; subst. left. congruence.
        -- right. apply IH. exists pos. split; assumption.
    + split.
      * intro H. apply IH in H. destruct H as [pos [Hin Hr]].
        exists pos. split; [right; exact Hin|exact Hr].
      * intros [pos [[H|H] Hr]].
        -- inversion H; subst. congruence.
        -- apply IH. exists pos. split; assumption.
Qed.

(** The recommendation computed for one open bot position on the queried
    symbol: take profit first, then the stop. *)
Lemma exit_reason_for_spec (sym : string) (price : Q) (allow : bool)
    (pos : PM.Position) :
  PM.status pos = "open" -> PM.source pos = "bot" ->
  Py.upper (PM.symbol pos) = sym ->
  (forall tp, PM.tp_price pos = Some tp -> tp <= price ->
     PM.exit_reason_for sym price allow pos = Some "TP")
  /\ (forall sl, PM.sl_price pos = Some sl -> price <= sl ->
        (forall tp, PM.tp_price pos = Some tp -> price < tp) ->
        PM.exit_reason_for sym price allow pos
        = Some (if PM.use_trailing pos && allow then "TRAILING_SL" else "SL")).
Proof.
  intros Hst Hsrc Hsym. unfold PM.exit_reason_for.
  rewrite Hst, Hsrc, Hsym, !String.eqb_refl. simpl. split.
  - intros tp Htp Hle. rewrite Htp.
    apply Qle_bool_iff in Hle. rewrite Hle. reflexivity.
  - intros sl Hsl Hle Hno. rewrite Hsl.
    apply Qle_bool_iff in Hle. rewrite Hle.
    destruct (PM.tp_price pos) as [tp|].
    + specialize (Hno tp eq_refl). apply Qle_bool_false in Hno.
      rewrite Hno. destruct (PM.use_trailing pos && allow); reflexivity.
    + destruct (PM.use_trailing pos && allow); reflexivity.
Qed.

(** C8 (as amended).  For a positive tick price, every open bot position
    on the queried symbol gets [(id, "TP")] when the price has reached
    [tp_price]; it gets [(id, "TRAILING_SL")] (trailing in use and allowed)
    or [(id, "SL")] when the price is at or below [sl_price] and the take
    profit has not been reached.  A position opened on an empty ledger at
    entry 100 with take profit 103 yields exactly [(id, "TP")] on a tick at
    103.5. *)
Theorem C8_exit_recommendations :
  (forall (pm : PM.t) (symbol_ : string) (price : Q) (allow_trailing : bool)
          (pid : string) (pos : PM.Position),
      0 < price ->
      In (pid, pos) (PM.open_positions pm) ->
      PM.status pos = "open" -> PM.source pos = "bot" ->
      Py.upper (PM.symbol pos) = Py.strip (Py.upper symbol_) ->
      (forall tp, PM.tp_price pos = Some tp -> tp <= price ->
         In (pid, "TP")
            (PM.check_exit_recommendations pm symbol_ price allow_trailing))
      /\ (forall sl, PM.sl_price pos = Some sl -> price <= sl ->
            (forall tp, PM.tp_price pos = Some tp -> price < tp) ->
            In (pid, if PM.use_trailing pos && allow_trailing
                     then "TRAILING_SL" else "SL")
               (PM.check_exit_recommendations pm symbol_ price allow_trailing)))
  /\ (forall (cfg : Settings) (pid : string) (now : Q) (symbol_ : string)
             (qty_ : Q) (mode_ : option string) (opened_at_ : option Q)
             (sl_price_ : option Q) (use_trailing_ : option bool)
             (trailing_sl_pct_ : option Q) (meta_ : list string)
             (allow_trailing : bool) (pm' : PM.t) (pos : PM.Position),
         PM.open_position cfg pid now PM.empty symbol_ 100 qty_ mode_ "bot"
           opened_at_ (Some 103) sl_price_ use_trailing_ trailing_sl_pct_ meta_
         = Py.Ok (pm', pos) ->
         PM.check_exit_recommendations pm' symbol_ 103.5 allow_trailing
         = [(pid, "TP")]).
Proof.
  split.
  - intros pm symbol_ price allow pid pos Hpos Hin Hst Hsrc Hsym.
    assert (Hp : Qle_bool price 0 = false) by (apply Qle_bool_false, Hpos).
    destruct (exit_reason_for_spec _ price allow pos Hst Hsrc Hsym) as [Htp Hsl].
    unfold PM.check_exit_recommendations. rewrite Hp. split.
    + intros tp E Hle. apply collect_exits_In. exists pos.
      split; [exact Hin|]. apply (Htp tp); assumption.
    + intros sl E Hle Hno. apply collect_exits_In. exists pos.
      split; [exact Hin|]. apply (Hsl sl); assumption.
  - intros cfg pid now symbol_ qty_ mode_ opened_at_ sl_price_ use_trailing_
      trailing_sl_pct_ meta_ allow pm' pos H.
    assert (Htp : PM.tp_price pos = Some 103)
      by (exact (open_position_tp _ _ _ _ _ _ _ _ _ _ _ _ _ _ _ _ _ H 103 eq_refl)).
    apply open_position_inv in H.
    destruct H as [_ [_ [_ [_ [Ho [_ [_ [Hsym [Hsrc [Hst _]]]]]]]]]].
    unfold PM.check_exit_recommendations.
    replace (Qle_bool 103.5 0) with false by reflexivity.
    rewrite Ho. simpl. unfold PM.exit_reason_for.
    rewrite Hst, Hsrc, Hsym, upper_strip_upper, !String.eqb_refl. simpl.
    rewrite Htp. reflexivity.
Qed.

(** C8, the claim as written fails: after the stop has trailed up to 108.9
    (above the take profit 103), a tick at 108 is at or below [sl_price],
    yet the only recommendation is [("p1", "TP")]; neither [("p1", "SL")]
    nor [("p1", "TRAILING_SL")] is returned. *)
Lemma C8_counterexample :
  let recs := PM.check_exit_recommendations Scenario.ledger2 "BTCUSDT" 108 true in
  (exists pos sl,
      Py.get "p1" (PM.open_positions Scenario.ledger2) = Some pos
      /\ PM.status pos = "open" /\ PM.source pos = "bot"
      /\ PM.symbol pos = "BTCUSDT"
      /\ PM.sl_price pos = Some sl /\ 108 <= sl)
  /\ recs = [("p1", "TP")]
  /\ ~ In ("p1", "SL") recs
  /\ ~ In ("p1", "TRAILING_SL") recs.
Proof.
  simpl. split.
  - exists (PM.update_one 110 Scenario.position1), (110 * (1 - 1 / 100)).
    split; [reflexivity|]. split; [reflexivity|]. split; [reflexivity|].
    split; [reflexivity|]. split; [reflexivity|].
    apply Qle_bool_iff. reflexivity.
  - split; [reflexivity|].
    split; intros [H|[]]; discriminate H.
Qed.

Lemma C2_witness :
  exists p',
    Py.get "p1"
      (PM.open_positions
         (Ledger.ticks Scenario.ledger1 [("BTCUSDT", 110); ("BTCUSDT", 105)]))
    = Some p'
    /\ Ledger.sl_le (Some 99) (PM.sl_price p').
Proof.
  exact (proj1 (C2_trailing_stop_monotone Scenario.ledger1 "p1"
                  Scenario.position1 eq_refl)
               [("BTCUSDT", 110); ("BTCUSDT", 105)]).
Defined.

Lemma C6_witness :
  let p' := PM.update_one 110 Scenario.position1 in
  PM.status p' = "open"
  /\ PM.current_price p' = 110
  /\ PM.pnl_usdt p' = (PM.current_price p' - PM.entry_price p') * PM.qty p'
  /\ exists p,
       In ("p1", p) (PM.open_positions Scenario.ledger1)
       /\ PM.entry_price p' = PM.entry_price p
       /\ PM.qty p' = PM.qty p.
Proof.
  apply (C6_update_price_pnl DEFAULT_SETTINGS [Scenario.open_btc]
           " btcusdt " 110 "p1" (PM.update_one 110 Scenario.position1)).
  - reflexivity.
  - left. reflexivity.
  - reflexivity.
Defined.

Lemma C7_witness :
  let pm' :=
    fst (PM.close_position Scenario.NOW Scenario.ledger1 "p1" 101 "TP" None) in
  PM.open_positions pm' = []
  /\ List.length (PM.closed_positions pm') = 1%nat
  /\ PM.close_position Scenario.NOW pm' "p1" 101 "TP" None = (pm', None)
  /\ PM.close_position Scenario.NOW Scenario.ledger1 "nope" 101 "TP" None
     = (Scenario.ledger1, None).
Proof.
  destruct (C7_close_position_terminal Scenario.NOW Scenario.ledger1 "nope" 101
              "TP" None) as [Habsent _].
  destruct (C7_close_position_terminal Scenario.NOW Scenario.ledger1 "p1" 101
              "TP" None) as [_ [_ Hok]].
  destruct (Hok _ _ eq_refl) as [_ [_ [_ [_ [_ [_ [_ Hagain]]]]]]].
  split; [reflexivity|]. split; [reflexivity|].
  split; [apply Hagain|]. apply Habsent. reflexivity.
Defined.

Lemma C8_witness :
  In ("p1", "TP")
     (PM.check_exit_recommendations Scenario.ledger1 "btcusdt" 103.5 true)
  /\ PM.check_exit_recommendations Scenario.ledger1 "btcusdt" 103.5 true
     = [("p1", "TP")].
Proof.
  destruct C8_exit_recommendations as [Hgen Hscn]. split.
  - refine (proj1 (Hgen Scenario.ledger1 "btcusdt" 103.5 true "p1"
                     Scenario.position1 _ _ _ _ _) 103 _ _);
      try reflexivity.
    + left. reflexivity.
    + intro H. discriminate H.
  - apply (Hscn DEFAULT_SETTINGS "p1" Scenario.NOW "btcusdt" 2 None None
             (Some 99) (Some true) (Some 1) [] true Scenario.ledger1
             Scenario.position1).
    reflexivity.
Defined.

(* ================================================================== *)
(** * PositionLedger: one open bot position per symbol *)
(* ================================================================== *)

Lemma filter_values_set (f : PM.Position -> bool) (k : string)
    (v : PM.Position) (d : Py.dict PM.Position) :
  (List.length (filter f (Py.values (Py.set k v d)))
   <= List.length (filter f (Py.values d)) + (if f v then 1 else 0))%nat.
Proof.
  induction d as [|[k' v'] r IH]; simpl.
  - destruct (f v); simpl; lia.
  - destruct (String.eqb k' k); simpl.
    + destruct (f v), (f v'); simpl; lia.
    + fold (Py.values (Py.set k v r)). fold (Py.values r).
      destruct (f v'); simpl; lia.
Qed.

Lemma filter_values_pop (f : PM.Position -> bool) (k : string)
    (d : Py.dict PM.Position) :
  (List.length (filter f (Py.values (Py.pop k d)))
   <= List.length (filter f (Py.values d)))%nat.
Proof.
  induction d as [|[k' v'] r IH]; simpl; [lia|].
  fold (Py.pop k r). fold (Py.values r).
  destruct (String.eqb k' k); simpl.
  - destruct (f v'); simpl; lia.
  - fold (Py.values (Py.pop k r)). destruct (f v'); simpl; lia.
Qed.

Lemma filter_values_map (f : PM.Position -> bool)
    (g : PM.Position -> PM.Position) (d : Py.dict PM.Position) :
  (forall p, f (g p) = f p) ->
  List.length (filter f (Py.values (Py.map_values g d)))
  = List.length (filter f (Py.values d)).
Proof.
  intro H. induction d as [|[k' v'] r IH]; simpl; [reflexivity|].
  fold (Py.map_values g r). fold (Py.values (Py.map_values g r)).
  fold (Py.values r). rewrite H. destruct (f v'); simpl; rewrite IH; reflexivity.
Qed.

Lemma existsb_false_filter {A : Type} (f : A -> bool) (l : list A) :
  existsb f l = false -> filter f l = [].
Proof.
  induction l as [|x r IH]; simpl; [reflexivity|].
  destruct (f x); simpl; [discriminate|exact IH].
Qed.

Lemma is_open_bot_on_update (s sym : string) (price : Q) (p : PM.Position) :
  PM.is_open_bot_on s
    (if PM.on_symbol sym p then PM.update_one price p else p)
  = PM.is_open_bot_on s p.
Proof.
  destruct (PM.on_symbol sym p); [|reflexivity].
  unfold PM.is_open_bot_on.
  destruct (update_one_static price p) as [_ [E1 [E2 [E3 _]]]].
  rewrite E1, E2, E3. reflexivity.
Qed.

Lemma one_bot_call (cfg : Settings) (pm : PM.t) (c : Ledger.Call) :
  Ledger.one_bot_per_symbol pm ->
  Ledger.one_bot_per_symbol (Ledger.call cfg pm c).
Proof.
  intros W s. destruct c; simpl.
  - destruct (PM.open_position _ _ _ _ _ _ _ _ _ _ _ _ _ _ _)
      as [[pm' pos]|msg] eqn:E; [|apply W].
    apply open_position_inv in E.
    destruct E as [_ [_ [_ [Hbot [Ho [_ [_ [Hsym [Hsrc [Hst _]]]]]]]]]].
    unfold PM.get_open_positions. rewrite Ho.
    eapply Nat.le_trans; [apply filter_values_set|].
    destruct (PM.is_open_bot_on s pos) eqn:Hf; [|specialize (W s);
      unfold PM.get_open_positions in W; lia].
    unfold PM.is_open_bot_on in Hf. rewrite Hsym, Hsrc, Hst in Hf.
    apply andb_true_iff in Hf. destruct Hf as [Hf Hb].
    apply andb_true_iff in Hf. destruct Hf as [Hs _].
    apply String.eqb_eq in Hs, Hb.
    specialize (Hbot Hb). unfold PM.has_open_bot_position in Hbot.
    rewrite Hs in Hbot. apply existsb_false_filter in Hbot.
    unfold PM.get_open_positions in Hbot. rewrite Hbot. simpl. lia.
  - unfold PM.update_price.
    destruct (Qle_bool price 0 || Py.is_empty _); [apply W|].
    unfold PM.get_open_positions. simpl.
    rewrite filter_values_map; [apply W|].
    intro p. apply is_open_bot_on_update.
  - unfold PM.get_open_positions.
    destruct (close_position_inv now pm position_id exit_price reason closed_at_)
      as [E|E]; rewrite E; [apply W|].
    eapply Nat.le_trans; [apply filter_values_pop|apply W].
Qed.

Lemma one_bot_run_from (cfg : Settings) (calls : list Ledger.Call) :
  forall pm, Ledger.one_bot_per_symbol pm ->
             Ledger.one_bot_per_symbol (Ledger.run_from cfg pm calls).
Proof.
  induction calls as [|c r IH]; intros pm W; simpl; [exact W|].
  apply IH, one_bot_call, W.
Qed.

Lemma one_bot_empty : Ledger.one_bot_per_symbol PM.empty.
Proof. intro s. simpl. lia. Qed.

Lemma open_bot_on_le (pm : PM.t) (sym : string) :
  (List.length (Ledger.open_bot_on pm sym)
   <= List.length (filter (PM.is_open_bot_on (Py.upper sym))
                          (PM.get_open_positions pm)))%nat.
Proof.
  unfold Ledger.open_bot_on.
  induction (PM.get_open_positions pm) as [|p r IH]; simpl; [lia|].
  unfold PM.is_open_bot_on at 1.
  destruct (String.eqb (PM.symbol p) sym) eqn:E; simpl.
  - apply String.eqb_eq in E. rewrite E, String.eqb_refl. simpl.
    destruct (String.eqb (PM.status p) "open" && String.eqb (PM.source p) "bot");
      simpl; lia.
  - destruct (_ && _ && _); simpl; lia.
Qed.

(* ================================================================== *)
(** * ExecutionCore: the engine reaches the ledger through its interface *)
(* ================================================================== *)

Module TE := TradingEngine.
Module AI := AIOrchestrator.

Lemma via_refl (e : TE.t) : Ledger.engine_via_calls e e.
Proof. split; [reflexivity|]. exists []. reflexivity. Qed.

Lemma via_trans (e1 e2 e3 : TE.t) :
  Ledger.engine_via_calls e1 e2 -> Ledger.engine_via_calls e2 e3 ->
  Ledger.engine_via_calls e1 e3.
Proof.
  intros [S1 [c1 H1]] [S2 [c2 H2]]. split; [congruence|].
  exists (c1 ++ c2)%list. unfold Ledger.run_from in *.
  rewrite fold_left_app, <- H1, H2, S1. reflexivity.
Qed.

Lemma via_one (e e' : TE.t) (c : Ledger.Call) :
  TE.settings e' = TE.settings e ->
  TE.positions e' = Ledger.call (TE.settings e) (TE.positions e) c ->
  Ledger.engine_via_calls e e'.
Proof.
  intros S H. split; [exact S|]. exists [c]. simpl. exact H.
Qed.

Lemma via_same_ledger (e e' : TE.t) :
  TE.settings e' = TE.settings e -> TE.positions e' = TE.positions e ->
  Ledger.engine_via_calls e e'.
Proof.
  intros S H. split; [exact S|]. exists []. simpl. exact H.
Qed.

Lemma via_fold {A : Type} (step : TE.t -> A -> TE.t) (l : list A) :
  (forall e a, Ledger.engine_via_calls e (step e a)) ->
  forall e, Ledger.engine_via_calls e (fold_left step l e).
Proof.
  intro H. induction l as [|a r IH]; intro e; simpl; [apply via_refl|].
  eapply via_trans; [apply H|apply IH].
Qed.

Lemma execute_close_via (now : Q) (e : TE.t) (pid : string) (price : Q)
    (reason : string) :
  Ledger.engine_via_calls e (TE._execute_close now e pid price reason).
Proof.
  unfold TE._execute_close.
  destruct (Py.get pid _) as [pos|]; [|apply via_refl].
  destruct (negb (String.eqb (PM.source pos) "bot")); [apply via_refl|].
  destruct (Qle_bool (PM.qty pos) 0); [apply via_refl|].
  match goal with |- context [if negb ?b then _ else _] => destruct b end;
    simpl; [|apply via_refl].
  destruct (PM.close_position now (TE.positions e) pid price reason None)
    as [pm' [closed|]] eqn:E; [|apply via_refl].
  apply (via_one _ _ (Ledger.Close now pid price reason None));
    [reflexivity|]. simpl. rewrite E. reflexivity.
Qed.

Lemma execute_entry_via (now : Q) (pos_id : string) (e : TE.t)
    (symbol_ : string) (price qty : Q) (tp sl : option Q) (ut : bool)
    (tr : Q) (tags : list string) :
  Ledger.engine_via_calls e
    (fst (TE._execute_entry now pos_id e symbol_ price qty tp sl ut tr tags)).
Proof.
  assert (Hopen : forall e1 p q m,
             TE.settings e1 = TE.settings e ->
             TE.positions e1 = TE.positions e ->
             Ledger.engine_via_calls e
               (fst (match PM.open_position (TE.settings e1) pos_id now
                             (TE.positions e1) (Py.upper symbol_) p q m
                             "bot" None (Py.truthy tp) (Py.truthy sl)
                             (Some (ut && Py.Qlt_bool 0 tr)) (Some tr) tags with
                     | Py.Ok (pm', _) => (TE.with_positions pm' e1, @nil string)
                     | Py.ValueError _ => (e1, @nil string)
                     end))).
  { intros e1 p q m S P.
    destruct (PM.open_position _ _ _ _ _ _ _ _ _ _ _ _ _ _ _)
      as [[pm' pos]|msg] eqn:E; simpl.
    - apply (via_one _ _ (Ledger.Open pos_id now (Py.upper symbol_) p q m
                            "bot" None (Py.truthy tp) (Py.truthy sl)
                            (Some (ut && Py.Qlt_bool 0 tr)) (Some tr) tags));
        [exact S|].
      simpl. rewrite <- S, <- P, E. reflexivity.
    - apply via_same_ledger; assumption. }
  unfold TE._execute_entry.
  destruct (TE.paper_mode e) eqn:Hpm; simpl.
  - destruct (Py.Qlt_bool (_ + TE.EPS) _); simpl; [apply via_refl|].
    apply (Hopen (TE.with_state (TE.set_paper_balance _ (TE.state e)) e));
      reflexivity.
  - assert (S : TE.settings (TE._init_live_client_if_needed e) = TE.settings e
                /\ TE.positions (TE._init_live_client_if_needed e) = TE.positions e).
    { unfold TE._init_live_client_if_needed. rewrite Hpm.
      destruct (TE.client e); split; reflexivity. }
    destruct S as [S P].
    destruct (TE.client (TE._init_live_client_if_needed e)) as [c|];
      [|apply via_same_ledger; assumption].
    destruct (TE.create_order c _ _ _) as [[filled cumm]|];
      [|apply via_same_ledger; assumption].
    destruct (Py.Qlt_bool 0 filled && Py.Qlt_bool 0 cumm); apply Hopen; assumption.
Qed.

Lemma entry_logic_via (now : Q) (pos_id : string) (e : TE.t) (sym : string)
    (last : Q) (open_all bots : list PM.Position) (d : AI.AITradeDecision) :
  Ledger.engine_via_calls e
    (fst (TE._entry_logic now pos_id e sym last open_all bots d)).
Proof.
  unfold TE._entry_logic.
  destruct (negb (fst _)); [apply via_refl|].
  destruct (negb _); [apply via_refl|].
  destruct (Qle_bool (AI.requested_trade_usdt d) 0); [apply via_refl|].
  destruct (TE.paper_mode e && _); [apply via_refl|].
  destruct (Py.Qlt_bool _ _); [apply via_refl|].
  destruct (Qle_bool _ 0); [apply via_refl|].
  apply execute_entry_via.
Qed.

Lemma apply_ai_decision_via (now : Q) (pos_id : string) (e : TE.t)
    (d : AI.AITradeDecision) :
  Ledger.engine_via_calls e (fst (TE._apply_ai_decision now pos_id e d)).
Proof.
  unfold TE._apply_ai_decision.
  destruct (Py.is_empty _); [apply via_refl|].
  destruct (Qle_bool _ 0); [apply via_refl|].
  set (sym := Py.upper (AI.symbol d)).
  set (last := Py.float_or (Py.get sym (TE.prices e)) 0.0).
  set (e1 := TE.with_positions _ e).
  assert (H1 : Ledger.engine_via_calls e e1).
  { apply (via_one _ _ (Ledger.Update sym last)); reflexivity. }
  set (e2 := fold_left _ (PM.check_exit_recommendations _ _ _ _) e1).
  assert (H2 : Ledger.engine_via_calls e e2).
  { eapply via_trans; [exact H1|]. apply via_fold.
    intros e0 a. apply execute_close_via. }
  destruct (String.eqb (AI.action d) "EXIT" && _); simpl.
  - eapply via_trans; [exact H2|]. apply via_fold.
    intros e0 a. apply execute_close_via.
  - destruct (negb _); simpl; [exact H2|].
    eapply via_trans; [exact H2|apply entry_logic_via].
Qed.

Lemma engine_run_via (evs : list TE.Event) :
  forall e, Ledger.engine_via_calls e (TE.run e evs).
Proof.
  unfold TE.run. apply via_fold. intros e [s p|now pid d]; simpl.
  - apply (via_one _ _ (Ledger.Update s p)); reflexivity.
  - apply apply_ai_decision_via.
Qed.

(** C3.  Every ledger built through the manager's interface, and every
    ledger the engine builds from an empty one by price ticks and applied
    decisions, holds at most one open bot position per symbol;
    [open_position] raises for a bot entry on a symbol that already has an
    open bot position; and the engine's entry path does nothing but log a
    reject code when its snapshot of bot positions on the symbol is not
    empty. *)
Theorem C3_one_open_bot_position_per_symbol :
  (forall (cfg : Settings) (calls : list Ledger.Call) (sym : string),
      (List.length (Ledger.open_bot_on (Ledger.run cfg calls) sym) <= 1)%nat)
  /\ (forall (e : TE.t) (evs : list TE.Event) (sym : string),
         TE.positions e = PM.empty ->
         (List.length (Ledger.open_bot_on (TE.positions (TE.run e evs)) sym)
          <= 1)%nat)
  /\ (forall (cfg : Settings) (pid : string) (now : Q) (pm : PM.t)
             (symbol_ : string) (entry_price_ qty_ : Q) (mode_ : option string)
             (opened_at_ tp_price_ sl_price_ : option Q)
             (use_trailing_ : option bool) (trailing_sl_pct_ : option Q)
             (meta_ : list string),
         PM.has_open_bot_position pm (Py.strip (Py.upper symbol_)) = true ->
         exists msg,
           PM.open_position cfg pid now pm symbol_ entry_price_ qty_ mode_ "bot"
             opened_at_ tp_price_ sl_price_ use_trailing_ trailing_sl_pct_ meta_
           = Py.ValueError msg)
  /\ (forall (now : Q) (pid : string) (e : TE.t) (sym : string) (last : Q)
             (open_all bot_positions_sym : list PM.Position)
             (d : AI.AITradeDecision),
         bot_positions_sym <> [] ->
         TE._entry_logic now pid e sym last open_all bot_positions_sym d
         = (e, ["RISK_BLOCK"])
         \/ TE._entry_logic now pid e sym last open_all bot_positions_sym d
            = (e, ["DUPLICATE_SYMBOL"])).
Proof.
  split; [|split; [|split]].
  - intros cfg calls sym.
    eapply Nat.le_trans; [apply open_bot_on_le|].
    apply (one_bot_run_from cfg calls PM.empty one_bot_empty).
  - intros e evs sym He.
    destruct (engine_run_via evs e) as [_ [calls Hc]].
    rewrite Hc, He.
    eapply Nat.le_trans; [apply open_bot_on_le|].
    apply (one_bot_run_from _ calls PM.empty one_bot_empty).
  - intros cfg pid now pm symbol_ ep q mode_ oa tp sl ut tr meta_ Hhas.
    unfold PM.open_position.
    destruct (Qle_bool ep 0 || Qle_bool q 0
              || Py.is_empty (Py.strip (Py.upper symbol_)));
      [eexists; reflexivity|].
    rewrite Hhas. simpl. eexists; reflexivity.
  - intros now pid e sym last open_all bots d Hne.
    unfold TE._entry_logic.
    destruct (negb (fst _)); [left; reflexivity|].
    destruct bots as [|b r]; [contradiction|]. right. reflexivity.
Qed.

Lemma C3_witness :
  (List.length
     (Ledger.open_bot_on
        (TE.positions
           (TE.run (Scenario.engine 1000 100)
              [TE.Decision Scenario.NOW "p1" Scenario.entry10;
               TE.Price "BTCUSDT" 101;
               TE.Decision Scenario.NOW "p2" Scenario.entry10]))
        "BTCUSDT") <= 1)%nat
  /\ exists msg,
       PM.open_position DEFAULT_SETTINGS "p2" Scenario.NOW Scenario.ledger1
         "BtcUsdt " 100 1 None "bot" None None None None None []
       = Py.ValueError msg.
Proof.
  destruct C3_one_open_bot_position_per_symbol as [_ [Heng [Hopen _]]].
  split.
  - apply Heng. reflexivity.
  - apply Hopen. reflexivity.
Defined.

(* ================================================================== *)
(** * ExecutionCore: paper entries *)
(* ================================================================== *)

Lemma min_clip (req bal : Q) : bal < req -> Py.min req bal = bal.
Proof.
  intro H. unfold Py.min. apply Qlt_bool_iff in H. rewrite H. reflexivity.
Qed.

Lemma min_self (bal : Q) : Py.min bal bal = bal.
Proof. unfold Py.min. destruct (Py.Qlt_bool bal bal); reflexivity. Qed.

Lemma max_nonneg (x : Q) : 0 <= Py.max 0.0 x.
Proof.
  unfold Py.max. destruct (Py.Qlt_bool 0.0 x) eqn:E.
  - apply Qlt_bool_iff in E. lra.
  - lra.
Qed.

Lemma execute_entry_reject (now : Q) (pos_id : string) (e : TE.t)
    (symbol_ : string) (price qty : Q) (tp sl : option Q) (ut : bool)
    (tr : Q) (tags : list string) (code : string) :
  In code (snd (TE._execute_entry now pos_id e symbol_ price qty tp sl ut tr tags)) ->
  TE._execute_entry now pos_id e symbol_ price qty tp sl ut tr tags
  = (e, ["PAPER_INSUFFICIENT_BAL"]).
Proof.
  unfold TE._execute_entry.
  destruct (TE.paper_mode e); simpl.
  - destruct (Py.Qlt_bool (_ + TE.EPS) _); simpl; [reflexivity|].
    destruct (PM.open_position _ _ _ _ _ _ _ _ _ _ _ _ _ _ _) as [[pm' pos]|msg];
      simpl; intros [].
  - destruct (TE.client _) as [c|]; simpl; [|intros []].
    destruct (TE.create_order c _ _ _) as [[filled cumm]|]; simpl; [|intros []].
    destruct (Py.Qlt_bool 0 filled && Py.Qlt_bool 0 cumm);
      destruct (PM.open_position _ _ _ _ _ _ _ _ _ _ _ _ _ _ _) as [[pm' pos]|msg];
      simpl; intros [].
Qed.

Lemma execute_entry_paper_balance (now : Q) (pos_id : string) (e : TE.t)
    (symbol_ : string) (price qty : Q) (tp sl : option Q) (ut : bool)
    (tr : Q) (tags : list string) :
  TE.paper_mode e = true ->
  snd (TE._execute_entry now pos_id e symbol_ price qty tp sl ut tr tags) = [] ->
  price * qty <= Py.float_or (TE.paper_balance_usdt (TE.state e)) 0.0 + TE.EPS
  /\ TE.paper_balance_usdt
       (TE.state (fst (TE._execute_entry now pos_id e symbol_ price qty
                         tp sl ut tr tags)))
     = Some (Py.max 0.0
               (Py.float_or (TE.paper_balance_usdt (TE.state e)) 0.0
                - price * qty)).
Proof.
  intro Hpm. unfold TE._execute_entry. rewrite Hpm. simpl.
  destruct (Py.Qlt_bool (_ + TE.EPS) _) eqn:E; simpl; [discriminate|].
  intros _. split; [apply Qlt_bool_false, E|].
  destruct (PM.open_position _ _ _ _ _ _ _ _ _ _ _ _ _ _ _) as [[pm' pos]|msg];
    reflexivity.
Qed.

Lemma entry_logic_clip (now : Q) (pid : string) (e : TE.t) (sym : string)
    (last : Q) (open_all bots : list PM.Position) (d : AI.AITradeDecision) :
  TE.paper_mode e = true ->
  0 < Py.float_or (TE.paper_balance_usdt (TE.state e)) 0.0 ->
  Py.float_or (TE.paper_balance_usdt (TE.state e)) 0.0
  < AI.requested_trade_usdt d ->
  TE._entry_logic now pid e sym last open_all bots d
  = TE._entry_logic now pid e sym last open_all bots
      (AI.with_requested_trade_usdt
         (Py.float_or (TE.paper_balance_usdt (TE.state e)) 0.0) d).
Proof.
  intros Hpm Hbal Hreq. unfold TE._entry_logic. simpl.
  set (bal := Py.float_or (TE.paper_balance_usdt (TE.state e)) 0.0) in *.
  destruct (negb (fst _)); [reflexivity|].
  destruct (negb _); [reflexivity|].
  assert (E1 : Qle_bool (AI.requested_trade_usdt d) 0 = false)
    by (apply Qle_bool_false; lra).
  assert (E2 : Qle_bool bal 0 = false) by (apply Qle_bool_false; lra).
  rewrite E1, E2, Hpm. simpl.
  rewrite (min_clip _ _ Hreq), min_self. reflexivity.
Qed.

Lemma entry_logic_reject (now : Q) (pid : string) (e : TE.t) (sym : string)
    (last : Q) (open_all bots : list PM.Position) (d : AI.AITradeDecision)
    (code : string) :
  In code (snd (TE._entry_logic now pid e sym last open_all bots d)) ->
  fst (TE._entry_logic now pid e sym last open_all bots d) = e.
Proof.
  unfold TE._entry_logic.
  destruct (negb (fst _)); [reflexivity|].
  destruct (negb _); [reflexivity|].
  destruct (Qle_bool (AI.requested_trade_usdt d) 0); [reflexivity|].
  destruct (TE.paper_mode e && _); [reflexivity|].
  destruct (Py.Qlt_bool _ _); [reflexivity|].
  destruct (Qle_bool _ 0); [reflexivity|].
  intro H. apply execute_entry_reject in H. rewrite H. reflexivity.
Qed.

(** C1 (as amended).  In paper mode a requested trade value above the
    paper balance is clipped to the balance: the entry logic treats it
    exactly as a request for the whole balance.  Whenever the entry logic
    hands a code to the reject log, the engine is left exactly as it was;
    the solvency check of [_execute_entry] rejects, with nothing changed,
    an entry worth more than the balance plus 1e-9, and an entry that goes
    through leaves a balance that is not negative.  With a balance of 5 USDT
    and 10 USDT requested on BTCUSDT at 65000, the clipped quantity
    5/65000 is rounded up to 0.000077 (5.005 USDT), so the solvency check
    rejects the entry and the engine, ledger and balance included, is
    unchanged. *)
Theorem C1_paper_entry_clipped_and_checked :
  (forall (now : Q) (pid : string) (e : TE.t) (sym : string) (last : Q)
          (open_all bots : list PM.Position) (d : AI.AITradeDecision),
      TE.paper_mode e = true ->
      0 < Py.float_or (TE.paper_balance_usdt (TE.state e)) 0.0 ->
      Py.float_or (TE.paper_balance_usdt (TE.state e)) 0.0
      < AI.requested_trade_usdt d ->
      TE._entry_logic now pid e sym last open_all bots d
      = TE._entry_logic now pid e sym last open_all bots
          (AI.with_requested_trade_usdt
             (Py.float_or (TE.paper_balance_usdt (TE.state e)) 0.0) d))
  /\ (forall (now : Q) (pid : string) (e : TE.t) (sym : string) (last : Q)
             (open_all bots : list PM.Position) (d : AI.AITradeDecision)
             (code : string),
         In code (snd (TE._entry_logic now pid e sym last open_all bots d)) ->
         fst (TE._entry_logic now pid e sym last open_all bots d) = e)
  /\ (forall (now : Q) (pid : string) (e : TE.t) (symbol_ : string)
             (price qty : Q) (tp sl : option Q) (ut : bool) (tr : Q)
             (tags : list string),
         TE.paper_mode e = true ->
         (Py.float_or (TE.paper_balance_usdt (TE.state e)) 0.0 + TE.EPS
          < price * qty ->
          TE._execute_entry now pid e symbol_ price qty tp sl ut tr tags
          = (e, ["PAPER_INSUFFICIENT_BAL"]))
         /\ (snd (TE._execute_entry now pid e symbol_ price qty tp sl ut tr tags)
             = [] ->
             exists b,
               TE.paper_balance_usdt
                 (TE.state (fst (TE._execute_entry now pid e symbol_ price qty
                                   tp sl ut tr tags))) = Some b
               /\ 0 <= b))
  /\ TE._apply_ai_decision Scenario.NOW "p1" (Scenario.engine 5 65000)
       Scenario.entry10
     = (Scenario.engine 5 65000, ["PAPER_INSUFFICIENT_BAL"]).
Proof.
  split; [|split; [|split]].
  - intros. apply entry_logic_clip; assumption.
  - intros. eapply entry_logic_reject; eassumption.
  - intros now pid e symbol_ price qty tp sl ut tr tags Hpm. split.
    + intro H. unfold TE._execute_entry. rewrite Hpm. simpl.
      apply Qlt_bool_iff in H. rewrite H. reflexivity.
    + intro H.
      destruct (execute_entry_paper_balance now pid e symbol_ price qty tp sl
                  ut tr tags Hpm H) as [_ Hb].
      eexists. split; [exact Hb|apply max_nonneg].
  - vm_compute. reflexivity.
Qed.

(** C1, the claim as written fails: with a paper balance of 5 USDT and
    10 USDT requested on BTCUSDT at 40000, the entry is not rejected.  It is
    clipped to the balance: a position of 0.000125 BTC (5 USDT) is opened
    and the paper balance drops from 5 to 0. *)
Lemma C1_counterexample :
  let e := Scenario.engine 5 40000 in
  let r := TE._apply_ai_decision Scenario.NOW "p1" e Scenario.entry10 in
  TE.paper_mode e = true
  /\ TE.paper_balance_usdt (TE.state e) = Some 5
  /\ 5 < AI.requested_trade_usdt Scenario.entry10
  /\ PM.open_positions (TE.positions e) = []
  /\ snd r = []
  /\ (exists pos,
         PM.open_positions (TE.positions (fst r)) = [("p1", pos)]
         /\ PM.symbol pos = "BTCUSDT" /\ PM.source pos = "bot"
         /\ PM.status pos = "open"
         /\ PM.entry_price pos == 40000
         /\ PM.qty pos == 0.000125
         /\ PM.entry_price pos * PM.qty pos == 5)
  /\ (exists b, TE.paper_balance_usdt (TE.state (fst r)) = Some b /\ b == 0).
Proof.
  split; [reflexivity|]. split; [reflexivity|]. split; [reflexivity|].
  split; [reflexivity|]. split; [vm_compute; reflexivity|]. split.
  - eexists. split; [vm_compute; reflexivity|].
    repeat split; reflexivity.
  - eexists. split; [vm_compute; reflexivity|]. reflexivity.
Qed.

Lemma C1_witness :
  TE._entry_logic Scenario.NOW "p1" (Scenario.engine 5 40000) "BTCUSDT" 40000
    [] [] Scenario.entry10
  = TE._entry_logic Scenario.NOW "p1" (Scenario.engine 5 40000) "BTCUSDT" 40000
      [] [] (AI.with_requested_trade_usdt 5 Scenario.entry10).
Proof.
  destruct C1_paper_entry_clipped_and_checked as [Hclip _].
  apply (Hclip Scenario.NOW "p1" (Scenario.engine 5 40000) "BTCUSDT" 40000
           [] [] Scenario.entry10); reflexivity.
Defined.

(* ================================================================== *)
(** * ExecutionCore: paper round trip *)
(* ================================================================== *)

Lemma open_position_ok (cfg : Settings) (pos_id : string) (now : Q)
    (pm : PM.t) (symbol_ : string) (entry_price_ qty_ : Q)
    (mode_ : option string) (source_ : string) (opened_at_ : option Q)
    (tp_price_ sl_price_ : option Q) (use_trailing_ : option bool)
    (trailing_sl_pct_ : option Q) (meta_ : list string) :
  0 < entry_price_ -> 0 < qty_ ->
  Py.is_empty (Py.strip (Py.upper symbol_)) = false ->
  PM.has_open_bot_position pm (Py.strip (Py.upper symbol_)) = false ->
  exists pm' pos,
    PM.open_position cfg pos_id now pm symbol_ entry_price_ qty_ mode_ source_
      opened_at_ tp_price_ sl_price_ use_trailing_ trailing_sl_pct_ meta_
    = Py.Ok (pm', pos).
Proof.
  intros He Hq Hs Hb. unfold PM.open_position.
  apply Qle_bool_false in He, Hq. rewrite He, Hq, Hs, Hb, andb_false_r. simpl.
  eexists. eexists. reflexivity.
Qed.





Section PaperBalanceBinary64.

Import PrimFloat.
#[local] Open Scope float_scope.


End PaperBalanceBinary64.

(* ================================================================== *)
(** * ExecutionCore: daily rollover and profit split *)
(* ================================================================== *)

Lemma fold_keys {A : Type} (step : TE.t -> A -> TE.t) (l : list A) :
  (forall e a, TE.rollover_keys (step e a) = TE.rollover_keys e) ->
  forall e, TE.rollover_keys (fold_left step l e) = TE.rollover_keys e.
Proof.
  intro H. induction l as [|a r IH]; intro e; simpl; [reflexivity|].
  rewrite IH. apply H.
Qed.

Lemma execute_close_keys (now : Q) (e : TE.t) (pid : string) (price : Q)
    (reason : string) :
  TE.rollover_keys (TE._execute_close now e pid price reason)
  = TE.rollover_keys e.
Proof.
  unfold TE._execute_close.
  destruct (Py.get pid _) as [pos|]; [|reflexivity].
  destruct (negb (String.eqb (PM.source pos) "bot")); [reflexivity|].
  destruct (Qle_bool (PM.qty pos) 0); [reflexivity|].
  match goal with |- context [if negb ?b then _ else _] => destruct b end;
    simpl; [|reflexivity].
  destruct (PM.close_position now (TE.positions e) pid price reason None)
    as [pm' [closed|]]; [|reflexivity].
  destruct (TE.paper_mode e); reflexivity.
Qed.

Lemma execute_entry_keys (now : Q) (pos_id : string) (e : TE.t)
    (symbol_ : string) (price qty : Q) (tp sl : option Q) (ut : bool)
    (tr : Q) (tags : list string) :
  TE.rollover_keys
    (fst (TE._execute_entry now pos_id e symbol_ price qty tp sl ut tr tags))
  = TE.rollover_keys e.
Proof.
  unfold TE._execute_entry.
  destruct (TE.paper_mode e) eqn:Hpm; simpl.
  - destruct (Py.Qlt_bool (_ + TE.EPS) _); simpl; [reflexivity|].
    destruct (PM.open_position _ _ _ _ _ _ _ _ _ _ _ _ _ _ _) as [[pm' pos]|msg];
      reflexivity.
  - assert (K : TE.rollover_keys (TE._init_live_client_if_needed e)
                = TE.rollover_keys e).
    { unfold TE._init_live_client_if_needed. rewrite Hpm.
      destruct (TE.client e); reflexivity. }
    destruct (TE.client (TE._init_live_client_if_needed e)) as [c|];
      [|exact K].
    destruct (TE.create_order c _ _ _) as [[filled cumm]|]; [|exact K].
    destruct (Py.Qlt_bool 0 filled && Py.Qlt_bool 0 cumm);
      destruct (PM.open_position _ _ _ _ _ _ _ _ _ _ _ _ _ _ _) as [[pm' pos]|msg];
      exact K.
Qed.

Lemma handle_keys (e : TE.t) (ev : TE.Event) :
  TE.rollover_keys (TE.handle e ev) = TE.rollover_keys e.
Proof.
  destruct ev as [s p|now pid d]; simpl; [reflexivity|].
  unfold TE._apply_ai_decision.
  destruct (Py.is_empty _); [reflexivity|].
  destruct (Qle_bool _ 0); [reflexivity|].
  set (e1 := TE.with_positions _ e).
  set (e2 := fold_left _ (PM.check_exit_recommendations _ _ _ _) e1).
  assert (H2 : TE.rollover_keys e2 = TE.rollover_keys e).
  { unfold e2. rewrite fold_keys; [reflexivity|].
    intros e0 a. apply execute_close_keys. }
  destruct (String.eqb (AI.action d) "EXIT" && _); simpl.
  - rewrite fold_keys; [exact H2|]. intros e0 a. apply execute_close_keys.
  - destruct (negb _); simpl; [exact H2|].
    unfold TE._entry_logic.
    destruct (negb (fst _)); [exact H2|].
    destruct (negb _); [exact H2|].
    destruct (Qle_bool (AI.requested_trade_usdt d) 0); [exact H2|].
    destruct (TE.paper_mode e2 && _); [exact H2|].
    destruct (Py.Qlt_bool _ _); [exact H2|].
    destruct (Qle_bool _ 0); [exact H2|].
    rewrite execute_entry_keys. exact H2.
Qed.

Lemma run_keys (evs : list TE.Event) (e : TE.t) :
  TE.rollover_keys (TE.run e evs) = TE.rollover_keys e.
Proof. unfold TE.run. apply fold_keys. intros. apply handle_keys. Qed.

Lemma rollover_same_date (today : string) (e : TE.t) :
  Py.is_empty today = false ->
  TE.daily_date (TE.state e) = Some today ->
  TE._ensure_daily_rollover today e = e.
Proof.
  intros Hne Hd. unfold TE._ensure_daily_rollover.
  rewrite Hd, Hne, String.eqb_refl. reflexivity.
Qed.

Lemma split_keeps_date (e : TE.t) :
  TE.daily_date (TE.state (TE._apply_daily_profit_split e))
  = TE.daily_date (TE.state e)
  /\ TE.max_bot_balance (TE._apply_daily_profit_split e) = TE.max_bot_balance e.
Proof.
  unfold TE._apply_daily_profit_split.
  destruct (Py.is_empty _); [split; reflexivity|].
  destruct (String.eqb _ _); [split; reflexivity|].
  destruct (Py.Qlt_bool 0 _); [split; reflexivity|].
  destruct (Py.Qlt_bool _ 0); split; reflexivity.
Qed.

Lemma rollover_dates (today : string) (e : TE.t) :
  Py.is_empty today = false ->
  TE.daily_date (TE.state (TE._ensure_daily_rollover today e)) = Some today.
Proof.
  intro Hne. unfold TE._ensure_daily_rollover.
  destruct (TE.daily_date (TE.state e)) as [prev|] eqn:Hd; [|reflexivity].
  destruct (Py.is_empty prev); [reflexivity|].
  destruct (String.eqb prev today) eqn:E; simpl; [|reflexivity].
  apply String.eqb_eq in E. subst prev. exact Hd.
Qed.

Lemma loop_keys (today : string) (passes : list (list TE.Event)) :
  Py.is_empty today = false ->
  forall e,
    TE.daily_date (TE.state e) = Some today ->
    TE.rollover_keys (TE.loop today e passes) = TE.rollover_keys e.
Proof.
  intro Hne. unfold TE.loop.
  induction passes as [|evs r IH]; intros e Hd; simpl; [reflexivity|].
  assert (K : TE.rollover_keys (TE.loop_iteration today e evs)
              = TE.rollover_keys e).
  { unfold TE.loop_iteration. rewrite (rollover_same_date today e Hne Hd).
    apply run_keys. }
  rewrite IH; [exact K|].
  unfold TE.rollover_keys in K. inversion K as [[K1 K2 K3 K4 K5]].
  rewrite K1. exact Hd.
Qed.

Lemma split_idempotent (e : TE.t) :
  TE._apply_daily_profit_split (TE._apply_daily_profit_split e)
  = TE._apply_daily_profit_split e.
Proof.
  unfold TE._apply_daily_profit_split at 2 3.
  destruct (Py.is_empty
              (match TE.daily_date (TE.state e) with Some d => d | None => "" end))
    eqn:Hd.
  - unfold TE._apply_daily_profit_split. rewrite Hd. reflexivity.
  - destruct (String.eqb _ _) eqn:Hm.
    + unfold TE._apply_daily_profit_split. rewrite Hd, Hm. reflexivity.
    + assert (Hgen : forall c b,
                 TE._apply_daily_profit_split
                   (TE.with_state
                      (TE.set_split c b
                         (match TE.daily_date (TE.state e) with
                          | Some d => d | None => "" end) (TE.state e)) e)
                 = TE.with_state
                     (TE.set_split c b
                        (match TE.daily_date (TE.state e) with
                         | Some d => d | None => "" end) (TE.state e)) e).
      { intros c b. unfold TE._apply_daily_profit_split. simpl.
        rewrite Hd, String.eqb_refl. reflexivity. }
      destruct (Py.Qlt_bool 0 _); [cbv beta iota; apply Hgen|].
      destruct (Py.Qlt_bool _ 0); cbv beta iota; apply Hgen.
Qed.

Lemma split_rule (e : TE.t) (prev : string) :
  TE.daily_date (TE.state e) = Some prev ->
  Py.is_empty prev = false ->
  TE.last_profit_split_date (TE.state e) <> Some prev ->
  let pnl := Py.float_or (TE.realized_pnl_today (TE.state e)) 0.0 in
  let capital := Py.float_or (TE.capital_usdt (TE.state e)) (TE.max_bot_balance e) in
  let bot_bal := Py.float_or (TE.bot_balance_usdt (TE.state e)) 0.0 in
  let st' := TE.state (TE._apply_daily_profit_split e) in
  TE.last_profit_split_date st' = Some prev
  /\ (0 < pnl ->
      TE.bot_balance_usdt st' = Some (bot_bal + pnl * 0.5)
      /\ TE.capital_usdt st' = Some (capital + pnl * 0.5))
  /\ (pnl < 0 ->
      TE.bot_balance_usdt st' = Some bot_bal
      /\ TE.capital_usdt st' = Some (capital + pnl))
  /\ (pnl == 0 ->
      TE.bot_balance_usdt st' = Some bot_bal
      /\ TE.capital_usdt st' = Some capital).
Proof.
  intros Hd Hne Hm pnl capital bot_bal st'.
  unfold st', TE._apply_daily_profit_split. rewrite Hd, Hne.
  destruct (String.eqb _ prev) eqn:E.
  { exfalso. apply Hm. apply String.eqb_eq in E.
    destruct (TE.last_profit_split_date (TE.state e)) as [d|]; [congruence|].
    subst prev. discriminate Hne. }
  fold pnl capital bot_bal.
  destruct (Py.Qlt_bool 0 pnl) eqn:E1.
  - apply Qlt_bool_iff in E1. simpl. split; [reflexivity|].
    split; [intros _; split; reflexivity|].
    split; intro H; exfalso; lra.
  - apply Qlt_bool_false in E1.
    destruct (Py.Qlt_bool pnl 0) eqn:E2.
    + apply Qlt_bool_iff in E2. simpl. split; [reflexivity|].
      split; [intro H; exfalso; lra|].
      split; [intros _; split; reflexivity|].
      intro H; exfalso; lra.
    + apply Qlt_bool_false in E2. simpl. split; [reflexivity|].
      split; [intro H; exfalso; lra|].
      split; [intro H; exfalso; lra|].
      intros _; split; reflexivity.
Qed.

(** C4.  For a calendar date [today]: the rollover step leaves the state
    dated [today]; calling it again on that date changes nothing, however
    often; and over any number of passes of the control loop on that date,
    with their decisions and price ticks, the date, the baseline equity,
    capital, bot balance and split marker stay what the first rollover of
    the day made them.  The profit split is guarded by
    [last_profit_split_date]: applied twice it acts once.  When it applies,
    a positive realized PnL adds half of it to the bot balance (and half to
    capital), a negative one is added in full to capital with the bot
    balance untouched, and the closed day becomes the marker. *)
Theorem C4_daily_rollover_once :
  (forall (today : string) (e : TE.t),
      Py.is_empty today = false ->
      TE.daily_date (TE.state (TE._ensure_daily_rollover today e)) = Some today
      /\ (forall n : nat,
             Nat.iter (S n) (TE._ensure_daily_rollover today) e
             = TE._ensure_daily_rollover today e)
      /\ (forall (evs : list TE.Event) (passes : list (list TE.Event)),
             TE.rollover_keys (TE.loop today e (evs :: passes))
             = TE.rollover_keys (TE._ensure_daily_rollover today e)))
  /\ (forall e : TE.t,
         TE._apply_daily_profit_split (TE._apply_daily_profit_split e)
         = TE._apply_daily_profit_split e)
  /\ (forall (e : TE.t) (prev : string),
         TE.daily_date (TE.state e) = Some prev ->
         Py.is_empty prev = false ->
         TE.last_profit_split_date (TE.state e) <> Some prev ->
         let pnl := Py.float_or (TE.realized_pnl_today (TE.state e)) 0.0 in
         let capital :=
           Py.float_or (TE.capital_usdt (TE.state e)) (TE.max_bot_balance e) in
         let bot_bal := Py.float_or (TE.bot_balance_usdt (TE.state e)) 0.0 in
         let st' := TE.state (TE._apply_daily_profit_split e) in
         TE.last_profit_split_date st' = Some prev
         /\ (0 < pnl ->
             TE.bot_balance_usdt st' = Some (bot_bal + pnl * 0.5)
             /\ TE.capital_usdt st' = Some (capital + pnl * 0.5))
         /\ (pnl < 0 ->
             TE.bot_balance_usdt st' = Some bot_bal
             /\ TE.capital_usdt st' = Some (capital + pnl))
         /\ (pnl == 0 ->
             TE.bot_balance_usdt st' = Some bot_bal
             /\ TE.capital_usdt st' = Some capital)).
Proof.
  split; [|split].
  - intros today e Hne.
    pose proof (rollover_dates today e Hne) as Hd.
    split; [exact Hd|]. split.
    + induction n as [|n IH]; [reflexivity|].
      change (Nat.iter (S (S n)) (TE._ensure_daily_rollover today) e)
        with (TE._ensure_daily_rollover today
                (Nat.iter (S n) (TE._ensure_daily_rollover today) e)).
      rewrite IH. apply rollover_same_date; assumption.
    + intros evs passes. unfold TE.loop. simpl. fold (TE.loop today).
      assert (K : TE.rollover_keys (TE.loop_iteration today e evs)
                  = TE.rollover_keys (TE._ensure_daily_rollover today e))
        by apply run_keys.
      change (fold_left (TE.loop_iteration today) passes
                (TE.loop_iteration today e evs))
        with (TE.loop today (TE.loop_iteration today e evs) passes).
      rewrite loop_keys; [exact K|exact Hne|].
      unfold TE.rollover_keys in K. inversion K as [[K1 K2 K3 K4 K5]].
      rewrite K1. exact Hd.
  - apply split_idempotent.
  - apply split_rule.
Qed.

Lemma C4_witness :
  let e := Scenario.engine_after_day 10 in
  TE.rollover_keys
    (TE.loop "2026-01-02" e [[]; [TE.Price "BTCUSDT" 101]; []])
  = TE.rollover_keys (TE._ensure_daily_rollover "2026-01-02" e)
  /\ TE.bot_balance_usdt (TE.state (TE._apply_daily_profit_split e))
     = Some (0.0 + 10 * 0.5).
Proof.
  destruct C4_daily_rollover_once as [Hroll [_ Hsplit]]. split.
  - destruct (Hroll "2026-01-02" (Scenario.engine_after_day 10) eq_refl)
      as [_ [_ Hloop]].
    apply Hloop.
  - destruct (Hsplit (Scenario.engine_after_day 10) "2026-01-01" eq_refl eq_refl)
      as [_ [Hpos _]].
    + intro H. discriminate H.
    + apply Hpos. reflexivity.
Defined.

(* ================================================================== *)
(** * MarketDataStream: reconnect backoff *)
(* ================================================================== *)

Module MD := MarketDataManager.

Lemma list_index_capped (backoff : list Z) (i : nat) :
  backoff <> [] ->
  MD.list_index backoff
    (Z.min (Z.of_nat i) (Z.of_nat (List.length backoff) - 1))
  = Some (MD.capped_delay backoff i).
Proof.
  intro Hne. unfold MD.list_index, MD.capped_delay.
  assert (Hlen : (0 < List.length backoff)%nat)
    by (destruct backoff; [contradiction|simpl; lia]).
  assert (E : Z.min (Z.of_nat i) (Z.of_nat (List.length backoff) - 1)
              = Z.of_nat (Nat.min i (List.length backoff - 1))) by lia.
  rewrite E.
  destruct (Z.of_nat _ <? 0)%Z eqn:E0; [apply Z.ltb_lt in E0; lia|].
  assert (E1 : ((0 <=? Z.of_nat (Nat.min i (List.length backoff - 1)))
                && (Z.of_nat (Nat.min i (List.length backoff - 1))
                    <? Z.of_nat (List.length backoff)))%Z = true).
  { apply andb_true_iff. split; [apply Z.leb_le|apply Z.ltb_lt]; lia. }
  rewrite E1, Nat2Z.id. apply nth_error_nth'. lia.
Qed.

Lemma after_disconnect_failure (m : MD.t) (i : nat) :
  MD._running m = true -> MD._force_reconnect_event m = false ->
  MD.ws_backoff_sec m <> [] -> MD._reconnect_index m = Z.of_nat i ->
  MD.after_disconnect m
  = (MD.mkMD (MD.ws_backoff_sec m) true (MD._symbols m) (Z.of_nat (S i)) false
             (MD._lock_held m),
     MD.Sleep (MD.capped_delay (MD.ws_backoff_sec m) i)).
Proof.
  intros Hr Hf Hne Hi. unfold MD.after_disconnect.
  rewrite Hr, Hf, Hi. simpl negb. cbv iota.
  rewrite (list_index_capped _ i Hne).
  replace (Z.of_nat i + 1)%Z with (Z.of_nat (S i)) by lia. reflexivity.
Qed.

Lemma run_failures (k : nat) :
  forall (m : MD.t) (i : nat),
    MD._running m = true -> MD._force_reconnect_event m = false ->
    MD.ws_backoff_sec m <> [] -> MD._reconnect_index m = Z.of_nat i ->
    MD.run m (repeat MD.ConnectFailed k)
    = (MD.mkMD (MD.ws_backoff_sec m) true (MD._symbols m)
               (Z.of_nat (i + k)) false (MD._lock_held m),
       List.map (fun j => MD.Sleep (MD.capped_delay (MD.ws_backoff_sec m) j))
                (seq i k)).
Proof.
  induction k as [|k IH]; intros m i Hr Hf Hne Hi; simpl.
  - destruct m as [b r s x f l]. simpl in *. subst. rewrite Nat.add_0_r.
    reflexivity.
  - rewrite (after_disconnect_failure m i Hr Hf Hne Hi).
    rewrite (IH _ (S i)); try reflexivity; try assumption.
    cbn [MD.ws_backoff_sec MD._symbols MD._lock_held app].
    replace (S i + k)%nat with (i + S k)%nat by lia. reflexivity.
Qed.

Lemma list_eqb_eq (a : list string) :
  forall b, MD.list_eqb a b = true <-> a = b.
Proof.
  induction a as [|x a IH]; intros [|y b]; simpl; split; intro H;
    try reflexivity; try discriminate H.
  - apply andb_true_iff in H. destruct H as [H1 H2].
    apply String.eqb_eq in H1. apply IH in H2. subst. reflexivity.
  - injection H as -> ->. rewrite String.eqb_refl. simpl. apply IH.
    reflexivity.
Qed.

(** A changed watch list with the lock free: the list is stored, the lock
    stays held, the event is as it was and the call does not return. *)
Lemma update_symbols_changed (m : MD.t) (symbols : list string) :
  MD._lock_held m = false -> MD.new_syms symbols <> MD._symbols m ->
  MD.update_symbols m symbols
  = (MD.mkMD (MD.ws_backoff_sec m) (MD._running m) (MD.new_syms symbols)
             (MD._reconnect_index m) (MD._force_reconnect_event m) true,
     MD.Hangs).
Proof.
  intros Hl Hne. unfold MD.update_symbols. rewrite Hl.
  fold (MD.new_syms symbols).
  destruct (MD.list_eqb (MD.new_syms symbols) (MD._symbols m)) eqn:E;
    [|reflexivity].
  apply list_eqb_eq in E. contradiction.
Qed.

(** C5.  What the code does of the claim, and where it stops short.
    [_on_open] (a successful connection) sets the backoff index to 0.
    The loop answers a raised forced-reconnect event by setting the index
    to 0 without sleeping.  With a non-empty configured sequence, [k]
    consecutive failed attempts starting at index [i] sleep for the delays
    at positions [i], [i+1], ... of the sequence, its last element
    repeated, and leave the index at [i + k]; after two failures and one
    successful connection the index is 0.  An explicit watch-set change
    does not reset the index: with the lock free and a list that differs
    from the stored one, [update_symbols] stores the list and then waits
    for the lock it holds, so it never raises the forced-reconnect event;
    the next failed attempt of a running manager sleeps for the delay at
    the current index and advances it.  After two failures, a change of
    the default watch list to ETHUSDT and one more failure, the manager
    has slept 2, 5 and 10 seconds and its index is 3. *)
Theorem C5_reconnect_backoff :
  (forall m : MD.t, MD._reconnect_index (MD._on_open m) = 0%Z)
  /\ (forall m : MD.t,
         MD._running m = true -> MD._force_reconnect_event m = true ->
         MD._reconnect_index (fst (MD.after_disconnect m)) = 0%Z
         /\ MD._force_reconnect_event (fst (MD.after_disconnect m)) = false
         /\ snd (MD.after_disconnect m) = MD.Continue)
  /\ (forall (m : MD.t) (i k : nat),
         MD._running m = true -> MD._force_reconnect_event m = false ->
         MD.ws_backoff_sec m <> [] -> MD._reconnect_index m = Z.of_nat i ->
         snd (MD.run m (repeat MD.ConnectFailed k))
         = List.map (fun j => MD.Sleep (MD.capped_delay (MD.ws_backoff_sec m) j))
                    (seq i k)
         /\ MD._reconnect_index (fst (MD.run m (repeat MD.ConnectFailed k)))
            = Z.of_nat (i + k))
  /\ (forall m : MD.t,
         MD._reconnect_index
           (fst (MD.run m [MD.ConnectFailed; MD.ConnectFailed; MD.ConnectOpened]))
         = 0%Z)
  /\ (forall (m : MD.t) (symbols : list string),
         MD._lock_held m = false -> MD.new_syms symbols <> MD._symbols m ->
         MD.update_symbols m symbols
         = (MD.mkMD (MD.ws_backoff_sec m) (MD._running m)
                    (MD.new_syms symbols) (MD._reconnect_index m)
                    (MD._force_reconnect_event m) true,
            MD.Hangs))
  /\ (forall (m : MD.t) (symbols : list string) (i : nat),
         MD._running m = true -> MD._force_reconnect_event m = false ->
         MD._lock_held m = false ->
         MD.ws_backoff_sec m <> [] -> MD._reconnect_index m = Z.of_nat i ->
         MD.new_syms symbols <> MD._symbols m ->
         MD.run m [MD.WatchSetChanged symbols; MD.ConnectFailed]
         = (MD.mkMD (MD.ws_backoff_sec m) true (MD.new_syms symbols)
                    (Z.of_nat (S i)) false true,
            [MD.Sleep (MD.capped_delay (MD.ws_backoff_sec m) i)]))
  /\ MD.run MD.started_default
       [MD.ConnectFailed; MD.ConnectFailed;
        MD.WatchSetChanged ["ETHUSDT"]; MD.ConnectFailed]
     = (MD.mkMD [2; 5; 10; 15]%Z true ["ETHUSDT"] 3 false true,
        [MD.Sleep 2; MD.Sleep 5; MD.Sleep 10]).
Proof.
  split; [reflexivity|]. split; [|split; [|split; [|split; [|split]]]].
  - intros m Hr Hf. unfold MD.after_disconnect. rewrite Hr, Hf.
    repeat split; reflexivity.
  - intros m i k Hr Hf Hne Hi.
    rewrite (run_failures k m i Hr Hf Hne Hi). split; reflexivity.
  - intro m. simpl.
    destruct (MD.after_disconnect m) as [m1 s1].
    destruct (MD.after_disconnect m1) as [m2 s2]. reflexivity.
  - intros m symbols Hl Hne. apply update_symbols_changed; assumption.
  - intros m symbols i Hr Hf Hl Hb Hi Hne.
    cbn [MD.run MD.step]. rewrite (update_symbols_changed m symbols Hl Hne).
    cbn [fst].
    rewrite (after_disconnect_failure _ i); cbn; try assumption.
    reflexivity.
  - reflexivity.
Qed.

Lemma C5_witness :
  MD.run MD.started_default [MD.WatchSetChanged [" ethusdt"]; MD.ConnectFailed]
  = (MD.mkMD [2; 5; 10; 15]%Z true ["ETHUSDT"] 1 false true, [MD.Sleep 2]).
Proof.
  destruct C5_reconnect_backoff as [_ [_ [_ [_ [_ [Hchg _]]]]]].
  refine (Hchg MD.started_default [" ethusdt"] 0%nat eq_refl eq_refl eq_refl
               _ eq_refl _).
  - intro H. discriminate H.
  - intro H. vm_compute in H. discriminate H.
Defined.

(* ================================================================== *)
(** * DecisionGate: warmup relaxation *)
(* ================================================================== *)

(** Inside the warmup window the score bar is the base bar less the delta,
    floored at zero; the signal-count bar is the base bar, inside and
    outside the window. *)
Lemma gate_thresholds_spec (cfg : Settings) (boot_ts now : Q) :
  snd (AI.gate_thresholds cfg boot_ts now) = AI.min_signals_base cfg
  /\ (AI.relaxed cfg boot_ts now = true ->
      fst (AI.gate_thresholds cfg boot_ts now)
      = Py.max 0.0 (AI.min_score_base cfg
                    - Py.float_or (ai_warmup_relax_score_delta cfg) 0.10))
  /\ (AI.relaxed cfg boot_ts now = false ->
      fst (AI.gate_thresholds cfg boot_ts now) = AI.min_score_base cfg).
Proof.
  unfold AI.gate_thresholds.
  destruct (AI.relaxed cfg boot_ts now); simpl;
    repeat split; try reflexivity; intro H; discriminate H.
Qed.

(** Outside the warmup window an ENTRY decision is issued exactly for an
    entry signal whose score reaches the base minimum, the base
    signal-count minimum being at most the fixed count of one. *)
Lemma gate_outside_warmup (cfg : Settings) (boot_ts now : Q) (sym : string)
    (out : AI.StrategyOutput) :
  AI.relaxed cfg boot_ts now = false ->
  let d := AI.evaluate_output cfg boot_ts now sym out in
  AI.action d = "ENTRY" ->
  AI.is_entry_signal (AI.signal d) = true
  /\ AI.min_score_base cfg <= AI.score d
  /\ (AI.min_signals_base cfg <= AI.valid_count)%Z.
Proof.
  intros Hrel d. unfold d, AI.evaluate_output, AI.gate_thresholds.
  rewrite Hrel.
  destruct (AI.is_exit_signal _); simpl; [intro H; discriminate H|].
  destruct (AI.is_entry_signal _) eqn:He; simpl; [|intro H; discriminate H].
  destruct (Py.Qlt_bool _ (AI.min_score_base cfg)) eqn:Hs; simpl;
    [intro H; discriminate H|].
  destruct (AI.valid_count <? AI.min_signals_base cfg)%Z eqn:Hc; simpl;
    [intro H; discriminate H|].
  intros _. split; [exact He|]. split.
  - apply Qlt_bool_false, Hs.
  - apply Z.ltb_ge, Hc.
Qed.

(** C9, the code at the failing input: with [ai.min_valid_signals] = 2 and
    the stock [ai.warmup_relax_signals_delta] = 1, an ENTRY signal scored
    0.9 and evaluated 10 s after engine start is held back with
    NOT_ENOUGH_VALID_SIGNALS.  Inside the warmup window the score bar has
    gone down from 0.40 to 0.30, but the signal-count bar is still 2: the
    same as 400 s after start, and above the relaxed value 2 - 1 that the
    fixed count of one would have met. *)
Theorem C9_warmup_keeps_signal_count_bar :
  AI.relaxed Scenario.settings_two_signals Scenario.BOOT Scenario.WARM = true
  /\ AI.relaxed Scenario.settings_two_signals Scenario.BOOT Scenario.COLD = false
  /\ fst (AI.gate_thresholds Scenario.settings_two_signals Scenario.BOOT
            Scenario.WARM) == 0.30
  /\ fst (AI.gate_thresholds Scenario.settings_two_signals Scenario.BOOT
            Scenario.COLD) == 0.40
  /\ snd (AI.gate_thresholds Scenario.settings_two_signals Scenario.BOOT
            Scenario.WARM) = 2%Z
  /\ snd (AI.gate_thresholds Scenario.settings_two_signals Scenario.BOOT
            Scenario.COLD) = 2%Z
  /\ ai_warmup_relax_signals_delta Scenario.settings_two_signals = Some 1%Z
  /\ AI.valid_count = 1%Z
  /\ AI.action
       (AI.evaluate_output Scenario.settings_two_signals Scenario.BOOT
          Scenario.WARM "BTCUSDT" (Scenario.entry_output 0.9)) = "HOLD"
  /\ AI.reject_reason
       (AI.evaluate_output Scenario.settings_two_signals Scenario.BOOT
          Scenario.WARM "BTCUSDT" (Scenario.entry_output 0.9))
     = Some "NOT_ENOUGH_VALID_SIGNALS"
  /\ (forall (cfg : Settings) (boot_ts now : Q),
         snd (AI.gate_thresholds cfg boot_ts now) = AI.min_signals_base cfg).
Proof.
  repeat split; try reflexivity.
  intros cfg boot_ts now. apply gate_thresholds_spec.
Qed.

(* ================================================================== *)
(** * ExecutionCore: the tolerance of the solvency test *)
(* ================================================================== *)

(** An entry worth up to 1e-9 more than the balance passes the solvency
    test; the debit is floored at zero, so the later credit of
    [qty * price] leaves more than the starting balance: the hypothesis
    of C10 that the balance covers the entry cannot be dropped. *)
Example paper_round_trip_tolerance_edge :
  let e := Scenario.engine 5 1 in
  let e1 := fst (TE._execute_entry Scenario.NOW "p1" e "BTCUSDT" 1 5.0000000005
                   None None false 0 []) in
  let e2 := TE._execute_close Scenario.NOW e1 "p1" 1 "TP" in
  (exists b1, TE.paper_balance_usdt (TE.state e1) = Some b1 /\ b1 == 0)
  /\ (exists b2, TE.paper_balance_usdt (TE.state e2) = Some b2
                 /\ b2 == 5.0000000005).
Proof.
  split; eexists; (split; [vm_compute; reflexivity|reflexivity]).
Qed.

(* ================================================================== *)
(** * PositionLedger: what every reachable ledger satisfies *)
(* ================================================================== *)

Lemma get_set_other {V : Type} (k k' : string) (v : V) (d : Py.dict V) :
  k' <> k -> Py.get k' (Py.set k v d) = Py.get k' d.
Proof.
  intro Hne. induction d as [|[k0 v0] r IH]; simpl.
  - destruct (String.eqb k k') eqn:E; [|reflexivity].
    apply String.eqb_eq in E. congruence.
  - destruct (String.eqb k0 k) eqn:E; simpl.
    + apply String.eqb_eq in E. subst k0.
      destruct (String.eqb k k') eqn:E'; [|reflexivity].
      apply String.eqb_eq in E'. congruence.
    + destruct (String.eqb k0 k'); [reflexivity|exact IH].
Qed.

Lemma get_pop_other {V : Type} (k k' : string) (d : Py.dict V) :
  k' <> k -> Py.get k' (Py.pop k d) = Py.get k' d.
Proof.
  intro Hne. induction d as [|[k0 v0] r IH]; simpl; [reflexivity|].
  destruct (String.eqb k0 k) eqn:E; simpl.
  - apply String.eqb_eq in E. subst k0.
    destruct (String.eqb k k') eqn:E'; [|exact IH].
    apply String.eqb_eq in E'. congruence.
  - destruct (String.eqb k0 k'); [reflexivity|exact IH].
Qed.

Lemma keys_set_in {V : Type} (k x : string) (v : V) (d : Py.dict V) :
  In x (Py.keys (Py.set k v d)) -> In x (Py.keys d) \/ x = k.
Proof.
  induction d as [|[k0 v0] r IH]; simpl.
  - intros [H|[]]. right. symmetry. exact H.
  - destruct (String.eqb k0 k); simpl.
    + intros [H|H]; [left; left; exact H|left; right; exact H].
    + intros [H|H]; [left; left; exact H|].
      destruct (IH H) as [H1|H1]; [left; right; exact H1|right; exact H1].
Qed.

Lemma keys_set_nodup {V : Type} (k : string) (v : V) (d : Py.dict V) :
  NoDup (Py.keys d) -> NoDup (Py.keys (Py.set k v d)).
Proof.
  induction d as [|[k0 v0] r IH]; simpl; intro H.
  - constructor; [intros []|constructor].
  - inversion H as [|x l Hnot Hnd]; subst.
    destruct (String.eqb k0 k) eqn:E; simpl.
    + constructor; assumption.
    + constructor; [|apply IH, Hnd].
      intro Hin. apply keys_set_in in Hin. destruct Hin as [Hin|Hin].
      * apply Hnot, Hin.
      * subst k0. rewrite String.eqb_refl in E. discriminate.
Qed.

Lemma keys_map_values {V : Type} (f : V -> V) (d : Py.dict V) :
  Py.keys (Py.map_values f d) = Py.keys d.
Proof.
  unfold Py.keys, Py.map_values. rewrite map_map. reflexivity.
Qed.

Lemma keys_pop_nodup {V : Type} (k : string) (d : Py.dict V) :
  NoDup (Py.keys d) -> NoDup (Py.keys (Py.pop k d)).
Proof.
  induction d as [|[k0 v0] r IH]; simpl; intro H; [constructor|].
  inversion H as [|x l Hnot Hnd]; subst.
  destruct (String.eqb k0 k); simpl; [apply IH, Hnd|].
  constructor; [|apply IH, Hnd].
  intro Hin. apply Hnot. unfold Py.keys in *. apply in_map_iff in Hin.
  destruct Hin as [[k1 v1] [E Hin]]. simpl in E. subst k1.
  apply in_map_iff. exists (k0, v1). split; [reflexivity|].
  apply (in_pop k), Hin.
Qed.

Lemma open_position_fresh (cfg : Settings) (pos_id : string) (now : Q)
    (pm : PM.t) (symbol_ : string) (entry_price_ qty_ : Q)
    (mode_ : option string) (source_ : string) (opened_at_ : option Q)
    (tp_price_ sl_price_ : option Q) (use_trailing_ : option bool)
    (trailing_sl_pct_ : option Q) (meta_ : list string)
    (pm' : PM.t) (pos : PM.Position) :
  PM.open_position cfg pos_id now pm symbol_ entry_price_ qty_ mode_ source_
    opened_at_ tp_price_ sl_price_ use_trailing_ trailing_sl_pct_ meta_
  = Py.Ok (pm', pos) ->
  PM.current_price pos = entry_price_
  /\ PM.pnl_usdt pos = 0
  /\ PM.pnl_percent pos = 0
  /\ PM.peak_price pos = entry_price_
  /\ PM.closed_at pos = None
  /\ PM.exit_reason pos = None
  /\ PM.meta pos = meta_
  /\ (source_ <> "bot" -> PM.use_trailing pos = false).
Proof.
  unfold PM.open_position.
  destruct (Qle_bool entry_price_ 0 || Qle_bool qty_ 0
            || Py.is_empty (Py.strip (Py.upper symbol_))); [discriminate|].
  destruct (String.eqb source_ "bot"
            && PM.has_open_bot_position pm (Py.strip (Py.upper symbol_)));
    [discriminate|].
  intro H. inversion H; subst; clear H. simpl.
  repeat split; try reflexivity.
  intro Hs. destruct (String.eqb source_ "bot") eqn:E; [|reflexivity].
  apply String.eqb_eq in E. contradiction.
Qed.

Lemma sound_empty : Ledger.sound PM.empty.
Proof.
  split; [constructor|]. split; [intros pid p []|intros c []].
Qed.

Lemma update_one_sound (price : Q) (pid : string) (p : PM.Position) :
  0 < price -> Ledger.sound_position pid p ->
  Ledger.sound_position pid (PM.update_one price p).
Proof.
  intros Hp [H1 [H2 [H3 [H4 [H5 [H6 [H7 H8]]]]]]].
  destruct (update_one_static price p) as [E1 [E2 [_ [E3 [E4 [E5 _]]]]]].
  destruct (update_one_pnl price p) as [Ec Epnl].
  unfold Ledger.sound_position.
  rewrite E1, E2, E3, E4, E5, Ec, Epnl.
  repeat split; try assumption; try reflexivity.
Qed.

Lemma sound_call (cfg : Settings) (pm : PM.t) (c : Ledger.Call) :
  Ledger.sound pm -> Ledger.sound (Ledger.call cfg pm c).
Proof.
  intros [Hnd [Hpos Hcl]]. destruct c; simpl.
  - destruct (PM.open_position _ _ _ _ _ _ _ _ _ _ _ _ _ _ _)
      as [[pm' pos]|msg] eqn:E; [|exact (conj Hnd (conj Hpos Hcl))].
    destruct (open_position_fresh _ _ _ _ _ _ _ _ _ _ _ _ _ _ _ _ _ E)
      as [Fc [Fp _]].
    apply open_position_inv in E.
    destruct E as [He [Hq [Hne [_ [Ho [Hc [Hid [Hsym [_ [Hst [Hep Hqt]]]]]]]]]]].
    split; [rewrite Ho; apply keys_set_nodup, Hnd|]. split.
    + intros pid p Hin. rewrite Ho in Hin. apply in_set in Hin.
      destruct Hin as [Hin|[Hk Hp]]; [apply Hpos, Hin|].
      subst pid p. unfold Ledger.sound_position.
      rewrite Hid, Hst, Hsym, Hep, Hqt, Fc, Fp, upper_strip_upper.
      repeat split; try assumption; try reflexivity. ring.
    + rewrite Hc. exact Hcl.
  - unfold PM.update_price.
    destruct (Qle_bool price 0) eqn:Hp; cbn [orb];
      [exact (conj Hnd (conj Hpos Hcl))|].
    destruct (Py.is_empty _); [exact (conj Hnd (conj Hpos Hcl))|].
    apply Qle_bool_false in Hp.
    unfold Ledger.sound. cbn [PM.open_positions PM.closed_positions].
    split; [rewrite keys_map_values; exact Hnd|]. split; [|exact Hcl].
    intros pid p Hin. apply in_map_values in Hin.
    destruct Hin as [p0 [Hin E]]. subst p.
    destruct (PM.on_symbol _ p0); [|apply Hpos, Hin].
    apply update_one_sound; [exact Hp|apply Hpos, Hin].
  - unfold PM.close_position.
    destruct (Py.get position_id (PM.open_positions pm)) as [pos|];
      [|exact (conj Hnd (conj Hpos Hcl))].
    destruct (negb (String.eqb (PM.status pos) "open"));
      [exact (conj Hnd (conj Hpos Hcl))|].
    destruct (String.eqb (PM.source pos) "manual");
      [exact (conj Hnd (conj Hpos Hcl))|].
    simpl. split; [apply keys_pop_nodup, Hnd|]. split.
    + intros pid p Hin. apply in_pop in Hin. apply Hpos, Hin.
    + intros c [Hc|Hc]; [subst c; reflexivity|apply Hcl, Hc].
Qed.

Lemma sound_run_from (cfg : Settings) (calls : list Ledger.Call) :
  forall pm, Ledger.sound pm -> Ledger.sound (Ledger.run_from cfg pm calls).
Proof.
  induction calls as [|c r IH]; intros pm W; simpl; [exact W|].
  apply IH, sound_call, W.
Qed.

(* ================================================================== *)
(** * PositionLedger: opening *)
(* ================================================================== *)

(** X1.  [open_position] returns a position exactly when the entry price
    and the quantity are positive, the symbol is not blank once
    upper-cased and stripped, and, for a bot entry, no open bot position
    answers to that symbol; in every other case it raises [ValueError]. *)
Theorem X1_open_position_succeeds_iff :
  forall (cfg : Settings) (pid : string) (now : Q) (pm : PM.t)
         (symbol_ : string) (entry_price_ qty_ : Q) (mode_ : option string)
         (source_ : string) (opened_at_ tp_price_ sl_price_ : option Q)
         (use_trailing_ : option bool) (trailing_sl_pct_ : option Q)
         (meta_ : list string),
    (exists pm' pos,
        PM.open_position cfg pid now pm symbol_ entry_price_ qty_ mode_ source_
          opened_at_ tp_price_ sl_price_ use_trailing_ trailing_sl_pct_ meta_
        = Py.Ok (pm', pos))
    <-> (0 < entry_price_ /\ 0 < qty_
         /\ Py.is_empty (Py.strip (Py.upper symbol_)) = false
         /\ (source_ = "bot" ->
             PM.has_open_bot_position pm (Py.strip (Py.upper symbol_)) = false)).
Proof.
  intros. split.
  - intros [pm' [pos H]]. apply open_position_inv in H.
    destruct H as [H1 [H2 [H3 [H4 _]]]]. repeat split; assumption.
  - intros [H1 [H2 [H3 H4]]]. unfold PM.open_position.
    apply Qle_bool_false in H1, H2. rewrite H1, H2, H3. cbn [orb].
    destruct (String.eqb source_ "bot") eqn:E; cbn [andb].
    + apply String.eqb_eq in E. rewrite (H4 E). eexists. eexists. reflexivity.
    + eexists. eexists. reflexivity.
Qed.

Lemma X1_witness :
  (exists pm' pos,
      PM.open_position DEFAULT_SETTINGS "p9" Scenario.NOW Scenario.ledger1
        "ethusdt" 2000 (1 # 2) None "bot" None None None None None []
      = Py.Ok (pm', pos))
  /\ ~ (exists pm' pos,
           PM.open_position DEFAULT_SETTINGS "p9" Scenario.NOW Scenario.ledger1
             " btcusdt" 100 1 None "bot" None None None None None []
           = Py.Ok (pm', pos)).
Proof.
  split.
  - apply (proj2 (X1_open_position_succeeds_iff DEFAULT_SETTINGS "p9"
                    Scenario.NOW Scenario.ledger1 "ethusdt" 2000 (1 # 2) None
                    "bot" None None None None None [])).
    repeat split; reflexivity.
  - intro H.
    apply (proj1 (X1_open_position_succeeds_iff DEFAULT_SETTINGS "p9"
                    Scenario.NOW Scenario.ledger1 " btcusdt" 100 1 None
                    "bot" None None None None None [])) in H.
    destruct H as [_ [_ [_ H]]]. specialize (H eq_refl). discriminate H.
Defined.

(** X2.  After a successful [open_position] the new position is found
    under the id it was given, every other id is looked up as before and the
    closed history is untouched; the position starts at its entry price with
    no PnL and its peak at the entry price, and its symbol is the stripped
    upper-case form of the one passed in.  If it is a bot position:
    [has_open_bot_position], which upper-cases its argument and does not
    strip it, answers true for every spelling whose upper-case form is the
    stored symbol; for any other spelling, one with surrounding blanks
    among them, it answers false if it answered false before the call; and
    a second bot entry on any spelling with the same stripped upper-case
    form raises, since [open_position] strips before it looks. *)
Theorem X2_open_then_lookup :
  forall (cfg : Settings) (pid : string) (now : Q) (pm : PM.t)
         (symbol_ : string) (entry_price_ qty_ : Q) (mode_ : option string)
         (source_ : string) (opened_at_ tp_price_ sl_price_ : option Q)
         (use_trailing_ : option bool) (trailing_sl_pct_ : option Q)
         (meta_ : list string) (pm' : PM.t) (pos : PM.Position),
    PM.open_position cfg pid now pm symbol_ entry_price_ qty_ mode_ source_
      opened_at_ tp_price_ sl_price_ use_trailing_ trailing_sl_pct_ meta_
    = Py.Ok (pm', pos) ->
    Py.get pid (PM.open_positions pm') = Some pos
    /\ (forall k, k <> pid ->
          Py.get k (PM.open_positions pm') = Py.get k (PM.open_positions pm))
    /\ PM.closed_positions pm' = PM.closed_positions pm
    /\ PM.symbol pos = Py.strip (Py.upper symbol_)
    /\ PM.current_price pos = entry_price_
    /\ PM.peak_price pos = entry_price_
    /\ PM.pnl_usdt pos = 0
    /\ (source_ = "bot" ->
        (forall symbol2 : string,
           Py.upper symbol2 = Py.strip (Py.upper symbol_) ->
           PM.has_open_bot_position pm' symbol2 = true)
        /\ (forall symbol2 : string,
              Py.upper symbol2 <> Py.strip (Py.upper symbol_) ->
              PM.has_open_bot_position pm symbol2 = false ->
              PM.has_open_bot_position pm' symbol2 = false)
        /\ (forall symbol2 : string,
              Py.strip (Py.upper symbol2) = Py.strip (Py.upper symbol_) ->
              forall pid2 now2 e2 q2 m2 oa2 tp2 sl2 ut2 tr2 meta2,
              exists msg,
                PM.open_position cfg pid2 now2 pm' symbol2 e2 q2 m2 "bot"
                  oa2 tp2 sl2 ut2 tr2 meta2
                = Py.ValueError msg)).
Proof.
  intros cfg pid now pm symbol_ ep q mode_ src oa tp sl ut tr meta_ pm' pos H.
  destruct (open_position_fresh _ _ _ _ _ _ _ _ _ _ _ _ _ _ _ _ _ H)
    as [Fc [Fp [_ [Fk _]]]].
  apply open_position_inv in H.
  destruct H as [_ [_ [_ [_ [Ho [Hc [_ [Hsym [Hsrc [Hst _]]]]]]]]]].
  split; [rewrite Ho; apply get_set_same|].
  split; [intros k Hk; rewrite Ho; apply get_set_other, Hk|].
  split; [exact Hc|]. split; [exact Hsym|]. split; [exact Fc|].
  split; [exact Fk|]. split; [exact Fp|].
  intros Hbot.
  assert (Hhas : forall symbol2 : string,
            Py.upper symbol2 = Py.strip (Py.upper symbol_) ->
            PM.has_open_bot_position pm' symbol2 = true).
  { intros symbol2 Heq.
    unfold PM.has_open_bot_position. apply existsb_exists. exists pos. split.
    - unfold PM.get_open_positions, Py.values. apply in_map_iff.
      exists (pid, pos). split; [reflexivity|].
      apply get_in. rewrite Ho. apply get_set_same.
    - unfold PM.is_open_bot_on.
      rewrite Hsym, Hst, Hsrc, Hbot, Heq, upper_strip_upper, !String.eqb_refl.
      reflexivity. }
  split; [exact Hhas|]. split.
  - intros symbol2 Hne Hold.
    destruct (PM.has_open_bot_position pm' symbol2) eqn:E; [|reflexivity].
    exfalso. unfold PM.has_open_bot_position in E.
    apply existsb_exists in E. destruct E as [p [Hin Hp]].
    unfold PM.get_open_positions, Py.values in Hin.
    apply in_map_iff in Hin. destruct Hin as [[k p0] [E Hin]].
    simpl in E. subst p0.
    rewrite Ho in Hin. apply in_set in Hin. destruct Hin as [Hin|[_ Hin]].
    + assert (F : PM.has_open_bot_position pm symbol2 = true);
        [|rewrite F in Hold; discriminate Hold].
      unfold PM.has_open_bot_position. apply existsb_exists. exists p.
      split; [|exact Hp].
      unfold PM.get_open_positions, Py.values. apply in_map_iff.
      exists (k, p). split; [reflexivity|exact Hin].
    + subst p. unfold PM.is_open_bot_on in Hp.
      apply andb_true_iff in Hp. destruct Hp as [Hp _].
      apply andb_true_iff in Hp. destruct Hp as [Hp _].
      apply String.eqb_eq in Hp. apply Hne.
      rewrite <- Hp, Hsym, upper_strip_upper. reflexivity.
  - intros symbol2 Heq. intros. unfold PM.open_position.
    destruct (Qle_bool e2 0 || Qle_bool q2 0
              || Py.is_empty (Py.strip (Py.upper symbol2)));
      [eexists; reflexivity|].
    rewrite (Hhas (Py.strip (Py.upper symbol2)));
      [cbn; eexists; reflexivity|].
    rewrite upper_strip_upper. exact Heq.
Qed.

Lemma X2_witness :
  Py.get "p1" (PM.open_positions Scenario.ledger1) = Some Scenario.position1
  /\ PM.has_open_bot_position Scenario.ledger1 "BtcUsdt" = true
  /\ PM.has_open_bot_position Scenario.ledger1 " BtcUsdt " = false.
Proof.
  pose proof (X2_open_then_lookup DEFAULT_SETTINGS "p1" Scenario.NOW PM.empty
                "btcusdt" 100 2 None "bot" None (Some 103) (Some 99) (Some true)
                (Some 1) [] Scenario.ledger1 Scenario.position1 eq_refl) as H.
  destruct H as [H1 [_ [_ [_ [_ [_ [_ H2]]]]]]].
  destruct (H2 eq_refl) as [Hyes [Hno _]].
  split; [exact H1|]. split.
  - apply (Hyes "BtcUsdt"). reflexivity.
  - apply (Hno " BtcUsdt "); [|reflexivity].
    intro K. vm_compute in K. discriminate K.
Defined.

Lemma truthy_pos (v : Q) : 0 < v -> Py.truthy (Some v) = Some v.
Proof.
  intro H. unfold Py.truthy. destruct (Qeq_bool v 0) eqn:E; [|reflexivity].
  apply Qeq_bool_iff in E. lra.
Qed.

Lemma truthy_zero (v : Q) : v == 0 -> Py.truthy (Some v) = None.
Proof.
  intro H. unfold Py.truthy. apply Qeq_bool_iff in H. rewrite H. reflexivity.
Qed.

Lemma pct_eq (t : Q) : t / 100 == t * (1 # 100).
Proof. field. Qed.

(** X3.  When [open_position] is called without a take profit and without
    a stop, both come from the percentages of the settings: the take profit
    is [entry * (1 + take_profit_pct / 100)], above the entry price, for a
    positive percentage; the stop is [entry * (1 - stop_loss_pct / 100)],
    positive and below the entry price, for a percentage strictly between 0
    and 100.  A stop-loss percentage of exactly 100 computes a stop of 0,
    which is stored as no stop at all. *)
Theorem X3_open_position_default_exits :
  forall (cfg : Settings) (pid : string) (now : Q) (pm : PM.t)
         (symbol_ : string) (entry_price_ qty_ : Q) (mode_ : option string)
         (source_ : string) (opened_at_ : option Q)
         (use_trailing_ : option bool) (trailing_sl_pct_ : option Q)
         (meta_ : list string) (pm' : PM.t) (pos : PM.Position),
    PM.open_position cfg pid now pm symbol_ entry_price_ qty_ mode_ source_
      opened_at_ None None use_trailing_ trailing_sl_pct_ meta_
    = Py.Ok (pm', pos) ->
    let tpp := Py.float_or (risk_take_profit_pct cfg) 1.5 in
    let slp := Py.float_or (risk_stop_loss_pct cfg) 1.0 in
    (0 < tpp ->
       PM.tp_price pos = Some (entry_price_ * (1 + tpp / 100))
       /\ entry_price_ < entry_price_ * (1 + tpp / 100))
    /\ (0 < slp -> slp < 100 ->
        PM.sl_price pos = Some (entry_price_ * (1 - slp / 100))
        /\ 0 < entry_price_ * (1 - slp / 100)
        /\ entry_price_ * (1 - slp / 100) < entry_price_)
    /\ (slp == 100 -> PM.sl_price pos = None)
    /\ (tpp <= 0 -> PM.tp_price pos = None)
    /\ (slp <= 0 -> PM.sl_price pos = None).
Proof.
  intros cfg pid now pm symbol_ ep q mode_ src oa ut tr meta_ pm' pos H tpp slp.
  pose proof H as H0. apply open_position_inv in H0.
  destruct H0 as [Hep _].
  unfold PM.open_position in H.
  destruct (Qle_bool ep 0 || Qle_bool q 0
            || Py.is_empty (Py.strip (Py.upper symbol_))); [discriminate|].
  destruct (String.eqb src "bot" && _); [discriminate|].
  inversion H; subst pos; clear H. cbn [PM.tp_price PM.sl_price andb].
  fold tpp slp.
  split; [|split; [|split; [|split]]].
  - intro Ht. assert (E : Py.Qlt_bool 0 tpp = true) by (apply Qlt_bool_iff, Ht).
    rewrite E.
    assert (Hgt : ep < ep * (1 + tpp / 100)) by (rewrite pct_eq; nra).
    split; [apply truthy_pos; lra|exact Hgt].
  - intros Hs Hlt.
    assert (E : Py.Qlt_bool 0 slp = true) by (apply Qlt_bool_iff, Hs).
    rewrite E.
    assert (Hpos : 0 < ep * (1 - slp / 100)) by (rewrite pct_eq; nra).
    assert (Hb : ep * (1 - slp / 100) < ep) by (rewrite pct_eq; nra).
    split; [apply truthy_pos, Hpos|split; assumption].
  - intro Hs.
    assert (E : Py.Qlt_bool 0 slp = true) by (apply Qlt_bool_iff; lra).
    rewrite E. apply truthy_zero. rewrite pct_eq, Hs. ring.
  - intro Ht. assert (E : Py.Qlt_bool 0 tpp = false) by (apply Qlt_bool_false, Ht).
    rewrite E. reflexivity.
  - intro Hs. assert (E : Py.Qlt_bool 0 slp = false) by (apply Qlt_bool_false, Hs).
    rewrite E. reflexivity.
Qed.

Lemma X3_witness :
  exists pm' pos,
    PM.open_position DEFAULT_SETTINGS "p2" Scenario.NOW PM.empty "ethusdt"
      2000 1 None "bot" None None None None None [] = Py.Ok (pm', pos)
    /\ PM.tp_price pos = Some (2000 * (1 + 3.0 / 100))
    /\ PM.sl_price pos = Some (2000 * (1 - 2.0 / 100)).
Proof.
  destruct (PM.open_position DEFAULT_SETTINGS "p2" Scenario.NOW PM.empty
              "ethusdt" 2000 1 None "bot" None None None None None [])
    as [[pm' pos]|msg] eqn:E; [|vm_compute in E; discriminate E].
  exists pm', pos. split; [reflexivity|].
  destruct (X3_open_position_default_exits _ _ _ _ _ _ _ _ _ _ _ _ _ _ _ E)
    as [Ht [Hs _]].
  split; [apply Ht; reflexivity|apply Hs; reflexivity].
Defined.

(* ================================================================== *)
(** * PositionLedger: more on price ticks *)
(* ================================================================== *)

Lemma Qlt_bool_irrefl (x : Q) : Py.Qlt_bool x x = false.
Proof. apply Qlt_bool_false. apply Qle_refl. Qed.

Lemma update_one_idem (price : Q) (p : PM.Position) :
  PM.update_one price (PM.update_one price p) = PM.update_one price p.
Proof.
  destruct p as [i sy so ep q cp pu pp tp sl ut tr pk st mo oa ca er me].
  unfold PM.update_one. simpl.
  destruct (String.eqb so "bot") eqn:Eso; simpl; [|rewrite ?Eso; reflexivity].
  destruct ut; simpl; [|rewrite ?Eso; reflexivity].
  destruct sl as [s|]; simpl; [|rewrite ?Eso; reflexivity].
  destruct (Py.Qlt_bool pk price) eqn:Epk; simpl.
  - destruct (Py.Qlt_bool 0 tr) eqn:Etr; simpl.
    + destruct (Py.Qlt_bool s (price * (1 - tr / 100))) eqn:Es; simpl;
        rewrite ?Eso, ?Qlt_bool_irrefl; simpl; reflexivity.
    + rewrite ?Eso, ?Qlt_bool_irrefl; simpl; reflexivity.
  - rewrite ?Eso, ?Epk; simpl. reflexivity.
Qed.

Lemma on_symbol_update_one (sym : string) (price : Q) (p : PM.Position) :
  PM.on_symbol sym (PM.update_one price p) = PM.on_symbol sym p.
Proof.
  unfold PM.on_symbol.
  destruct (update_one_static price p) as [_ [E1 [_ [E2 _]]]].
  rewrite E1, E2. reflexivity.
Qed.

(** X4.  Applying the same tick twice is the same as applying it once:
    the second [update_price] finds the price fields, the peak and the stop
    already where it would put them. *)
Theorem X4_update_price_idempotent :
  forall (pm : PM.t) (symbol_ : string) (price : Q),
    PM.update_price (PM.update_price pm symbol_ price) symbol_ price
    = PM.update_price pm symbol_ price.
Proof.
  intros pm symbol_ price. unfold PM.update_price.
  destruct (Qle_bool price 0 || Py.is_empty (Py.strip (Py.upper symbol_)))
    eqn:E; [reflexivity|].
  cbn [PM.open_positions PM.closed_positions]. f_equal.
  unfold Py.map_values. rewrite map_map. apply map_ext.
  intros [k p]. cbn [fst snd]. f_equal.
  destruct (PM.on_symbol _ p) eqn:Hon.
  - rewrite on_symbol_update_one, Hon. apply update_one_idem.
  - rewrite Hon. reflexivity.
Qed.

(** X5.  [update_price] does nothing at all for a price that is not
    positive or a blank symbol.  In every case it keeps the ids and their
    order and the closed history, and a position that is not an open
    position on the ticked symbol is left exactly as it was. *)
Theorem X5_update_price_frame :
  forall (pm : PM.t) (symbol_ : string) (price : Q),
    (price <= 0 \/ Py.is_empty (Py.strip (Py.upper symbol_)) = true ->
       PM.update_price pm symbol_ price = pm)
    /\ Py.keys (PM.open_positions (PM.update_price pm symbol_ price))
       = Py.keys (PM.open_positions pm)
    /\ PM.closed_positions (PM.update_price pm symbol_ price)
       = PM.closed_positions pm
    /\ (forall pid p,
          Py.get pid (PM.open_positions pm) = Some p ->
          PM.on_symbol (Py.strip (Py.upper symbol_)) p = false ->
          Py.get pid (PM.open_positions (PM.update_price pm symbol_ price))
          = Some p).
Proof.
  intros pm symbol_ price. split; [|split; [|split]].
  - intros [H|H]; unfold PM.update_price.
    + apply Qle_bool_iff in H. rewrite H. reflexivity.
    + rewrite H, orb_true_r. reflexivity.
  - unfold PM.update_price.
    destruct (Qle_bool price 0 || _); [reflexivity|].
    apply keys_map_values.
  - apply update_price_closed.
  - intros pid p Hget Hon.
    destruct (update_price_get pm symbol_ price pid p Hget) as [E|[_ [_ E]]];
      [exact E|congruence].
Qed.

Lemma X5_witness :
  PM.update_price Scenario.ledger1 "BTCUSDT" (-1) = Scenario.ledger1
  /\ Py.get "p1" (PM.open_positions (PM.update_price Scenario.ledger1 "ETHUSDT" 50))
     = Some Scenario.position1.
Proof.
  destruct (X5_update_price_frame Scenario.ledger1 "BTCUSDT" (-1)) as [H1 _].
  destruct (X5_update_price_frame Scenario.ledger1 "ETHUSDT" 50)
    as [_ [_ [_ H4]]].
  split.
  - apply H1. left. apply Qle_bool_iff. reflexivity.
  - apply H4; reflexivity.
Defined.

(** X6.  A tick never lowers [peak_price]; and when a tick at a positive
    price moves the stop of a position, the new stop lies strictly below
    that price, so the tick that ratchets the stop does not itself produce
    a stop-loss recommendation for the position. *)
Theorem X6_ratchet_stays_below_tick :
  forall (price : Q) (p : PM.Position),
    PM.peak_price p <= PM.peak_price (PM.update_one price p)
    /\ (0 < price ->
        PM.sl_price (PM.update_one price p) <> PM.sl_price p ->
        exists sl',
          PM.sl_price (PM.update_one price p) = Some sl'
          /\ sl' < price
          /\ forall (sym : string) (allow : bool),
               PM.exit_reason_for sym price allow (PM.update_one price p)
               <> Some "SL"
               /\ PM.exit_reason_for sym price allow (PM.update_one price p)
                  <> Some "TRAILING_SL").
Proof.
  intros price p. split.
  - unfold PM.update_one. simpl.
    destruct (String.eqb (PM.source p) "bot" && PM.use_trailing p); simpl;
      [|apply Qle_refl].
    destruct (PM.sl_price p); simpl; [|apply Qle_refl].
    destruct (Py.Qlt_bool (PM.peak_price p) price) eqn:E; simpl;
      [|apply Qle_refl].
    apply Qlt_bool_iff in E.
    destruct (Py.Qlt_bool 0 (PM.trailing_sl_pct p)); simpl;
      [destruct (Py.Qlt_bool q _); simpl|]; apply Qlt_le_weak, E.
  - intros Hp Hne.
    destruct (update_one_sl price p)
      as [E|[sl [E1 [E2 [E3 [E4 [E5 [E6 E7]]]]]]]]; [contradiction|].
    exists (price * (1 - PM.trailing_sl_pct p / 100)).
    split; [exact E7|].
    assert (Hlt : price * (1 - PM.trailing_sl_pct p / 100) < price)
      by (rewrite pct_eq; nra).
    split; [exact Hlt|].
    intros sym allow. unfold PM.exit_reason_for. rewrite E7.
    assert (Hno : Qle_bool price (price * (1 - PM.trailing_sl_pct p / 100)) = false)
      by (apply Qle_bool_false, Hlt).
    rewrite Hno.
    destruct (negb _); [split; discriminate|].
    destruct (negb _); [split; discriminate|].
    destruct (negb _); [split; discriminate|].
    destruct (match PM.tp_price _ with Some tp => Qle_bool tp price | None => false end);
      split; discriminate.
Qed.

Lemma X6_witness :
  exists sl',
    PM.sl_price (PM.update_one 110 Scenario.position1) = Some sl'
    /\ sl' < 110.
Proof.
  destruct (X6_ratchet_stays_below_tick 110 Scenario.position1) as [_ H].
  destruct H as [sl' [H1 [H2 _]]].
  - reflexivity.
  - intro E. vm_compute in E. discriminate E.
  - exists sl'. split; assumption.
Defined.

(* ================================================================== *)
(** * PositionLedger: what a recommendation means *)
(* ================================================================== *)

Lemma collect_exits_keys (sym : string) (price : Q) (allow : bool)
    (d : Py.dict PM.Position) (k : string) :
  In k (List.map fst (PM.collect_exits sym price allow d)) -> In k (Py.keys d).
Proof.
  induction d as [|[k0 v0] r IH]; simpl; [intros []|].
  destruct (PM.exit_reason_for sym price allow v0); simpl.
  - intros [H|H]; [left; exact H|right; apply IH, H].
  - intro H. right. apply IH, H.
Qed.

Lemma collect_exits_nodup (sym : string) (price : Q) (allow : bool)
    (d : Py.dict PM.Position) :
  NoDup (Py.keys d) ->
  NoDup (List.map fst (PM.collect_exits sym price allow d)).
Proof.
  induction d as [|[k0 v0] r IH]; simpl; intro H; [constructor|].
  inversion H as [|x l Hnot Hnd]; subst.
  destruct (PM.exit_reason_for sym price allow v0); simpl; [|apply IH, Hnd].
  constructor; [|apply IH, Hnd].
  intro Hin. apply Hnot. apply (collect_exits_keys sym price allow), Hin.
Qed.

(** X7.  [check_exit_recommendations] returns nothing for a price that is
    not positive.  Every pair it returns names an open bot position on the
    queried symbol, with reason "TP" when the price has reached the take
    profit, and otherwise the stop reason ("TRAILING_SL" exactly when the
    position trails and trailing is allowed, else "SL") when the price is
    at or below the stop and below any take profit.  Manual positions are
    never named, and with distinct ids no id is named twice. *)
Theorem X7_exit_recommendations_sound :
  forall (pm : PM.t) (symbol_ : string) (price : Q) (allow_trailing : bool),
    (price <= 0 ->
       PM.check_exit_recommendations pm symbol_ price allow_trailing = [])
    /\ (forall pid reason,
          In (pid, reason)
             (PM.check_exit_recommendations pm symbol_ price allow_trailing) ->
          0 < price
          /\ exists pos,
               In (pid, pos) (PM.open_positions pm)
               /\ PM.status pos = "open" /\ PM.source pos = "bot"
               /\ Py.upper (PM.symbol pos) = Py.strip (Py.upper symbol_)
               /\ ((reason = "TP"
                    /\ exists tp, PM.tp_price pos = Some tp /\ tp <= price)
                   \/ (reason = (if PM.use_trailing pos && allow_trailing
                                 then "TRAILING_SL" else "SL")
                       /\ (exists sl, PM.sl_price pos = Some sl /\ price <= sl)
                       /\ (forall tp, PM.tp_price pos = Some tp -> price < tp))))
    /\ (NoDup (Py.keys (PM.open_positions pm)) ->
        NoDup (List.map fst
                 (PM.check_exit_recommendations pm symbol_ price allow_trailing))).
Proof.
  intros pm symbol_ price allow. unfold PM.check_exit_recommendations.
  split; [|split].
  - intro H. apply Qle_bool_iff in H. rewrite H. reflexivity.
  - intros pid reason Hin.
    destruct (Qle_bool price 0) eqn:Hp; [destruct Hin|].
    apply Qle_bool_false in Hp. split; [exact Hp|].
    apply collect_exits_In in Hin. destruct Hin as [pos [Hin Hr]].
    exists pos. split; [exact Hin|].
    unfold PM.exit_reason_for in Hr.
    destruct (String.eqb (PM.status pos) "open") eqn:Hst; simpl in Hr;
      [|discriminate].
    destruct (String.eqb (Py.upper (PM.symbol pos)) _) eqn:Hsy; simpl in Hr;
      [|discriminate].
    destruct (String.eqb (PM.source pos) "bot") eqn:Hso; simpl in Hr;
      [|discriminate].
    apply String.eqb_eq in Hst, Hsy, Hso.
    split; [exact Hst|]. split; [exact Hso|]. split; [exact Hsy|].
    destruct (PM.tp_price pos) as [tp|] eqn:Htp.
    + destruct (Qle_bool tp price) eqn:Ht.
      * inversion Hr; subst. left. split; [reflexivity|].
        exists tp. split; [reflexivity|apply Qle_bool_iff, Ht].
      * destruct (PM.sl_price pos) as [sl|] eqn:Hsl; [|discriminate].
        destruct (Qle_bool price sl) eqn:Hs; [|discriminate].
        right. split.
        -- inversion Hr. destruct (PM.use_trailing pos && allow); reflexivity.
        -- split; [exists sl; split; [reflexivity|apply Qle_bool_iff, Hs]|].
           intros tp' E. inversion E; subst. apply Qle_bool_false, Ht.
    + destruct (PM.sl_price pos) as [sl|] eqn:Hsl; [|discriminate].
      destruct (Qle_bool price sl) eqn:Hs; [|discriminate].
      right. split.
      * inversion Hr. destruct (PM.use_trailing pos && allow); reflexivity.
      * split; [exists sl; split; [reflexivity|apply Qle_bool_iff, Hs]|].
        intros tp' E. discriminate E.
  - intro Hnd. destruct (Qle_bool price 0); [constructor|].
    apply collect_exits_nodup, Hnd.
Qed.

Lemma X7_witness :
  PM.check_exit_recommendations Scenario.ledger1 "BTCUSDT" 0 true = []
  /\ exists pos,
       In ("p1", pos) (PM.open_positions Scenario.ledger1)
       /\ PM.source pos = "bot".
Proof.
  destruct (X7_exit_recommendations_sound Scenario.ledger1 "BTCUSDT" 0 true)
    as [H0 _].
  destruct (X7_exit_recommendations_sound Scenario.ledger1 "BTCUSDT" 98 true)
    as [_ [H1 _]].
  split; [apply H0; apply Qle_bool_iff; reflexivity|].
  destruct (H1 "p1" "TRAILING_SL") as [_ [pos [Hin [_ [Hs _]]]]].
  - left. reflexivity.
  - exists pos. split; assumption.
Defined.

(* ================================================================== *)
(** * PositionLedger: soundness, history and restart *)
(* ================================================================== *)

Lemma closed_call (cfg : Settings) (pm : PM.t) (c : Ledger.Call) :
  exists newer,
    PM.closed_positions (Ledger.call cfg pm c)
    = (newer ++ PM.closed_positions pm)%list
    /\ (List.length newer <= 1)%nat.
Proof.
  destruct c; simpl.
  - destruct (PM.open_position _ _ _ _ _ _ _ _ _ _ _ _ _ _ _)
      as [[pm' pos]|msg] eqn:E.
    + apply open_position_inv in E. destruct E as [_ [_ [_ [_ [_ [Hc _]]]]]].
      exists []. split; [exact Hc|simpl; lia].
    + exists []. split; [reflexivity|simpl; lia].
  - exists []. split; [apply update_price_closed|simpl; lia].
  - unfold PM.close_position.
    destruct (Py.get position_id (PM.open_positions pm)) as [pos|];
      [|exists []; split; [reflexivity|simpl; lia]].
    destruct (negb (String.eqb (PM.status pos) "open"));
      [exists []; split; [reflexivity|simpl; lia]|].
    destruct (String.eqb (PM.source pos) "manual");
      [exists []; split; [reflexivity|simpl; lia]|].
    simpl. eexists [_]. split; [reflexivity|simpl; lia].
Qed.

(** X8.  Every ledger built through the manager's interface from a sound
    one (the empty one in particular) is sound: ids are distinct; each open
    position is filed under its own id, has status "open", a non-blank
    upper-case symbol, positive entry price, quantity and current price,
    and a [pnl_usdt] equal to [(current_price - entry_price) * qty]; and
    every entry of the closed history has status "closed".  The same holds
    for the ledger of the engine after any sequence of price ticks and
    applied decisions. *)
Theorem X8_reachable_ledgers_sound :
  Ledger.sound PM.empty
  /\ (forall (cfg : Settings) (pm : PM.t) (calls : list Ledger.Call),
         Ledger.sound pm -> Ledger.sound (Ledger.run_from cfg pm calls))
  /\ (forall (e : TE.t) (evs : list TE.Event),
         Ledger.sound (TE.positions e) ->
         Ledger.sound (TE.positions (TE.run e evs))).
Proof.
  split; [apply sound_empty|]. split.
  - intros cfg pm calls. apply sound_run_from.
  - intros e evs H. destruct (engine_run_via evs e) as [_ [calls Hc]].
    rewrite Hc. apply sound_run_from, H.
Qed.

Lemma X8_witness :
  Ledger.sound
    (TE.positions
       (TE.run (Scenario.engine 1000 100)
          [TE.Decision Scenario.NOW "p1" Scenario.entry10;
           TE.Price "BTCUSDT" 104])).
Proof.
  destruct X8_reachable_ledgers_sound as [H0 [_ H]].
  apply H. exact H0.
Defined.

(** X9.  The closed history only grows, and only at its head: after any
    sequence of calls the history is the old history with the newly closed
    positions in front of it, at most one per call.  No call removes or
    rewrites an entry of the history. *)
Theorem X9_closed_history_grows :
  forall (cfg : Settings) (calls : list Ledger.Call) (pm : PM.t),
    exists newer,
      PM.closed_positions (Ledger.run_from cfg pm calls)
      = (newer ++ PM.closed_positions pm)%list
      /\ (List.length newer <= List.length calls)%nat.
Proof.
  intros cfg calls. unfold Ledger.run_from.
  induction calls as [|c r IH]; intro pm; simpl.
  - exists []. split; [reflexivity|simpl; lia].
  - destruct (closed_call cfg pm c) as [n1 [E1 L1]].
    destruct (IH (Ledger.call cfg pm c)) as [n2 [E2 L2]].
    exists (n2 ++ n1)%list. split.
    + rewrite E2, E1, app_assoc. reflexivity.
    + rewrite length_app. lia.
Qed.

Lemma set_fresh {V : Type} (k : string) (v : V) (d : Py.dict V) :
  ~ In k (Py.keys d) -> Py.set k v d = (d ++ [(k, v)])%list.
Proof.
  induction d as [|[k0 v0] r IH]; simpl; intro H; [reflexivity|].
  destruct (String.eqb k0 k) eqn:E.
  - apply String.eqb_eq in E. exfalso. apply H. left. exact E.
  - f_equal. apply IH. intro Hin. apply H. right. exact Hin.
Qed.

Lemma rebuild_dict (d : Py.dict PM.Position) :
  forall acc : Py.dict PM.Position,
    NoDup (Py.keys acc ++ Py.keys d) ->
    (forall pid p, In (pid, p) d -> PM.id p = pid) ->
    fold_left (fun a p => Py.set (PM.id p) p a) (Py.values d) acc
    = (acc ++ d)%list.
Proof.
  induction d as [|[k v] r IH]; intros acc Hnd Hid; simpl.
  - rewrite app_nil_r. reflexivity.
  - assert (Hk : PM.id v = k) by (apply Hid; left; reflexivity).
    rewrite Hk, set_fresh.
    + fold (Py.values r). rewrite IH.
      * rewrite <- app_assoc. reflexivity.
      * unfold Py.keys in *. rewrite map_app. simpl.
        rewrite <- app_assoc. simpl. exact Hnd.
      * intros pid p Hin. apply Hid. right. exact Hin.
    + simpl in Hnd. apply NoDup_remove_2 in Hnd.
      intro Hin. apply Hnd. apply in_or_app. left. exact Hin.
Qed.

(** X10.  Restart round trip: a manager constructed from what a sound
    ledger persists (its open positions as a list, its closed history) holds
    exactly that ledger again, ids, order and all fields included.  This is
    so for every ledger built through the interface. *)
Theorem X10_persist_then_load :
  (forall pm : PM.t,
      Ledger.sound pm ->
      PM.load (PM.get_open_positions pm) (PM.get_closed_positions pm) = pm)
  /\ (forall (cfg : Settings) (calls : list Ledger.Call),
         PM.load (PM.get_open_positions (Ledger.run cfg calls))
                 (PM.get_closed_positions (Ledger.run cfg calls))
         = Ledger.run cfg calls).
Proof.
  assert (H : forall pm : PM.t,
             Ledger.sound pm ->
             PM.load (PM.get_open_positions pm) (PM.get_closed_positions pm) = pm).
  { intros [d c] [Hnd [Hpos _]]. unfold PM.load, PM.get_open_positions,
      PM.get_closed_positions. simpl in *. f_equal.
    assert (Hf : filter (fun p => String.eqb (PM.status p) "open") (Py.values d)
                 = Py.values d).
    { apply forallb_filter_id. apply forallb_forall. intros p Hin.
      unfold Py.values in Hin. apply in_map_iff in Hin.
      destruct Hin as [[k p0] [E Hin]]. simpl in E. subst p0.
      destruct (Hpos k p Hin) as [_ [Hst _]]. rewrite Hst. reflexivity. }
    rewrite Hf. rewrite rebuild_dict; [reflexivity|exact Hnd|].
    intros pid p Hin. apply (Hpos pid p Hin). }
  split; [exact H|].
  intros cfg calls. apply H. apply sound_run_from, sound_empty.
Qed.

Lemma X10_witness :
  PM.load (PM.get_open_positions Scenario.ledger2)
          (PM.get_closed_positions Scenario.ledger2)
  = Scenario.ledger2.
Proof.
  destruct X10_persist_then_load as [H _]. apply H.
  apply (sound_run_from DEFAULT_SETTINGS
           [Scenario.open_btc; Ledger.Update "BTCUSDT" 110] PM.empty sound_empty).
Defined.

(* ================================================================== *)
(** * PositionLedger: the capital in use *)
(* ================================================================== *)

Lemma used_fold_update (sym : string) (price : Q) (l : list (string * PM.Position)) :
  forall a : Q,
    fold_left
      (fun used p =>
         if String.eqb (PM.status p) "open" && String.eqb (PM.source p) "bot"
         then used + PM.entry_price p * PM.qty p else used)
      (Py.values
         (Py.map_values
            (fun pos => if PM.on_symbol sym pos then PM.update_one price pos
                        else pos) l)) a
    = fold_left
        (fun used p =>
           if String.eqb (PM.status p) "open" && String.eqb (PM.source p) "bot"
           then used + PM.entry_price p * PM.qty p else used)
        (Py.values l) a.
Proof.
  induction l as [|[k p] r IH]; intro a; simpl; [reflexivity|].
  fold (Py.map_values
          (fun pos => if PM.on_symbol sym pos then PM.update_one price pos
                      else pos) r).
  fold (Py.values r).
  fold (Py.values
          (Py.map_values
             (fun pos => if PM.on_symbol sym pos then PM.update_one price pos
                         else pos) r)).
  rewrite IH. f_equal.
  destruct (PM.on_symbol sym p); [|reflexivity].
  destruct (update_one_static price p) as [_ [_ [E1 [E2 [E3 [E4 _]]]]]].
  rewrite E1, E2, E3, E4. reflexivity.
Qed.

(** X11.  [get_used_bot_balance] is the entry notional tied up in open bot
    positions: a price tick never changes it; opening a bot position under
    an id not yet in use adds exactly [entry_price * qty]; opening a manual
    position under such an id adds nothing. *)
Theorem X11_used_bot_balance :
  (forall (pm : PM.t) (symbol_ : string) (price : Q),
      PM.get_used_bot_balance (PM.update_price pm symbol_ price)
      = PM.get_used_bot_balance pm)
  /\ (forall (cfg : Settings) (pid : string) (now : Q) (pm : PM.t)
             (symbol_ : string) (entry_price_ qty_ : Q) (mode_ : option string)
             (source_ : string) (opened_at_ tp_price_ sl_price_ : option Q)
             (use_trailing_ : option bool) (trailing_sl_pct_ : option Q)
             (meta_ : list string) (pm' : PM.t) (pos : PM.Position),
         Py.get pid (PM.open_positions pm) = None ->
         PM.open_position cfg pid now pm symbol_ entry_price_ qty_ mode_ source_
           opened_at_ tp_price_ sl_price_ use_trailing_ trailing_sl_pct_ meta_
         = Py.Ok (pm', pos) ->
         PM.get_used_bot_balance pm'
         = (if String.eqb source_ "bot"
            then PM.get_used_bot_balance pm + entry_price_ * qty_
            else PM.get_used_bot_balance pm)).
Proof.
  split.
  - intros pm symbol_ price. unfold PM.update_price.
    destruct (Qle_bool price 0 || _); [reflexivity|].
    unfold PM.get_used_bot_balance. cbn [PM.open_positions].
    apply used_fold_update.
  - intros cfg pid now pm symbol_ ep q mode_ src oa tp sl ut tr meta_ pm' pos
           Hfresh H.
    apply open_position_inv in H.
    destruct H as [_ [_ [_ [_ [Ho [_ [_ [_ [Hsrc [Hst [Hep Hqt]]]]]]]]]]].
    unfold PM.get_used_bot_balance. rewrite Ho, set_fresh.
    + unfold Py.values. rewrite map_app, fold_left_app. simpl.
      rewrite Hst, Hsrc, Hep, Hqt. simpl.
      destruct (String.eqb src "bot"); reflexivity.
    + intro Hin. unfold Py.keys in Hin. apply in_map_iff in Hin.
      destruct Hin as [[k v] [E Hin]]. simpl in E. subst k.
      assert (Hex : exists v', Py.get pid (PM.open_positions pm) = Some v').
      { clear -Hin. induction (PM.open_positions pm) as [|[k0 v0] r IH];
          [destruct Hin|].
        simpl. destruct (String.eqb k0 pid) eqn:E; [eexists; reflexivity|].
        destruct Hin as [Hin|Hin]; [|apply IH, Hin].
        inversion Hin; subst. rewrite String.eqb_refl in E. discriminate. }
      destruct Hex as [v' Hv]. congruence.
Qed.

Lemma X11_witness :
  PM.get_used_bot_balance Scenario.ledger1 = 0.0 + 100 * 2.
Proof.
  destruct X11_used_bot_balance as [_ H].
  apply (H DEFAULT_SETTINGS "p1" Scenario.NOW PM.empty "btcusdt" 100 2 None
           "bot" None (Some 103) (Some 99) (Some true) (Some 1) []
           Scenario.ledger1 Scenario.position1); reflexivity.
Defined.

(* ================================================================== *)
(** * RiskGate *)
(* ================================================================== *)

Module RM := RiskManager.

(** X12.  [check_new_position] gives a reason exactly when it refuses.  It
    never allows an entry while a positive global cap is reached by the
    number of open positions, nor while a positive per-symbol cap is reached
    by the open positions on that symbol (symbols compared in upper case),
    nor inside the loss cooldown. *)
Theorem X12_risk_gate_caps :
  forall (now : Q) (r : RM.t) (symbol_ : string)
         (open_positions : list PM.Position),
    (fst (RM.check_new_position now r symbol_ open_positions) = true
     <-> snd (RM.check_new_position now r symbol_ open_positions) = None)
    /\ (fst (RM.check_new_position now r symbol_ open_positions) = true ->
        ((0 < RM.max_open_trades r)%Z ->
           (Z.of_nat (List.length open_positions) < RM.max_open_trades r)%Z)
        /\ ((0 < RM.max_trades_per_symbol r)%Z ->
            (Z.of_nat
               (List.length
                  (filter (fun p => String.eqb (Py.upper (PM.symbol p))
                                      (Py.strip (Py.upper symbol_)))
                          open_positions))
             < RM.max_trades_per_symbol r)%Z)
        /\ ((0 < RM.loss_cooldown_min r)%Z ->
            inject_Z (RM.loss_cooldown_min r * 60) <= now - RM.last_loss_time r)).
Proof.
  intros now r symbol_ ops. unfold RM.check_new_position.
  destruct (0 <? RM.loss_cooldown_min r)%Z eqn:E1;
    destruct (Py.Qlt_bool (now - RM.last_loss_time r) _) eqn:E1'; simpl;
    try (split; [split; discriminate|discriminate]);
    (destruct ((0 <? RM.reentry_delay_min r)%Z && _ && _); simpl;
     [split; [split; discriminate|discriminate]|]);
    (destruct (0 <? RM.max_open_trades r)%Z eqn:E3;
     destruct (RM.max_open_trades r <=? _)%Z eqn:E3'; simpl;
     try (split; [split; discriminate|discriminate]));
    (destruct (0 <? RM.max_trades_per_symbol r)%Z eqn:E4;
     destruct (RM.max_trades_per_symbol r <=? _)%Z eqn:E4'; simpl;
     try (split; [split; discriminate|discriminate]));
    (split; [split; reflexivity|]; intros _;
     try apply Z.ltb_lt in E1; try apply Z.ltb_ge in E1;
     try apply Z.ltb_lt in E3; try apply Z.ltb_ge in E3;
     try apply Z.ltb_lt in E4; try apply Z.ltb_ge in E4;
     try apply Z.leb_gt in E3'; try apply Z.leb_gt in E4';
     try apply Qlt_bool_false in E1';
     repeat split; intros; try assumption; try lia).
Qed.

Lemma X12_witness :
  (Z.of_nat (List.length (PM.get_open_positions Scenario.ledger1)) < 5)%Z.
Proof.
  pose proof (X12_risk_gate_caps (Scenario.NOW + 1000)
                (RM.refresh_settings DEFAULT_SETTINGS 0 []) "ethusdt"
                (PM.get_open_positions Scenario.ledger1)) as [_ H].
  destruct (H eq_refl) as [H1 _]. exact (H1 eq_refl).
Defined.

(** X13.  Closing a position arms the gate.  After
    [on_position_closed(symbol, pnl)] at a positive time [t], with a
    positive re-entry delay, every request on any spelling of that symbol
    made less than [reentry_delay_min * 60] seconds later is refused; and
    after a losing close, with a positive loss cooldown, every request on
    any symbol made less than [loss_cooldown_min * 60] seconds later is
    refused with LOSS_COOLDOWN_ACTIVE.  The caps themselves are not touched
    by a close. *)
Theorem X13_close_arms_the_gate :
  forall (t : Q) (r : RM.t) (symbol_ : string) (pnl : Q),
    let r' := RM.on_position_closed t r symbol_ pnl in
    (RM.max_open_trades r' = RM.max_open_trades r
     /\ RM.max_trades_per_symbol r' = RM.max_trades_per_symbol r
     /\ RM.loss_cooldown_min r' = RM.loss_cooldown_min r
     /\ RM.reentry_delay_min r' = RM.reentry_delay_min r)
    /\ (forall (now : Q) (symbol2 : string) (ops : list PM.Position),
          (0 < RM.reentry_delay_min r)%Z -> 0 < t ->
          Py.strip (Py.upper symbol2) = Py.strip (Py.upper symbol_) ->
          now - t < inject_Z (RM.reentry_delay_min r * 60) ->
          fst (RM.check_new_position now r' symbol2 ops) = false)
    /\ (forall (now : Q) (symbol2 : string) (ops : list PM.Position),
          pnl < 0 -> (0 < RM.loss_cooldown_min r)%Z ->
          now - t < inject_Z (RM.loss_cooldown_min r * 60) ->
          RM.check_new_position now r' symbol2 ops
          = (false, Some "LOSS_COOLDOWN_ACTIVE"))
    /\ (0 <= pnl -> RM.last_loss_time r' = RM.last_loss_time r).
Proof.
  intros t r symbol_ pnl r'. split; [repeat split; reflexivity|].
  split; [|split].
  - intros now symbol2 ops Hd Ht Hsym Hlt.
    unfold RM.check_new_position.
    destruct ((0 <? RM.loss_cooldown_min r')%Z && _); [reflexivity|].
    unfold r', RM.on_position_closed.
    cbn [RM.last_closed_time_per_symbol RM.reentry_delay_min].
    rewrite Hsym, get_set_same.
    apply Z.ltb_lt in Hd. apply Qlt_bool_iff in Ht, Hlt.
    rewrite Hd, Ht, Hlt. reflexivity.
  - intros now symbol2 ops Hneg Hd Hlt.
    unfold RM.check_new_position, r', RM.on_position_closed.
    cbn [RM.last_loss_time RM.loss_cooldown_min].
    apply Qlt_bool_iff in Hneg. rewrite Hneg.
    apply Z.ltb_lt in Hd. apply Qlt_bool_iff in Hlt. rewrite Hd, Hlt.
    reflexivity.
  - intro H. unfold r', RM.on_position_closed. cbn [RM.last_loss_time].
    apply Qlt_bool_false in H. rewrite H. reflexivity.
Qed.

Lemma X13_witness :
  fst (RM.check_new_position (Scenario.NOW + 30)
         (RM.on_position_closed Scenario.NOW
            (RM.refresh_settings DEFAULT_SETTINGS 0 []) "btcusdt" 1)
         " BTCUSDT" []) = false.
Proof.
  destruct (X13_close_arms_the_gate Scenario.NOW
              (RM.refresh_settings DEFAULT_SETTINGS 0 []) "btcusdt" 1)
    as [_ [H _]].
  apply H; reflexivity.
Defined.

(* ================================================================== *)
(** * DecisionGate: shape of a decision, cache, warmup *)
(* ================================================================== *)

Lemma evaluate_output_entry_iff (cfg : Settings) (boot_ts now : Q)
    (sym : string) (out : AI.StrategyOutput) :
  let d := AI.evaluate_output cfg boot_ts now sym out in
  AI.action d = "ENTRY"
  <-> (AI.is_exit_signal (AI.signal d) = false
       /\ AI.is_entry_signal (AI.signal d) = true
       /\ fst (AI.gate_thresholds cfg boot_ts now) <= AI.score d
       /\ (snd (AI.gate_thresholds cfg boot_ts now) <= AI.valid_count)%Z).
Proof.
  unfold AI.evaluate_output.
  destruct (AI.gate_thresholds cfg boot_ts now) as [ms mg].
  cbn [fst snd].
  destruct (AI.is_exit_signal _) eqn:Ex; cbn.
  - split; [discriminate|]. intros [H _]. rewrite Ex in H. discriminate.
  - destruct (AI.is_entry_signal _) eqn:En; cbn.
    + destruct (Py.Qlt_bool _ ms) eqn:Es; cbn.
      * split; [discriminate|]. intros [_ [_ [H _]]].
        apply Qlt_bool_iff in Es. lra.
      * destruct (AI.valid_count <? mg)%Z eqn:Ec; cbn.
        -- split; [discriminate|]. intros [_ [_ [_ H]]].
           apply Z.ltb_lt in Ec. lia.
        -- split; [|reflexivity]. intros _.
           rewrite Ex, En. apply Qlt_bool_false in Es. apply Z.ltb_ge in Ec.
           repeat split; assumption.
    + split; [discriminate|]. intros [_ [H _]]. rewrite En in H. discriminate.
Qed.

Lemma evaluate_output_signal_score (cfg : Settings) (boot_ts now : Q)
    (sym : string) (out : AI.StrategyOutput) :
  AI.signal (AI.evaluate_output cfg boot_ts now sym out)
  = Py.upper (match AI.out_signal out with
              | Some s => if Py.is_empty s then "HOLD" else s
              | None => "HOLD" end)
  /\ AI.score (AI.evaluate_output cfg boot_ts now sym out)
     = Py.float_or (AI.out_score out) 0.0.
Proof.
  unfold AI.evaluate_output.
  destruct (AI.gate_thresholds cfg boot_ts now) as [ms mg].
  destruct (AI.is_exit_signal _); [split; reflexivity|].
  destruct (negb _); [split; reflexivity|].
  destruct (Py.Qlt_bool _ ms); [split; reflexivity|].
  destruct (AI.valid_count <? mg)%Z; split; reflexivity.
Qed.

(** X14.  Shape of a decision of [evaluate_symbol]'s gate.  The action is
    ENTRY, EXIT or HOLD; an EXIT, SELL or CLOSE signal always yields EXIT,
    whatever the score; ENTRY and EXIT carry no reject reason while every
    HOLD carries one; and the requested trade size is never below
    [ai.trade_usdt_min], and not above [ai.trade_usdt_max] when the minimum
    does not exceed the maximum. *)
Theorem X14_decision_shape :
  forall (cfg : Settings) (boot_ts now : Q) (sym : string)
         (out : AI.StrategyOutput),
    let d := AI.evaluate_output cfg boot_ts now sym out in
    let lo := Py.float_or (ai_trade_usdt_min cfg) 2.0 in
    let hi := Py.float_or (ai_trade_usdt_max cfg) 30.0 in
    AI.symbol d = sym
    /\ ((AI.action d = "ENTRY" /\ AI.reject_reason d = None)
        \/ (AI.action d = "EXIT" /\ AI.reject_reason d = None)
        \/ (AI.action d = "HOLD" /\ exists why, AI.reject_reason d = Some why))
    /\ (AI.is_exit_signal (AI.signal d) = true -> AI.action d = "EXIT")
    /\ lo <= AI.requested_trade_usdt d
    /\ (lo <= hi -> AI.requested_trade_usdt d <= hi).
Proof.
  intros cfg boot_ts now sym out d lo hi.
  assert (Hreq : AI.requested_trade_usdt d
                 = Py.max lo (Py.min (Py.float_or (ai_trade_usdt cfg) 10.0) hi)).
  { unfold d, AI.evaluate_output.
    destruct (AI.gate_thresholds cfg boot_ts now) as [ms mg].
    destruct (AI.is_exit_signal _); [reflexivity|].
    destruct (negb _); [reflexivity|].
    destruct (Py.Qlt_bool _ ms); [reflexivity|].
    destruct (AI.valid_count <? mg)%Z; reflexivity. }
  unfold d, AI.evaluate_output in *.
  destruct (AI.gate_thresholds cfg boot_ts now) as [ms mg].
  split; [|split; [|split; [|split]]].
  - destruct (AI.is_exit_signal _); [reflexivity|].
    destruct (negb _); [reflexivity|].
    destruct (Py.Qlt_bool _ ms); [reflexivity|].
    destruct (AI.valid_count <? mg)%Z; reflexivity.
  - destruct (AI.is_exit_signal _); [right; left; split; reflexivity|].
    destruct (negb _);
      [right; right; split; [reflexivity|eexists; reflexivity]|].
    destruct (Py.Qlt_bool _ ms);
      [right; right; split; [reflexivity|eexists; reflexivity]|].
    destruct (AI.valid_count <? mg)%Z;
      [right; right; split; [reflexivity|eexists; reflexivity]|].
    left. split; reflexivity.
  - destruct (AI.is_exit_signal _) eqn:Ex; cbn; [reflexivity|].
    destruct (negb _); cbn; [rewrite Ex; discriminate|].
    destruct (Py.Qlt_bool _ ms); cbn; [rewrite Ex; discriminate|].
    destruct (AI.valid_count <? mg)%Z; cbn; rewrite Ex; discriminate.
  - rewrite Hreq. unfold Py.max.
    destruct (Py.Qlt_bool lo _) eqn:E; [|apply Qle_refl].
    apply Qlt_bool_iff in E. apply Qlt_le_weak, E.
  - intro Hle. rewrite Hreq. unfold Py.max, Py.min.
    destruct (Py.Qlt_bool hi _) eqn:E1.
    + destruct (Py.Qlt_bool lo hi); [apply Qle_refl|exact Hle].
    + apply Qlt_bool_false in E1.
      destruct (Py.Qlt_bool lo _); [exact E1|exact Hle].
Qed.

Lemma X14_witness :
  AI.requested_trade_usdt
    (AI.evaluate_output DEFAULT_SETTINGS Scenario.BOOT Scenario.COLD "BTCUSDT"
       (Scenario.entry_output 0.9)) <= 30.0.
Proof.
  destruct (X14_decision_shape DEFAULT_SETTINGS Scenario.BOOT Scenario.COLD
              "BTCUSDT" (Scenario.entry_output 0.9)) as [_ [_ [_ [_ H]]]].
  apply H. apply Qle_bool_iff. reflexivity.
Defined.

(** X15.  Warmup only admits more, under its real preconditions: when the
    base score minimum and the relaxation delta are not negative, the score
    bar inside the warmup window lies between 0 and the base minimum, and
    every strategy output that yields ENTRY outside the window yields ENTRY
    inside it. *)
Theorem X15_warmup_admits_more :
  forall (cfg : Settings) (boot1 now1 boot2 now2 : Q) (sym : string)
         (out : AI.StrategyOutput),
    0 <= AI.min_score_base cfg ->
    0 <= Py.float_or (ai_warmup_relax_score_delta cfg) 0.10 ->
    AI.relaxed cfg boot1 now1 = false ->
    AI.relaxed cfg boot2 now2 = true ->
    (0 <= fst (AI.gate_thresholds cfg boot2 now2)
     /\ fst (AI.gate_thresholds cfg boot2 now2)
        <= fst (AI.gate_thresholds cfg boot1 now1))
    /\ (AI.action (AI.evaluate_output cfg boot1 now1 sym out) = "ENTRY" ->
        AI.action (AI.evaluate_output cfg boot2 now2 sym out) = "ENTRY").
Proof.
  intros cfg boot1 now1 boot2 now2 sym out Hb Hd H1 H2.
  destruct (gate_thresholds_spec cfg boot1 now1) as [S1 [_ F1]].
  destruct (gate_thresholds_spec cfg boot2 now2) as [S2 [F2 _]].
  specialize (F1 H1). specialize (F2 H2).
  assert (Hle : 0 <= fst (AI.gate_thresholds cfg boot2 now2)
                /\ fst (AI.gate_thresholds cfg boot2 now2)
                   <= fst (AI.gate_thresholds cfg boot1 now1)).
  { rewrite F1, F2. split; [apply max_nonneg|].
    unfold Py.max. destruct (Py.Qlt_bool 0.0 _); lra. }
  split; [exact Hle|].
  intro He. apply evaluate_output_entry_iff in He.
  apply evaluate_output_entry_iff.
  assert (Hsig : AI.signal (AI.evaluate_output cfg boot2 now2 sym out)
                 = AI.signal (AI.evaluate_output cfg boot1 now1 sym out)
                 /\ AI.score (AI.evaluate_output cfg boot2 now2 sym out)
                    = AI.score (AI.evaluate_output cfg boot1 now1 sym out)).
  { destruct (evaluate_output_signal_score cfg boot1 now1 sym out) as [A1 B1].
    destruct (evaluate_output_signal_score cfg boot2 now2 sym out) as [A2 B2].
    rewrite A1, A2, B1, B2. split; reflexivity. }
  destruct Hsig as [Hs Hc]. rewrite Hs, Hc, S2, <- S1.
  destruct He as [E1 [E2 [E3 E4]]].
  repeat split; try assumption. lra.
Qed.

Lemma X15_witness :
  AI.action
    (AI.evaluate_output DEFAULT_SETTINGS Scenario.BOOT Scenario.WARM "BTCUSDT"
       (Scenario.entry_output 0.9)) = "ENTRY".
Proof.
  refine (proj2 (X15_warmup_admits_more DEFAULT_SETTINGS Scenario.BOOT
                   Scenario.COLD Scenario.BOOT Scenario.WARM "BTCUSDT"
                   (Scenario.entry_output 0.9) _ _ _ _) _);
    try reflexivity; apply Qle_bool_iff; reflexivity.
Defined.

(** X16.  The evaluation cache of [evaluate_symbol].  Whatever path a call
    takes, the decision it returns is the one cached for the normalised
    symbol afterwards.  A later call on any spelling of the symbol made
    inside the cooldown since the recorded evaluation time returns that very
    decision and changes nothing, even if the strategy outputs have changed
    meanwhile.  A symbol with no cached decision is evaluated afresh: with
    no strategy output the answer is HOLD / NO_STRATEGY_OUTPUT_YET with a
    requested size of 0, otherwise it is the gate's decision on the current
    output; in both cases the evaluation time is recorded. *)
Theorem X16_evaluation_cache :
  forall (cfg : Settings) (t : Q) (outputs : Py.dict AI.StrategyOutput)
         (ai : AI.t) (symbol_ : string),
    let sym := Py.strip (Py.upper symbol_) in
    let r := AI.evaluate_symbol cfg t outputs ai symbol_ in
    let cooldown := Py.float_or (ai_eval_cooldown_sec cfg) 2.0 in
    Py.get sym (AI._last_decision_cache (fst r)) = Some (snd r)
    /\ (forall (t' : Q) (outputs' : Py.dict AI.StrategyOutput)
               (symbol2 : string),
          Py.strip (Py.upper symbol2) = sym ->
          0 < cooldown ->
          t' - (match Py.get sym (AI._last_eval_ts (fst r)) with
                | Some v => v | None => 0.0 end) < cooldown ->
          AI.evaluate_symbol cfg t' outputs' (fst r) symbol2 = (fst r, snd r))
    /\ (Py.get sym (AI._last_decision_cache ai) = None ->
        Py.get sym (AI._last_eval_ts (fst r)) = Some t
        /\ match Py.get sym outputs with
           | Some out =>
               snd r = AI.evaluate_output cfg (AI._boot_ts ai) t sym out
           | None =>
               AI.action (snd r) = "HOLD"
               /\ AI.reject_reason (snd r) = Some "NO_STRATEGY_OUTPUT_YET"
               /\ AI.requested_trade_usdt (snd r) = 0.0
           end).
Proof.
  intros cfg t outputs ai symbol_ sym r cooldown.
  assert (Hcache : Py.get sym (AI._last_decision_cache (fst r)) = Some (snd r)).
  { unfold r, AI.evaluate_symbol. fold sym. fold cooldown.
    destruct (Py.Qlt_bool 0 cooldown && _).
    - destruct (Py.get sym (AI._last_decision_cache ai)) as [c|] eqn:E.
      + exact E.
      + cbn [fst snd AI._last_decision_cache]. apply get_set_same.
    - cbn [fst snd AI._last_decision_cache]. apply get_set_same. }
  split; [exact Hcache|]. split.
  - intros t' outputs' symbol2 Hs Hc Hlt.
    unfold AI.evaluate_symbol at 1. rewrite Hs. fold cooldown.
    apply Qlt_bool_iff in Hc, Hlt. rewrite Hc, Hlt, Hcache. reflexivity.
  - intro Hnone. unfold r, AI.evaluate_symbol. fold sym. fold cooldown.
    rewrite Hnone.
    destruct (Py.Qlt_bool 0 cooldown && _);
      cbn [fst snd AI._last_eval_ts];
      (split; [apply get_set_same|]);
      destruct (Py.get sym outputs); repeat split; reflexivity.
Qed.

Lemma X16_witness :
  let ai0 := AI.mkAI [] [] Scenario.BOOT in
  let r := AI.evaluate_symbol DEFAULT_SETTINGS Scenario.COLD
             [("BTCUSDT", Scenario.entry_output 0.9)] ai0 "btcusdt" in
  AI.evaluate_symbol DEFAULT_SETTINGS (Scenario.COLD + 1) [] (fst r) " BTCUSDT"
  = (fst r, snd r)
  /\ AI.action (snd r) = "ENTRY".
Proof.
  destruct (X16_evaluation_cache DEFAULT_SETTINGS Scenario.COLD
              [("BTCUSDT", Scenario.entry_output 0.9)]
              (AI.mkAI [] [] Scenario.BOOT) "btcusdt") as [_ [H _]].
  split; [apply H; reflexivity|reflexivity].
Defined.

(* ================================================================== *)
(** * ExecutionCore: the paper balance never turns negative *)
(* ================================================================== *)

Lemma float_or_some_nonneg (v : Q) : 0 <= v -> 0 <= Py.float_or (Some v) 0.0.
Proof.
  intro H. unfold Py.float_or. destruct (Qeq_bool v 0); [lra|exact H].
Qed.

Lemma execute_close_balance (now : Q) (e : TE.t) (pid : string) (price : Q)
    (reason : string) :
  0 <= price ->
  0 <= Py.float_or (TE.paper_balance_usdt (TE.state e)) 0.0 ->
  0 <= Py.float_or
         (TE.paper_balance_usdt
            (TE.state (TE._execute_close now e pid price reason))) 0.0.
Proof.
  intros Hp Hb. unfold TE._execute_close.
  destruct (Py.get pid _) as [pos|]; [|exact Hb].
  destruct (negb (String.eqb (PM.source pos) "bot")); [exact Hb|].
  destruct (Qle_bool (PM.qty pos) 0) eqn:Hq; [exact Hb|].
  apply Qle_bool_false in Hq.
  match goal with |- context [if negb ?b then _ else _] => destruct b end;
    cbn [negb]; [|exact Hb].
  destruct (PM.close_position now (TE.positions e) pid price reason None)
    as [pm' [closed|]]; [|exact Hb].
  destruct (TE.paper_mode e); cbn; [|exact Hb].
  apply float_or_some_nonneg.
  assert (0 <= PM.qty pos * price) by (apply Qmult_le_0_compat; lra).
  lra.
Qed.

Lemma execute_entry_balance (now : Q) (pos_id : string) (e : TE.t)
    (symbol_ : string) (price qty : Q) (tp sl : option Q) (ut : bool)
    (tr : Q) (tags : list string) :
  0 <= Py.float_or (TE.paper_balance_usdt (TE.state e)) 0.0 ->
  0 <= Py.float_or
         (TE.paper_balance_usdt
            (TE.state (fst (TE._execute_entry now pos_id e symbol_ price qty
                              tp sl ut tr tags)))) 0.0.
Proof.
  intro Hb. unfold TE._execute_entry.
  destruct (TE.paper_mode e) eqn:Hpm; cbn [negb].
  - destruct (Py.Qlt_bool (_ + TE.EPS) _); cbn [fst]; [exact Hb|].
    destruct (PM.open_position _ _ _ _ _ _ _ _ _ _ _ _ _ _ _)
      as [[pm' pos]|msg]; cbn; apply float_or_some_nonneg, max_nonneg.
  - assert (K : TE.state (TE._init_live_client_if_needed e) = TE.state e).
    { unfold TE._init_live_client_if_needed. rewrite Hpm.
      destruct (TE.client e); reflexivity. }
    destruct (TE.client (TE._init_live_client_if_needed e)) as [c|];
      [|cbn [fst]; rewrite K; exact Hb].
    destruct (TE.create_order c _ _ _) as [[filled cumm]|];
      [|cbn [fst]; rewrite K; exact Hb].
    destruct (Py.Qlt_bool 0 filled && Py.Qlt_bool 0 cumm);
      destruct (PM.open_position _ _ _ _ _ _ _ _ _ _ _ _ _ _ _)
        as [[pm' pos]|msg]; cbn [fst TE.state TE.with_positions];
      rewrite K; exact Hb.
Qed.

Lemma fold_close_balance {A : Type} (f : A -> string * string) (now price : Q)
    (l : list A) :
  0 <= price ->
  forall e,
    0 <= Py.float_or (TE.paper_balance_usdt (TE.state e)) 0.0 ->
    0 <= Py.float_or
           (TE.paper_balance_usdt
              (TE.state
                 (fold_left
                    (fun e a => TE._execute_close now e (fst (f a)) price
                                  (snd (f a))) l e))) 0.0.
Proof.
  intro Hp. induction l as [|a r IH]; intros e Hb; simpl; [exact Hb|].
  apply IH. apply execute_close_balance; assumption.
Qed.

Lemma handle_balance (e : TE.t) (ev : TE.Event) :
  0 <= Py.float_or (TE.paper_balance_usdt (TE.state e)) 0.0 ->
  0 <= Py.float_or (TE.paper_balance_usdt (TE.state (TE.handle e ev))) 0.0.
Proof.
  intro Hb. destruct ev as [s p|now pid d]; simpl; [exact Hb|].
  unfold TE._apply_ai_decision.
  destruct (Py.is_empty _); [exact Hb|].
  set (last := Py.float_or (Py.get _ (TE.prices e)) 0.0).
  destruct (Qle_bool last 0) eqn:Hl; [exact Hb|].
  apply Qle_bool_false in Hl.
  assert (Hl0 : 0 <= last) by lra.
  set (e1 := TE.with_positions _ e).
  assert (H1 : 0 <= Py.float_or (TE.paper_balance_usdt (TE.state e1)) 0.0)
    by exact Hb.
  pose proof (fold_close_balance (fun rec : string * string => rec) now last
                (PM.check_exit_recommendations (TE.positions e1)
                   (Py.upper (AI.symbol d)) last true) Hl0 e1 H1) as H2.
  cbn beta in H2.
  set (e2 := fold_left _ (PM.check_exit_recommendations _ _ _ _) e1) in *.
  destruct (String.eqb (AI.action d) "EXIT" && _); cbn [fst].
  - apply (fold_close_balance (fun p : PM.Position => (PM.id p, "AI_EXIT"))
             now last _ Hl0 e2 H2).
  - destruct (negb _); cbn [fst]; [exact H2|].
    unfold TE._entry_logic.
    destruct (negb (fst _)); [exact H2|].
    destruct (negb _); [exact H2|].
    destruct (Qle_bool (AI.requested_trade_usdt d) 0); [exact H2|].
    destruct (TE.paper_mode e2 && _); [exact H2|].
    destruct (Py.Qlt_bool _ _); [exact H2|].
    destruct (Qle_bool _ 0); [exact H2|].
    apply execute_entry_balance, H2.
Qed.

(** X17.  The paper balance never turns negative: if it is not negative
    to begin with, it is not negative after any sequence of price ticks and
    applied decisions, entries and exits included. *)
Theorem X17_paper_balance_never_negative :
  forall (e : TE.t) (evs : list TE.Event),
    0 <= Py.float_or (TE.paper_balance_usdt (TE.state e)) 0.0 ->
    0 <= Py.float_or
           (TE.paper_balance_usdt (TE.state (TE.run e evs))) 0.0.
Proof.
  intros e evs. revert e. unfold TE.run.
  induction evs as [|ev r IH]; intros e Hb; simpl; [exact Hb|].
  apply IH, handle_balance, Hb.
Qed.

Lemma X17_witness :
  0 <= Py.float_or
         (TE.paper_balance_usdt
            (TE.state
               (TE.run (Scenario.engine 5 40000)
                  [TE.Decision Scenario.NOW "p1" Scenario.entry10;
                   TE.Price "BTCUSDT" 39000]))) 0.0.
Proof.
  apply X17_paper_balance_never_negative.
  apply Qle_bool_iff. reflexivity.
Defined.

(* ================================================================== *)
(** * ExecutionCore: the daily rollover and the profit split *)
(* ================================================================== *)

(** X18.  What the first loop pass of a new calendar date does to the
    capital ledger: the day's realized PnL restarts at zero, the date and the
    baseline are rewritten, and the paper balance, the positions and the risk
    timestamps are left alone.  When the previous date has not been split
    yet, it is marked as split; a profit adds [pnl * 0.5] to the capital
    and [pnl * 0.5] to the bot balance, a loss adds [pnl] to the capital
    and leaves the bot balance, and a flat day leaves both.  When it has
    been split already, capital, bot balance and marker are not touched
    again. *)
Theorem X18_new_day_rollover :
  forall (today prev : string) (e : TE.t),
    TE.daily_date (TE.state e) = Some prev ->
    Py.is_empty prev = false ->
    prev <> today ->
    let e' := TE._ensure_daily_rollover today e in
    let pnl := Py.float_or (TE.realized_pnl_today (TE.state e)) 0.0 in
    let capital :=
      Py.float_or (TE.capital_usdt (TE.state e)) (TE.max_bot_balance e) in
    let bot_bal := Py.float_or (TE.bot_balance_usdt (TE.state e)) 0.0 in
    TE.daily_date (TE.state e') = Some today
    /\ TE.realized_pnl_today (TE.state e') = Some 0.0
    /\ TE.daily_start_equity (TE.state e') = Some (TE.max_bot_balance e)
    /\ TE.paper_balance_usdt (TE.state e')
       = TE.paper_balance_usdt (TE.state e)
    /\ TE.positions e' = TE.positions e
    /\ TE.risk e' = TE.risk e
    /\ (TE.last_profit_split_date (TE.state e) <> Some prev ->
        TE.last_profit_split_date (TE.state e') = Some prev
        /\ (0 < pnl ->
            TE.capital_usdt (TE.state e') = Some (capital + pnl * 0.5)
            /\ TE.bot_balance_usdt (TE.state e') = Some (bot_bal + pnl * 0.5))
        /\ (pnl < 0 ->
            TE.capital_usdt (TE.state e') = Some (capital + pnl)
            /\ TE.bot_balance_usdt (TE.state e') = Some bot_bal)
        /\ (pnl == 0 ->
            TE.capital_usdt (TE.state e') = Some capital
            /\ TE.bot_balance_usdt (TE.state e') = Some bot_bal))
    /\ (TE.last_profit_split_date (TE.state e) = Some prev ->
        TE.rollover_keys e'
        = (Some today, Some (TE.max_bot_balance e),
           TE.capital_usdt (TE.state e), TE.bot_balance_usdt (TE.state e),
           Some prev)).
Proof.
  intros today prev e Hd Hne Hneq.
  assert (Hs : String.eqb prev today = false)
    by (apply String.eqb_neq; exact Hneq).
  unfold TE._ensure_daily_rollover, TE._apply_daily_profit_split,
    TE.rollover_keys.
  rewrite Hd, Hne, Hs. cbn [negb].
  destruct (String.eqb _ prev) eqn:Hm.
  - cbn.
    refine (conj eq_refl (conj eq_refl (conj eq_refl (conj eq_refl
              (conj eq_refl (conj eq_refl (conj _ _))))))).
    + intro Hk. exfalso. apply Hk.
      destruct (TE.last_profit_split_date (TE.state e)) as [m|].
      * apply String.eqb_eq in Hm. congruence.
      * apply String.eqb_eq in Hm. subst prev. discriminate Hne.
    + intro Hk. rewrite Hk. reflexivity.
  - assert (Hk' : TE.last_profit_split_date (TE.state e) <> Some prev).
    { intro Hk. rewrite Hk, String.eqb_refl in Hm. discriminate. }
    destruct (Py.Qlt_bool 0 _) eqn:Hpos.
    + apply Qlt_bool_iff in Hpos. cbn.
      refine (conj eq_refl (conj eq_refl (conj eq_refl (conj eq_refl
                (conj eq_refl (conj eq_refl (conj _ _))))))).
      * intros _. split; [reflexivity|].
        split; [intros _; split; reflexivity|].
        split; [intro Hlt; lra|intro Hz; lra].
      * intro Hk; contradiction.
    + apply Qlt_bool_false in Hpos.
      destruct (Py.Qlt_bool _ 0) eqn:Hneg.
      * apply Qlt_bool_iff in Hneg. cbn.
        refine (conj eq_refl (conj eq_refl (conj eq_refl (conj eq_refl
                  (conj eq_refl (conj eq_refl (conj _ _))))))).
        -- intros _. split; [reflexivity|].
           split; [intro Hlt; lra|].
           split; [intros _; split; reflexivity|intro Hz; lra].
        -- intro Hk; contradiction.
      * apply Qlt_bool_false in Hneg. cbn.
        refine (conj eq_refl (conj eq_refl (conj eq_refl (conj eq_refl
                  (conj eq_refl (conj eq_refl (conj _ _))))))).
        -- intros _. split; [reflexivity|].
           split; [intro Hlt; lra|].
           split; [intro Hlt; lra|intros _; split; reflexivity].
        -- intro Hk; contradiction.
Qed.

Lemma X18_witness :
  let e := Scenario.engine_after_day 10 in
  let e' := TE._ensure_daily_rollover "2026-01-02" e in
  TE.daily_date (TE.state e') = Some "2026-01-02"
  /\ TE.realized_pnl_today (TE.state e') = Some 0.0
  /\ TE.positions e' = TE.positions e
  /\ TE.capital_usdt (TE.state e') = Some (1000 + 10 * 0.5)
  /\ TE.bot_balance_usdt (TE.state e') = Some (0.0 + 10 * 0.5).
Proof.
  destruct (X18_new_day_rollover "2026-01-02" "2026-01-01"
              (Scenario.engine_after_day 10) eq_refl eq_refl)
    as [H1 [H2 [_ [_ [H5 [_ [H7 _]]]]]]].
  - discriminate.
  - destruct H7 as [_ [H7 _]]; [discriminate|].
    destruct H7 as [Hc Hb]; [reflexivity|].
    exact (conj H1 (conj H2 (conj H5 (conj Hc Hb)))).
Defined.

(* ================================================================== *)
(** * ExecutionCore: what closing a position books *)
(* ================================================================== *)

(** X20.  [_execute_close] either does nothing or books one complete
    close.  It does nothing for an unknown id, for a position that is not
    the bot's, not open or of non-positive quantity, and, in live mode, when
    the exchange refuses the sell order: then the position stays open and no
    money is booked.  Otherwise the position leaves the open set and heads
    the closed history with its reason and PnL [(price - entry) * qty]; the
    day's realized PnL grows by that PnL; in paper mode the balance is
    credited [qty * price] and in live mode it is not touched; the risk
    manager is told of the close; and the rollover keys stay as they were. *)
Theorem X20_execute_close_books_one_close :
  forall (now : Q) (e : TE.t) (pid : string) (price : Q) (reason : string),
    (Py.get pid (PM.open_positions (TE.positions e)) = None ->
     TE._execute_close now e pid price reason = e)
    /\ (forall pos,
          Py.get pid (PM.open_positions (TE.positions e)) = Some pos ->
          PM.source pos <> "bot" \/ PM.status pos <> "open"
          \/ PM.qty pos <= 0 ->
          TE._execute_close now e pid price reason = e)
    /\ (forall pos c,
          Py.get pid (PM.open_positions (TE.positions e)) = Some pos ->
          TE.paper_mode e = false ->
          TE.client e = Some c ->
          TE.create_order c (Py.upper (PM.symbol pos)) "SELL"
            (Py.round_decimals 8 (PM.qty pos)) = None ->
          TE._execute_close now e pid price reason = e)
    /\ (forall pos,
          Py.get pid (PM.open_positions (TE.positions e)) = Some pos ->
          PM.source pos = "bot" ->
          PM.status pos = "open" ->
          0 < PM.qty pos ->
          (TE.paper_mode e = false ->
           forall c, TE.client e = Some c ->
                     TE.create_order c (Py.upper (PM.symbol pos)) "SELL"
                       (Py.round_decimals 8 (PM.qty pos)) <> None) ->
          let e' := TE._execute_close now e pid price reason in
          let pnl := (price - PM.entry_price pos) * PM.qty pos in
          Py.get pid (PM.open_positions (TE.positions e')) = None
          /\ (exists c,
                PM.closed_positions (TE.positions e')
                = c :: PM.closed_positions (TE.positions e)
                /\ PM.id c = PM.id pos /\ PM.symbol c = PM.symbol pos
                /\ PM.status c = "closed"
                /\ PM.exit_reason c = Some reason
                /\ PM.current_price c = price
                /\ PM.pnl_usdt c = pnl)
          /\ TE.realized_pnl_today (TE.state e')
             = Some (Py.float_or (TE.realized_pnl_today (TE.state e)) 0.0
                     + pnl)
          /\ TE.paper_balance_usdt (TE.state e')
             = (if TE.paper_mode e
                then Some (Py.float_or (TE.paper_balance_usdt (TE.state e)) 0.0
                           + PM.qty pos * price)
                else TE.paper_balance_usdt (TE.state e))
          /\ TE.risk e'
             = RM.on_position_closed now (TE.risk e)
                 (Py.upper (PM.symbol pos)) pnl
          /\ TE.rollover_keys e' = TE.rollover_keys e).
Proof.
  intros now e pid price reason.
  split; [|split; [|split]].
  - intro Hg. unfold TE._execute_close. rewrite Hg. reflexivity.
  - intros pos Hg Hor. unfold TE._execute_close, PM.close_position.
    rewrite Hg.
    destruct (String.eqb (PM.source pos) "bot") eqn:Hs; cbn [negb];
      [|reflexivity].
    apply String.eqb_eq in Hs.
    destruct (Qle_bool (PM.qty pos) 0) eqn:Hq; [reflexivity|].
    apply Qle_bool_false in Hq.
    destruct Hor as [H|[H|H]]; [contradiction| |lra].
    destruct (String.eqb (PM.status pos) "open") eqn:Hst.
    + apply String.eqb_eq in Hst. contradiction.
    + cbn [negb]. destruct (negb _); reflexivity.
  - intros pos c Hg Hpm Hc Hord. unfold TE._execute_close.
    rewrite Hg, Hpm, Hc, Hord. cbn [negb].
    destruct (negb _); [reflexivity|].
    destruct (Qle_bool _ 0); reflexivity.
  - intros pos Hg Hs Hst Hq Hsold e' pnl. subst e' pnl.
    unfold TE._execute_close, PM.close_position. rewrite Hg, Hs, Hst.
    cbn [String.eqb negb].
    change ("bot" =? "bot")%string with true.
    change ("open" =? "open")%string with true.
    change ("bot" =? "manual")%string with false.
    cbn [negb].
    destruct (Qle_bool (PM.qty pos) 0) eqn:Hq0;
      [apply Qle_bool_iff in Hq0; lra|].
    assert (Hsale :
      (if negb (TE.paper_mode e)
       then match TE.client e with
            | Some c =>
                match TE.create_order c (Py.upper (PM.symbol pos)) "SELL"
                        (Py.round_decimals 8 (PM.qty pos)) with
                | Some _ => true | None => false end
            | None => true end
       else true) = true).
    { destruct (TE.paper_mode e) eqn:Hpm; [reflexivity|]. cbn [negb].
      destruct (TE.client e) as [c|]; [|reflexivity].
      specialize (Hsold eq_refl c eq_refl).
      destruct (TE.create_order c _ _ _); [reflexivity|congruence]. }
    rewrite Hsale. cbn [negb].
    clear Hsale Hsold. unfold TE.rollover_keys.
    destruct (TE.paper_mode e); cbn.
    + split; [apply get_pop_same|].
      split; [eexists; split; [reflexivity|]; cbn; repeat split; reflexivity|].
      repeat split; reflexivity.
    + split; [apply get_pop_same|].
      split; [eexists; split; [reflexivity|]; cbn; repeat split; reflexivity|].
      repeat split; reflexivity.
Qed.

Lemma X20_witness :
  (let e' := TE._execute_close Scenario.NOW Scenario.engine_holding "p1" 105
               "TP" in
   Py.get "p1" (PM.open_positions (TE.positions e')) = None
   /\ TE.realized_pnl_today (TE.state e') = Some (0.0 + (105 - 100) * 2)
   /\ TE.paper_balance_usdt (TE.state e') = Some (800 + 2 * 105))
  /\ TE._execute_close Scenario.NOW
       (Scenario.live_engine Scenario.refusing_client) "p1" 105 "TP"
     = Scenario.live_engine Scenario.refusing_client.
Proof.
  destruct (X20_execute_close_books_one_close Scenario.NOW
              Scenario.engine_holding "p1" 105 "TP") as [_ [_ [_ H]]].
  destruct (X20_execute_close_books_one_close Scenario.NOW
              (Scenario.live_engine Scenario.refusing_client) "p1" 105 "TP")
    as [_ [_ [R _]]].
  split.
  - destruct (H Scenario.position1 eq_refl eq_refl eq_refl)
      as [H1 [_ [H3 [H4 _]]]].
    + reflexivity.
    + intro K. discriminate K.
    + exact (conj H1 (conj H3 H4)).
  - apply (R Scenario.position1 Scenario.refusing_client); reflexivity.
Defined.

(* ================================================================== *)
(** * ExecutionCore: what one decision can touch *)
(* ================================================================== *)

Lemma get_pop_some {V : Type} (k pid : string) (v : V) (d : Py.dict V) :
  Py.get k (Py.pop pid d) = Some v -> Py.get k d = Some v /\ k <> pid.
Proof.
  intro H. destruct (string_dec k pid) as [E|E].
  - subst k. rewrite get_pop_same in H. discriminate H.
  - rewrite (get_pop_other pid k d E) in H. split; assumption.
Qed.

Lemma execute_close_ledger (now : Q) (e : TE.t) (pid : string) (price : Q)
    (reason : string) :
  PM.open_positions (TE.positions (TE._execute_close now e pid price reason))
  = PM.open_positions (TE.positions e)
  \/ PM.open_positions (TE.positions (TE._execute_close now e pid price reason))
     = Py.pop pid (PM.open_positions (TE.positions e)).
Proof.
  unfold TE._execute_close.
  destruct (Py.get pid _) as [pos|]; [|left; reflexivity].
  destruct (negb (String.eqb (PM.source pos) "bot")); [left; reflexivity|].
  destruct (Qle_bool (PM.qty pos) 0); [left; reflexivity|].
  match goal with |- context [if negb ?b then _ else _] => destruct b end;
    cbn [negb]; [|left; reflexivity].
  pose proof (close_position_inv now (TE.positions e) pid price reason None)
    as Hc.
  destruct (PM.close_position now (TE.positions e) pid price reason None)
    as [pm' [closed|]]; [|left; reflexivity].
  exact Hc.
Qed.

Lemma execute_close_get (now : Q) (e : TE.t) (pid : string) (price : Q)
    (reason : string) (k : string) (p : PM.Position) :
  Py.get k (PM.open_positions
              (TE.positions (TE._execute_close now e pid price reason)))
  = Some p ->
  Py.get k (PM.open_positions (TE.positions e)) = Some p.
Proof.
  destruct (execute_close_ledger now e pid price reason) as [H|H];
    rewrite H; [trivial|].
  intro Hg. apply get_pop_some in Hg. apply Hg.
Qed.

Lemma execute_close_other (now : Q) (e : TE.t) (pid : string) (price : Q)
    (reason : string) (k : string) :
  k <> pid ->
  Py.get k (PM.open_positions
              (TE.positions (TE._execute_close now e pid price reason)))
  = Py.get k (PM.open_positions (TE.positions e)).
Proof.
  intro Hne.
  destruct (execute_close_ledger now e pid price reason) as [H|H];
    rewrite H; [reflexivity|apply get_pop_other, Hne].
Qed.

Lemma execute_close_paper_mode (now : Q) (e : TE.t) (pid : string)
    (price : Q) (reason : string) :
  TE.paper_mode (TE._execute_close now e pid price reason) = TE.paper_mode e.
Proof.
  unfold TE._execute_close.
  destruct (Py.get pid _) as [pos|]; [|reflexivity].
  destruct (negb (String.eqb (PM.source pos) "bot")); [reflexivity|].
  destruct (Qle_bool (PM.qty pos) 0); [reflexivity|].
  match goal with |- context [if negb ?b then _ else _] => destruct b end;
    cbn [negb]; [|reflexivity].
  destruct (PM.close_position now (TE.positions e) pid price reason None)
    as [pm' [closed|]]; reflexivity.
Qed.

Lemma execute_close_removes (now : Q) (e : TE.t) (pid : string) (price : Q)
    (reason : string) (pos : PM.Position) :
  TE.paper_mode e = true ->
  Py.get pid (PM.open_positions (TE.positions e)) = Some pos ->
  PM.source pos = "bot" -> PM.status pos = "open" -> 0 < PM.qty pos ->
  Py.get pid (PM.open_positions
                (TE.positions (TE._execute_close now e pid price reason)))
  = None.
Proof.
  intros Hpm Hg Hs Hst Hq.
  unfold TE._execute_close, PM.close_position. rewrite Hg, Hs, Hst, Hpm.
  change ("bot" =? "bot")%string with true.
  change ("open" =? "open")%string with true.
  change ("bot" =? "manual")%string with false.
  cbn [negb].
  destruct (Qle_bool (PM.qty pos) 0) eqn:Hq0;
    [apply Qle_bool_iff in Hq0; lra|].
  cbn. apply get_pop_same.
Qed.

Section FoldClose.

Context {A : Type} (f : A -> string * string) (now price : Q).

Let close_all (l : list A) (e : TE.t) : TE.t :=
  fold_left (fun e a => TE._execute_close now e (fst (f a)) price (snd (f a)))
            l e.

Lemma fold_close_get (l : list A) (k : string) (p : PM.Position) :
  forall e,
    Py.get k (PM.open_positions (TE.positions (close_all l e))) = Some p ->
    Py.get k (PM.open_positions (TE.positions e)) = Some p.
Proof.
  induction l as [|a r IH]; intros e H; simpl in H; [exact H|].
  apply IH in H. apply execute_close_get in H. exact H.
Qed.

Lemma fold_close_other (l : list A) (k : string) :
  (forall a, In a l -> fst (f a) <> k) ->
  forall e,
    Py.get k (PM.open_positions (TE.positions (close_all l e)))
    = Py.get k (PM.open_positions (TE.positions e)).
Proof.
  induction l as [|a r IH]; intros Hl e; simpl; [reflexivity|].
  unfold close_all in IH. rewrite IH by (intros b Hb; apply Hl; right; exact Hb).
  apply execute_close_other. intro E. apply (Hl a); [left; reflexivity|].
  symmetry. exact E.
Qed.

Lemma fold_close_paper_mode (l : list A) :
  forall e, TE.paper_mode (close_all l e) = TE.paper_mode e.
Proof.
  induction l as [|a r IH]; intro e; simpl; [reflexivity|].
  unfold close_all in IH. rewrite IH. apply execute_close_paper_mode.
Qed.

Lemma fold_close_removes (l : list A) (a : A) (pos : PM.Position) :
  In a l ->
  PM.source pos = "bot" -> PM.status pos = "open" -> 0 < PM.qty pos ->
  forall e,
    TE.paper_mode e = true ->
    (forall p, Py.get (fst (f a)) (PM.open_positions (TE.positions e)) = Some p ->
               p = pos) ->
    Py.get (fst (f a)) (PM.open_positions (TE.positions (close_all l e)))
    = None.
Proof.
  intros Hin Hs Hst Hq.
  induction l as [|b r IH]; [destruct Hin|].
  intros e Hpm Hp. simpl.
  destruct (Py.get (fst (f a))
              (PM.open_positions
                 (TE.positions
                    (fold_left
                       (fun e a => TE._execute_close now e (fst (f a)) price
                                     (snd (f a))) r
                       (TE._execute_close now e (fst (f b)) price
                          (snd (f b))))))) as [p|] eqn:E; [|exact E].
  exfalso.
  pose proof (fold_close_get r _ _ _ E) as E1.
  destruct Hin as [Hab|Hin].
  - subst b.
    pose proof (execute_close_get _ _ _ _ _ _ _ E1) as E0.
    pose proof (Hp _ E0) as Ep. subst p.
    rewrite (execute_close_removes now e (fst (f a)) price (snd (f a)) pos
               Hpm E0 Hs Hst Hq) in E1.
    discriminate E1.
  - assert (K : Py.get (fst (f a))
                  (PM.open_positions
                     (TE.positions
                        (close_all r
                           (TE._execute_close now e (fst (f b)) price
                              (snd (f b)))))) = None).
    { apply (IH Hin).
      - rewrite execute_close_paper_mode. exact Hpm.
      - intros p0 H0. apply Hp. apply execute_close_get in H0. exact H0. }
    unfold close_all in K. rewrite K in E. discriminate E.
Qed.

End FoldClose.

Lemma execute_entry_ledger (now : Q) (pos_id : string) (e : TE.t)
    (symbol_ : string) (price qty : Q) (tp sl : option Q) (ut : bool)
    (tr : Q) (tags : list string) :
  let e' := fst (TE._execute_entry now pos_id e symbol_ price qty tp sl ut tr
                   tags) in
  TE.positions e' = TE.positions e
  \/ exists pos,
       PM.open_positions (TE.positions e')
       = Py.set pos_id pos (PM.open_positions (TE.positions e))
       /\ PM.closed_positions (TE.positions e')
          = PM.closed_positions (TE.positions e).
Proof.
  assert (Hopen : forall e1 p q m,
             TE.positions e1 = TE.positions e ->
             let e' :=
               fst (match PM.open_position (TE.settings e1) pos_id now
                            (TE.positions e1) (Py.upper symbol_) p q m
                            "bot" None (Py.truthy tp) (Py.truthy sl)
                            (Some (ut && Py.Qlt_bool 0 tr)) (Some tr) tags with
                    | Py.Ok (pm', _) => (TE.with_positions pm' e1, @nil string)
                    | Py.ValueError _ => (e1, @nil string)
                    end) in
             TE.positions e' = TE.positions e
             \/ exists pos,
                  PM.open_positions (TE.positions e')
                  = Py.set pos_id pos (PM.open_positions (TE.positions e))
                  /\ PM.closed_positions (TE.positions e')
                     = PM.closed_positions (TE.positions e)).
  { intros e1 p q m P.
    destruct (PM.open_position _ _ _ _ _ _ _ _ _ _ _ _ _ _ _)
      as [[pm' pos]|msg] eqn:E; cbn.
    - right. exists pos. apply open_position_inv in E.
      destruct E as [_ [_ [_ [_ [Ho [Hc _]]]]]].
      rewrite Ho, Hc, P. split; reflexivity.
    - left. exact P. }
  unfold TE._execute_entry.
  destruct (TE.paper_mode e) eqn:Hpm; cbn [negb].
  - destruct (Py.Qlt_bool (_ + TE.EPS) _); [left; reflexivity|].
    apply (Hopen (TE.with_state (TE.set_paper_balance _ (TE.state e)) e)).
    reflexivity.
  - assert (P : TE.positions (TE._init_live_client_if_needed e)
                = TE.positions e).
    { unfold TE._init_live_client_if_needed. rewrite Hpm.
      destruct (TE.client e); reflexivity. }
    destruct (TE.client (TE._init_live_client_if_needed e)) as [c|];
      [|left; exact P].
    destruct (TE.create_order c _ _ _) as [[filled cumm]|]; [|left; exact P].
    destruct (Py.Qlt_bool 0 filled && Py.Qlt_bool 0 cumm); apply Hopen; exact P.
Qed.

Lemma entry_logic_ledger (now : Q) (pos_id : string) (e : TE.t) (sym : string)
    (last : Q) (open_all bots : list PM.Position) (d : AI.AITradeDecision) :
  let e' := fst (TE._entry_logic now pos_id e sym last open_all bots d) in
  TE.positions e' = TE.positions e
  \/ exists pos,
       PM.open_positions (TE.positions e')
       = Py.set pos_id pos (PM.open_positions (TE.positions e))
       /\ PM.closed_positions (TE.positions e')
          = PM.closed_positions (TE.positions e).
Proof.
  unfold TE._entry_logic.
  destruct (negb (fst _)); [left; reflexivity|].
  destruct (negb _); [left; reflexivity|].
  destruct (Qle_bool (AI.requested_trade_usdt d) 0); [left; reflexivity|].
  destruct (TE.paper_mode e && _); [left; reflexivity|].
  destruct (Py.Qlt_bool _ _); [left; reflexivity|].
  destruct (Qle_bool _ 0); [left; reflexivity|].
  apply execute_entry_ledger.
Qed.

Lemma in_get_nodup {V : Type} (k : string) (v : V) (d : Py.dict V) :
  NoDup (Py.keys d) -> In (k, v) d -> Py.get k d = Some v.
Proof.
  induction d as [|[k0 v0] r IH]; simpl; intros Hnd Hin; [destruct Hin|].
  inversion Hnd as [|x l Hnot Hnd']; subst.
  destruct Hin as [E|Hin].
  - inversion E; subst. rewrite String.eqb_refl. reflexivity.
  - destruct (String.eqb k0 k) eqn:E; [|apply IH; assumption].
    apply String.eqb_eq in E. subst k0. exfalso. apply Hnot.
    unfold Py.keys. apply in_map_iff. exists (k, v). split; [reflexivity|exact Hin].
Qed.

Lemma in_values_key {V : Type} (v : V) (d : Py.dict V) :
  In v (Py.values d) -> exists k, In (k, v) d.
Proof.
  unfold Py.values. intro H. apply in_map_iff in H.
  destruct H as [[k v0] [E Hin]]. simpl in E. subst v0. exists k. exact Hin.
Qed.

Lemma update_price_keeps_ids (pm : PM.t) (symbol_ : string) (price : Q)
    (k : string) (p : PM.Position) :
  Py.get k (PM.open_positions (PM.update_price pm symbol_ price)) = Some p ->
  exists p0, Py.get k (PM.open_positions pm) = Some p0.
Proof.
  unfold PM.update_price.
  destruct (Qle_bool price 0 || Py.is_empty _); [intro H; exists p; exact H|].
  cbn [PM.open_positions]. rewrite get_map_values.
  destruct (Py.get k (PM.open_positions pm)) as [p0|]; [|discriminate].
  intros _. exists p0. reflexivity.
Qed.

Lemma update_price_off_symbol (pm : PM.t) (symbol_ : string) (price : Q)
    (k : string) (p : PM.Position) :
  Py.get k (PM.open_positions pm) = Some p ->
  Py.upper (PM.symbol p) <> Py.strip (Py.upper symbol_) ->
  Py.get k (PM.open_positions (PM.update_price pm symbol_ price)) = Some p.
Proof.
  intros Hg Hne. unfold PM.update_price.
  destruct (Qle_bool price 0 || Py.is_empty _); [exact Hg|].
  cbn [PM.open_positions]. rewrite get_map_values, Hg. cbn [option_map].
  unfold PM.on_symbol.
  destruct (String.eqb (Py.upper (PM.symbol p)) _) eqn:E; [|reflexivity].
  apply String.eqb_eq in E. contradiction.
Qed.

Lemma exit_reason_for_symbol (sym : string) (price : Q) (allow : bool)
    (pos : PM.Position) (reason : string) :
  PM.exit_reason_for sym price allow pos = Some reason ->
  Py.upper (PM.symbol pos) = sym /\ PM.source pos = "bot"
  /\ PM.status pos = "open".
Proof.
  unfold PM.exit_reason_for.
  destruct (String.eqb (PM.status pos) "open") eqn:E1; cbn [negb];
    [|discriminate].
  destruct (String.eqb (Py.upper (PM.symbol pos)) sym) eqn:E2; cbn [negb];
    [|discriminate].
  destruct (String.eqb (PM.source pos) "bot") eqn:E3; cbn [negb];
    [|discriminate].
  intros _. apply String.eqb_eq in E1, E2, E3. repeat split; assumption.
Qed.

Lemma decision_new_ids (now : Q) (pos_id : string) (e : TE.t)
    (d : AI.AITradeDecision) (k : string) (p : PM.Position) :
  Py.get k (PM.open_positions
              (TE.positions (fst (TE._apply_ai_decision now pos_id e d))))
  = Some p ->
  (exists p0, Py.get k (PM.open_positions (TE.positions e)) = Some p0)
  \/ (k = pos_id /\ AI.action d = "ENTRY").
Proof.
  unfold TE._apply_ai_decision.
  set (sym := Py.upper (AI.symbol d)).
  destruct (Py.is_empty sym); [intro H; left; exists p; exact H|].
  set (last := Py.float_or (Py.get sym (TE.prices e)) 0.0).
  destruct (Qle_bool last 0); [intro H; left; exists p; exact H|].
  set (pm1 := PM.update_market_price (TE.positions e) sym last).
  set (e1 := TE.with_positions pm1 e).
  set (recs := PM.check_exit_recommendations (TE.positions e1) sym last true).
  set (e2 := fold_left _ recs e1).
  set (bots := filter _ (PM.get_open_positions (TE.positions e1))).
  assert (H1 : forall k p,
             Py.get k (PM.open_positions (TE.positions e2)) = Some p ->
             exists p0,
               Py.get k (PM.open_positions (TE.positions e)) = Some p0).
  { intros k0 q H.
    apply (fold_close_get (fun rec : string * string => rec)) in H.
    apply update_price_keeps_ids in H. exact H. }
  destruct (String.eqb (AI.action d) "EXIT" && _); cbn [fst].
  - intro H. left.
    apply (fold_close_get (fun q : PM.Position => (PM.id q, "AI_EXIT")))
      in H.
    apply (H1 _ _ H).
  - destruct (String.eqb (AI.action d) "ENTRY") eqn:Hact; cbn [negb fst].
    + apply String.eqb_eq in Hact. intro H.
      destruct (entry_logic_ledger now pos_id e2 sym last
                  (PM.get_open_positions (TE.positions e1)) bots d)
        as [P|[pos [Po _]]].
      * rewrite P in H. left. apply (H1 _ _ H).
      * rewrite Po in H. destruct (string_dec k pos_id) as [E|E].
        -- right. split; assumption.
        -- rewrite (get_set_other pos_id k pos _ E) in H.
           left. apply (H1 _ _ H).
    + intro H. left. apply (H1 _ _ H).
Qed.

(** X21.  What one applied decision can touch.  With a blank symbol or
    without a positive last price nothing at all is done, exits included.
    Otherwise the only id that can appear among the open positions is the
    fresh id of the call, and only for an ENTRY decision.  And on a sound
    ledger every open position on another symbol, filed under another id
    than the fresh one, is left exactly as it was. *)
Theorem X21_decision_frame :
  forall (now : Q) (pos_id : string) (e : TE.t) (d : AI.AITradeDecision),
    let sym := Py.upper (AI.symbol d) in
    let e' := fst (TE._apply_ai_decision now pos_id e d) in
    (Py.is_empty sym = true
     \/ Py.float_or (Py.get sym (TE.prices e)) 0.0 <= 0 -> e' = e)
    /\ (forall k p,
          Py.get k (PM.open_positions (TE.positions e')) = Some p ->
          (exists p0, Py.get k (PM.open_positions (TE.positions e)) = Some p0)
          \/ (k = pos_id /\ AI.action d = "ENTRY"))
    /\ (Ledger.sound (TE.positions e) ->
        forall k p,
          Py.get k (PM.open_positions (TE.positions e)) = Some p ->
          k <> pos_id ->
          PM.symbol p <> sym -> PM.symbol p <> Py.strip sym ->
          Py.get k (PM.open_positions (TE.positions e')) = Some p).
Proof.
  intros now pos_id e d sym e'. subst e'.
  split; [|split; [apply decision_new_ids|]].
  - unfold TE._apply_ai_decision. fold sym.
    destruct (Py.is_empty sym); [reflexivity|].
    destruct (Qle_bool _ 0) eqn:Hl; [reflexivity|].
    apply Qle_bool_false in Hl.
    intros [H|H]; [discriminate H|lra].
  - intros W k p Hg Hk Hs1 Hs2.
    unfold TE._apply_ai_decision. fold sym.
    destruct (Py.is_empty sym); [exact Hg|].
    set (last := Py.float_or (Py.get sym (TE.prices e)) 0.0).
    destruct (Qle_bool last 0); [exact Hg|].
    set (pm1 := PM.update_market_price (TE.positions e) sym last).
    set (e1 := TE.with_positions pm1 e).
    set (recs := PM.check_exit_recommendations (TE.positions e1) sym last
                   true).
    set (e2 := fold_left _ recs e1).
    set (bots := filter _ (PM.get_open_positions (TE.positions e1))).
    assert (Hstrip : Py.strip (Py.upper sym) = Py.strip sym).
    { unfold sym. rewrite upper_idem. reflexivity. }
    assert (W1 : Ledger.sound pm1)
      by exact (sound_call (TE.settings e) (TE.positions e)
                  (Ledger.Update sym last) W).
    destruct W as [_ [Wpos _]].
    assert (Hup : Py.upper (PM.symbol p) = PM.symbol p).
    { apply get_in in Hg. apply Wpos in Hg. apply Hg. }
    assert (G1 : Py.get k (PM.open_positions (TE.positions e1)) = Some p).
    { apply update_price_off_symbol; [exact Hg|].
      rewrite Hup, Hstrip. exact Hs2. }
    destruct W1 as [Wnd [Wpos1 _]].
    assert (G2 : Py.get k (PM.open_positions (TE.positions e2)) = Some p).
    { unfold e2.
      rewrite (fold_close_other (fun rec : string * string => rec) now last
                 recs k); [exact G1|].
      intros [pid reason] Hin Hpid. cbn [fst] in Hpid. subst pid.
      unfold recs, PM.check_exit_recommendations in Hin.
      destruct (Qle_bool last 0); [destruct Hin|].
      apply collect_exits_In in Hin. destruct Hin as [pos [Hin Hr]].
      apply (in_get_nodup _ _ _ Wnd) in Hin.
      cbn [TE.positions e1 TE.with_positions] in G1, Hin.
      rewrite G1 in Hin. inversion Hin; subst pos.
      apply exit_reason_for_symbol in Hr. destruct Hr as [Hr _].
      rewrite Hup, Hstrip in Hr. contradiction. }
    destruct (String.eqb (AI.action d) "EXIT" && _); cbn [fst].
    + rewrite (fold_close_other (fun q : PM.Position => (PM.id q, "AI_EXIT"))
                 now last bots k); [exact G2|].
      intros q Hin Hq. cbn [fst] in Hq.
      unfold bots in Hin. apply filter_In in Hin. destruct Hin as [Hin Hf].
      apply andb_true_iff in Hf. destruct Hf as [Hf _].
      apply String.eqb_eq in Hf.
      apply in_values_key in Hin. destruct Hin as [kq Hin].
      pose proof (Wpos1 _ _ Hin) as [Hid _].
      apply (in_get_nodup _ _ _ Wnd) in Hin.
      rewrite Hid in Hq. subst kq.
      cbn [TE.positions e1 TE.with_positions] in G1.
      rewrite G1 in Hin. inversion Hin; subst q. contradiction.
    + destruct (negb _); cbn [fst]; [exact G2|].
      destruct (entry_logic_ledger now pos_id e2 sym last
                  (PM.get_open_positions (TE.positions e1)) bots d)
        as [P|[pos [Po _]]].
      * rewrite P. exact G2.
      * rewrite Po, (get_set_other pos_id k pos _ Hk). exact G2.
Qed.

Lemma X21_witness :
  let e' :=
    fst (TE._apply_ai_decision Scenario.NOW "p2" Scenario.engine_two_prices
           Scenario.entry_eth) in
  Py.get "p1" (PM.open_positions (TE.positions e')) = Some Scenario.position1
  /\ fst (TE._apply_ai_decision Scenario.NOW "p2" Scenario.engine_holding
            Scenario.entry_eth)
     = Scenario.engine_holding.
Proof.
  split.
  - destruct (X21_decision_frame Scenario.NOW "p2" Scenario.engine_two_prices
                Scenario.entry_eth) as [_ [_ H]].
    apply H.
    + apply (sound_run_from DEFAULT_SETTINGS [Scenario.open_btc] PM.empty
               sound_empty).
    + reflexivity.
    + discriminate.
    + discriminate.
    + discriminate.
  - destruct (X21_decision_frame Scenario.NOW "p2" Scenario.engine_holding
                Scenario.entry_eth) as [H _].
    apply H. right. apply Qle_bool_iff. reflexivity.
Defined.

(** X22.  In paper mode, on a sound ledger and with a positive last price,
    an applied EXIT decision leaves no open bot position on its symbol:
    whatever the exit checks did not close, the decision closes.  It reports
    no rejection code. *)
Theorem X22_exit_closes_the_symbol :
  forall (now : Q) (pos_id : string) (e : TE.t) (d : AI.AITradeDecision),
    let sym := Py.upper (AI.symbol d) in
    Ledger.sound (TE.positions e) ->
    TE.paper_mode e = true ->
    AI.action d = "EXIT" ->
    Py.is_empty sym = false ->
    0 < Py.float_or (Py.get sym (TE.prices e)) 0.0 ->
    let r := TE._apply_ai_decision now pos_id e d in
    (forall k p,
       Py.get k (PM.open_positions (TE.positions (fst r))) = Some p ->
       PM.source p = "bot" -> PM.symbol p <> sym)
    /\ snd r = [].
Proof.
  intros now pos_id e d sym W Hpm Hact Hemp Hl r. subst r.
  unfold TE._apply_ai_decision. fold sym. rewrite Hemp.
  set (last := Py.float_or (Py.get sym (TE.prices e)) 0.0) in *.
  destruct (Qle_bool last 0) eqn:Hl0; [apply Qle_bool_iff in Hl0; lra|].
  set (pm1 := PM.update_market_price (TE.positions e) sym last).
  set (e1 := TE.with_positions pm1 e).
  set (recs := PM.check_exit_recommendations (TE.positions e1) sym last true).
  set (e2 := fold_left _ recs e1).
  set (bots := filter _ (PM.get_open_positions (TE.positions e1))).
  assert (W1 : Ledger.sound pm1)
    by exact (sound_call (TE.settings e) (TE.positions e)
                (Ledger.Update sym last) W).
  destruct W1 as [Wnd [Wpos1 _]].
  assert (Hbots : forall k p,
             Py.get k (PM.open_positions (TE.positions e2)) = Some p ->
             PM.source p = "bot" -> PM.symbol p = sym ->
             In p bots /\ PM.id p = k /\ PM.status p = "open"
             /\ 0 < PM.qty p
             /\ Py.get k (PM.open_positions pm1) = Some p).
  { intros k p H Hs Hsym.
    apply (fold_close_get (fun rec : string * string => rec)) in H.
    cbn [TE.positions e1 TE.with_positions] in H.
    pose proof (get_in _ _ _ H) as Hin.
    destruct (Wpos1 _ _ Hin) as [Hid [Hst [_ [_ [_ [Hq _]]]]]].
    split; [|repeat split; assumption].
    unfold bots. apply filter_In. split.
    - unfold PM.get_open_positions, Py.values.
      apply in_map_iff. exists (k, p). split; [reflexivity|exact Hin].
    - rewrite Hs, Hsym, !String.eqb_refl. reflexivity. }
  rewrite Hact. change ("EXIT" =? "EXIT")%string with true.
  change ("EXIT" =? "ENTRY")%string with false. cbn [andb negb].
  destruct bots as [|b0 bs] eqn:Eb; cbn [negb fst snd].
  - split; [|reflexivity].
    intros k p H Hs Hsym. destruct (Hbots k p H Hs Hsym) as [[] _].
  - split; [|reflexivity].
    intros k p H Hs Hsym.
    pose proof (fold_close_get (fun q : PM.Position => (PM.id q, "AI_EXIT"))
                  now last (b0 :: bs) k p e2 H) as H2.
    destruct (Hbots k p H2 Hs Hsym) as [Hin [Hid [Hst [Hq Hg1]]]].
    pose proof (fold_close_removes
                  (fun q : PM.Position => (PM.id q, "AI_EXIT")) now last
                  (b0 :: bs) p p Hin Hs Hst Hq e2) as K.
    subst k.
    assert (F : Some p = None); [|discriminate F].
    rewrite <- H. apply K.
    + unfold e2.
      rewrite (fold_close_paper_mode (fun rec : string * string => rec)).
      exact Hpm.
    + intros p' Hp'. cbn [fst] in Hp'.
      apply (fold_close_get (fun rec : string * string => rec)) in Hp'.
      cbn [TE.positions e1 TE.with_positions] in Hp'.
      rewrite Hg1 in Hp'. inversion Hp'. reflexivity.
Qed.

Lemma X22_witness :
  let r := TE._apply_ai_decision Scenario.NOW "p2" Scenario.engine_holding
             Scenario.exit_btc in
  (forall k p,
     Py.get k (PM.open_positions (TE.positions (fst r))) = Some p ->
     PM.source p = "bot" -> PM.symbol p <> "BTCUSDT")
  /\ snd r = [].
Proof.
  apply (X22_exit_closes_the_symbol Scenario.NOW "p2" Scenario.engine_holding
           Scenario.exit_btc).
  - apply (sound_run_from DEFAULT_SETTINGS [Scenario.open_btc] PM.empty
             sound_empty).
  - reflexivity.
  - reflexivity.
  - reflexivity.
  - reflexivity.
Defined.

(* ================================================================== *)
(** * ExecutionCore: an entry that logs no code has opened its position *)
(* ================================================================== *)

Lemma entry_logic_accepts (now : Q) (pos_id : string) (e : TE.t)
    (sym : string) (last : Q) (open_all bots : list PM.Position)
    (d : AI.AITradeDecision) :
  snd (TE._entry_logic now pos_id e sym last open_all bots d) = [] ->
  bots = []
  /\ exists qty tp sl,
       0 < qty
       /\ TE._entry_logic now pos_id e sym last open_all bots d
          = TE._execute_entry now pos_id e sym last qty tp sl
              (AI.use_trailing d) (AI.trailing_sl_pct d) (AI.reason_tags d).
Proof.
  unfold TE._entry_logic.
  destruct (negb (fst _)); [discriminate|].
  destruct bots as [|b bs]; cbn [negb]; [|discriminate].
  destruct (Qle_bool (AI.requested_trade_usdt d) 0); [discriminate|].
  destruct (TE.paper_mode e && _); [discriminate|].
  destruct (Py.Qlt_bool _ _); [discriminate|].
  destruct (Qle_bool _ 0) eqn:Hq; [discriminate|].
  apply Qle_bool_false in Hq.
  intros _. split; [reflexivity|].
  eexists. eexists. eexists. split; [exact Hq|reflexivity].
Qed.

Lemma has_open_bot_false (pm : PM.t) (sym : string) :
  (forall p, In p (PM.get_open_positions pm) ->
             PM.source p = "bot" -> Py.upper (PM.symbol p) <> Py.upper sym) ->
  PM.has_open_bot_position pm sym = false.
Proof.
  intro H. unfold PM.has_open_bot_position.
  destruct (existsb _ _) eqn:E; [|reflexivity].
  apply existsb_exists in E. destruct E as [p [Hin Hp]].
  unfold PM.is_open_bot_on in Hp.
  apply andb_true_iff in Hp. destruct Hp as [Hp Hsrc].
  apply andb_true_iff in Hp. destruct Hp as [Hsym _].
  apply String.eqb_eq in Hsym, Hsrc.
  exfalso. apply (H p Hin Hsrc Hsym).
Qed.

(** X23.  An applied ENTRY decision for which no rejection code is handed
    to [_log_entry_reject] has opened the position: in paper mode, on a
    sound ledger, for a decision whose symbol carries no surrounding
    blanks and has a positive last price, if the list of codes handed over
    is empty then the position is open under the fresh id, on that symbol,
    as an open bot position entered at the last price with a positive
    quantity.  [_execute_entry] on its own gives no such guarantee: it
    debits the paper balance before it asks the manager, so when the
    manager refuses the entry the debit stays, nothing is opened and no
    code is handed over (the source writes that failure to the logger at
    ERROR level; the logger is outside the model).  A code
    handed over is not a line in the log: with [debug_entry_reasons] off,
    the default, [_log_entry_reject] writes nothing, and NO_PRICE,
    REQ_USDT_ZERO and QTY_NORMALIZE_ZERO are written under no setting. *)
Theorem X23_entry_without_code_is_open :
  (forall (now : Q) (pos_id : string) (e : TE.t) (d : AI.AITradeDecision),
      let sym := Py.upper (AI.symbol d) in
      let last := Py.float_or (Py.get sym (TE.prices e)) 0.0 in
      Ledger.sound (TE.positions e) ->
      TE.paper_mode e = true ->
      AI.action d = "ENTRY" ->
      Py.is_empty sym = false ->
      Py.strip sym = sym ->
      0 < last ->
      let r := TE._apply_ai_decision now pos_id e d in
      snd r = [] ->
      exists pos,
        Py.get pos_id (PM.open_positions (TE.positions (fst r))) = Some pos
        /\ PM.symbol pos = sym /\ PM.source pos = "bot"
        /\ PM.status pos = "open" /\ PM.entry_price pos = last
        /\ 0 < PM.qty pos)
  /\ (forall (now : Q) (pos_id : string) (e : TE.t) (symbol_ : string)
             (price qty : Q) (tp sl : option Q) (ut : bool) (tr : Q)
             (tags : list string) (msg : string),
         TE.paper_mode e = true ->
         price * qty
         <= Py.float_or (TE.paper_balance_usdt (TE.state e)) 0.0 + TE.EPS ->
         PM.open_position (TE.settings e) pos_id now (TE.positions e)
           (Py.upper symbol_) price qty (Some "paper") "bot" None
           (Py.truthy tp) (Py.truthy sl) (Some (ut && Py.Qlt_bool 0 tr))
           (Some tr) tags
         = Py.ValueError msg ->
         TE._execute_entry now pos_id e symbol_ price qty tp sl ut tr tags
         = (TE.with_state
              (TE.set_paper_balance
                 (Py.max 0.0
                    (Py.float_or (TE.paper_balance_usdt (TE.state e)) 0.0
                     - price * qty))
                 (TE.state e)) e,
            []))
  /\ (forall code : string, TE._log_entry_reject false code = false)
  /\ (forall debug_entry_reasons : bool,
         TE._log_entry_reject debug_entry_reasons "NO_PRICE" = false
         /\ TE._log_entry_reject debug_entry_reasons "REQ_USDT_ZERO" = false
         /\ TE._log_entry_reject debug_entry_reasons "QTY_NORMALIZE_ZERO"
            = false).
Proof.
  split; [|split; [|split; [reflexivity|intros []; repeat split]]].
  - intros now pos_id e d sym last W Hpm Hact Hemp Hstrip Hl r. subst r.
    unfold TE._apply_ai_decision. fold sym. rewrite Hemp. fold last.
    destruct (Qle_bool last 0) eqn:Hl0; [apply Qle_bool_iff in Hl0; lra|].
    set (pm1 := PM.update_market_price (TE.positions e) sym last).
    set (e1 := TE.with_positions pm1 e).
    set (recs := PM.check_exit_recommendations (TE.positions e1) sym last true).
    set (e2 := fold_left _ recs e1).
    set (bots := filter _ (PM.get_open_positions (TE.positions e1))).
    rewrite Hact. change ("ENTRY" =? "EXIT")%string with false.
    change ("ENTRY" =? "ENTRY")%string with true. cbn [andb negb].
    intro Hcodes.
    destruct (entry_logic_accepts _ _ _ _ _ _ _ _ Hcodes)
      as [Hb [qty [tp [sl [Hq Eq]]]]].
    rewrite Eq in Hcodes |- *. clear Eq.
    assert (W1 : Ledger.sound pm1)
      by exact (sound_call (TE.settings e) (TE.positions e)
                  (Ledger.Update sym last) W).
    assert (V2 : Ledger.engine_via_calls e1 e2).
    { apply via_fold. intros e0 a. apply execute_close_via. }
    destruct V2 as [S2 [calls Ecalls]].
    assert (W2 : Ledger.sound (TE.positions e2)).
    { rewrite Ecalls. apply sound_run_from. exact W1. }
    assert (Hpm2 : TE.paper_mode e2 = true).
    { unfold e2.
      rewrite (fold_close_paper_mode (fun rec : string * string => rec)).
      exact Hpm. }
    assert (Hup : Py.upper sym = sym) by (unfold sym; apply upper_idem).
    assert (Hfree : PM.has_open_bot_position (TE.positions e2)
                      (Py.strip (Py.upper (Py.upper sym))) = false).
    { rewrite !Hup, Hstrip. apply has_open_bot_false.
      intros p Hin Hsrc Hsym. rewrite Hup in Hsym.
      apply in_values_key in Hin. destruct Hin as [k Hin].
      destruct W2 as [Wnd2 _].
      apply (in_get_nodup _ _ _ Wnd2) in Hin.
      apply (fold_close_get (fun rec : string * string => rec)) in Hin.
      cbn [TE.positions e1 TE.with_positions] in Hin.
      apply get_in in Hin.
      destruct W1 as [_ [Wpos1 _]].
      destruct (Wpos1 _ _ Hin) as [_ [_ [_ [Hu _]]]].
      rewrite Hu in Hsym.
      assert (Hp : In p bots).
      { unfold bots. apply filter_In. split.
        - unfold PM.get_open_positions, Py.values.
          apply in_map_iff. exists (k, p). split; [reflexivity|exact Hin].
        - rewrite Hsym, Hsrc, !String.eqb_refl. reflexivity. }
      rewrite Hb in Hp. destruct Hp. }
    assert (Hne : Py.is_empty (Py.strip (Py.upper (Py.upper sym))) = false)
      by (rewrite !Hup, Hstrip; exact Hemp).
    revert Hcodes. unfold TE._execute_entry. rewrite Hpm2. cbn [negb].
    destruct (Py.Qlt_bool _ _); [discriminate|].
    intros _.
    destruct (open_position_ok (TE.settings e2) pos_id now (TE.positions e2)
                (Py.upper sym) last qty (Some "paper") "bot" None
                (Py.truthy tp) (Py.truthy sl)
                (Some (AI.use_trailing d
                       && Py.Qlt_bool 0 (AI.trailing_sl_pct d)))
                (Some (AI.trailing_sl_pct d)) (AI.reason_tags d)
                Hl Hq Hne Hfree) as [pm' [pos Eo]].
    cbn [TE.settings TE.positions TE.paper_mode TE.with_state].
    rewrite Hpm2, Eo. cbn [fst TE.positions TE.with_positions].
    apply open_position_inv in Eo.
    destruct Eo as [_ [_ [_ [_ [Ho [_ [_ [Hsym [Hsrc [Hst [Hep Hqt]]]]]]]]]]].
    exists pos. rewrite Ho, get_set_same, Hsym, !Hup, Hstrip, Hep, Hqt.
    repeat split; try assumption; reflexivity.
  - intros now pos_id e symbol_ price qty tp sl ut tr tags msg Hpm Hbal Eo.
    unfold TE._execute_entry. rewrite Hpm. cbn [negb].
    destruct (Py.Qlt_bool (_ + TE.EPS) _) eqn:Hs.
    { apply Qlt_bool_iff in Hs. exfalso. apply (Qlt_not_le _ _ Hs), Hbal. }
    cbn [TE.settings TE.positions TE.paper_mode TE.with_state].
    rewrite Hpm, Eo. reflexivity.
Qed.

Lemma X23_witness :
  (exists pos,
     Py.get "p2"
       (PM.open_positions
          (TE.positions
             (fst (TE._apply_ai_decision Scenario.NOW "p2"
                     Scenario.engine_two_prices Scenario.entry_eth))))
     = Some pos
     /\ PM.symbol pos = "ETHUSDT" /\ PM.source pos = "bot"
     /\ PM.status pos = "open" /\ PM.entry_price pos = 2000
     /\ 0 < PM.qty pos)
  /\ TE.paper_balance_usdt
       (TE.state
          (fst (TE._execute_entry Scenario.NOW "p2" Scenario.engine_holding
                  "BTCUSDT" 100 1 None None false 1 [])))
     = Some (Py.max 0.0 (800 - 100 * 1)).
Proof.
  destruct X23_entry_without_code_is_open as [HA [HB _]]. split.
  - refine (HA Scenario.NOW "p2" Scenario.engine_two_prices Scenario.entry_eth
              _ _ _ _ _ _ _).
    + apply (sound_run_from DEFAULT_SETTINGS [Scenario.open_btc] PM.empty
               sound_empty).
    + reflexivity.
    + reflexivity.
    + reflexivity.
    + reflexivity.
    + reflexivity.
    + vm_compute. reflexivity.
  - rewrite (HB Scenario.NOW "p2" Scenario.engine_holding "BTCUSDT" 100 1
               None None false 1 []
               "Bot already has open position on BTCUSDT").
    + reflexivity.
    + reflexivity.
    + apply Qle_bool_iff. vm_compute. reflexivity.
    + vm_compute. reflexivity.
Defined.

(* ================================================================== *)
(** * MarketFeed: the watch set *)
(* ================================================================== *)

Lemma mem_In (s : string) (l : list string) : MD.mem s l = true <-> In s l.
Proof.
  induction l as [|x r IH]; simpl; [split; [discriminate|intros []]|].
  rewrite orb_true_iff, IH, String.eqb_eq. reflexivity.
Qed.

Lemma mem_false (s : string) (l : list string) :
  MD.mem s l = false <-> ~ In s l.
Proof.
  rewrite <- mem_In. destruct (MD.mem s l); split; intro H;
    try reflexivity; try discriminate; try (intro K; discriminate K).
  exfalso. apply H. reflexivity.
Qed.

Lemma fromkeys_In (l : list string) :
  forall seen x, In x (MD.fromkeys seen l) <-> In x l /\ ~ In x seen.
Proof.
  induction l as [|y r IH]; intros seen x; simpl.
  - split; [intros []|intros [[] _]].
  - destruct (MD.mem y seen) eqn:E.
    + apply mem_In in E. rewrite IH. split.
      * intros [H1 H2]. split; [right; exact H1|exact H2].
      * intros [[H1|H1] H2]; [subst y; contradiction|split; assumption].
    + apply mem_false in E. simpl. rewrite IH. simpl. split.
      * intros [H|[H1 H2]]; [subst y; split; [left; reflexivity|exact E]|].
        split; [right; exact H1|]. intro K. apply H2. right. exact K.
      * intros [[H1|H1] H2]; [left; exact H1|].
        destruct (string_dec y x) as [Exy|Exy]; [left; exact Exy|].
        right. split; [exact H1|]. intros [K|K]; [contradiction|contradiction].
Qed.

Lemma fromkeys_NoDup (l : list string) :
  forall seen, NoDup (MD.fromkeys seen l).
Proof.
  induction l as [|y r IH]; intro seen; simpl; [constructor|].
  destruct (MD.mem y seen); [apply IH|].
  constructor; [|apply IH].
  rewrite fromkeys_In. intros [_ H]. apply H. left. reflexivity.
Qed.

Lemma update_symbols_set (m : MD.t) (symbols : list string) :
  MD._lock_held m = false ->
  MD._symbols (fst (MD.update_symbols m symbols)) = MD.new_syms symbols.
Proof.
  intro Hl. unfold MD.update_symbols. rewrite Hl. fold (MD.new_syms symbols).
  destruct (MD.list_eqb _ _) eqn:E; [|reflexivity].
  apply list_eqb_eq in E. symmetry. exact E.
Qed.

(** X24.  [update_symbols] called while no other call holds the lock.  The
    watch set afterwards holds no symbol twice and holds exactly the
    normalised (upper-cased, stripped) forms of the non-empty strings
    passed in.  The call leaves the backoff sequence, the running flag,
    the backoff index and the forced-reconnect event alone.  It returns
    only when the normalised list is the stored one, and then it has
    changed nothing; when the list differs, the call stores it and never
    returns, with the lock still held.  Passing the same list again to a
    manager whose lock is free returns and changes nothing; any call made
    while such a hung call holds the lock never returns and changes
    nothing. *)
Theorem X24_update_symbols_watch_set :
  forall (m : MD.t) (symbols : list string),
    MD._lock_held m = false ->
    let r := MD.update_symbols m symbols in
    let m' := fst r in
    NoDup (MD._symbols m')
    /\ (forall x,
          In x (MD._symbols m')
          <-> exists s, In s symbols /\ Py.is_empty s = false
                        /\ x = Py.strip (Py.upper s))
    /\ MD.ws_backoff_sec m' = MD.ws_backoff_sec m
    /\ MD._running m' = MD._running m
    /\ MD._reconnect_index m' = MD._reconnect_index m
    /\ MD._force_reconnect_event m' = MD._force_reconnect_event m
    /\ (snd r = MD.Returns /\ m' = m
        \/ snd r = MD.Hangs /\ MD._symbols m' <> MD._symbols m
           /\ MD._lock_held m' = true)
    /\ (forall m2 : MD.t,
          MD._lock_held m2 = false -> MD._symbols m2 = MD._symbols m' ->
          MD.update_symbols m2 symbols = (m2, MD.Returns))
    /\ (forall m2 : MD.t,
          MD._lock_held m2 = true ->
          MD.update_symbols m2 symbols = (m2, MD.Hangs)).
Proof.
  intros m symbols Hl r m'. subst m' r.
  rewrite (update_symbols_set m symbols Hl).
  assert (K : forall l, MD.list_eqb l l = true)
    by (intro l; apply list_eqb_eq; reflexivity).
  split; [apply fromkeys_NoDup|]. split.
  - intro x. unfold MD.new_syms. rewrite fromkeys_In, in_map_iff. split.
    + intros [[s [E Hin]] _]. apply filter_In in Hin. destruct Hin as [Hin Hne].
      exists s. split; [exact Hin|]. split; [|symmetry; exact E].
      destruct (Py.is_empty s); [discriminate Hne|reflexivity].
    + intros [s [Hin [Hne E]]]. split; [|intros []].
      exists s. split; [symmetry; exact E|].
      apply filter_In. split; [exact Hin|]. rewrite Hne. reflexivity.
  - assert (Hrep : forall m2 : MD.t,
              MD._lock_held m2 = false -> MD._symbols m2 = MD.new_syms symbols ->
              MD.update_symbols m2 symbols = (m2, MD.Returns)).
    { intros m2 Hl2 H2. unfold MD.update_symbols. rewrite Hl2.
      fold (MD.new_syms symbols). rewrite H2, K. reflexivity. }
    assert (Hheld : forall m2 : MD.t,
              MD._lock_held m2 = true ->
              MD.update_symbols m2 symbols = (m2, MD.Hangs)).
    { intros m2 Hl2. unfold MD.update_symbols. rewrite Hl2. reflexivity. }
    unfold MD.update_symbols. rewrite Hl. fold (MD.new_syms symbols).
    destruct (MD.list_eqb _ (MD._symbols m)) eqn:E; cbn [fst snd].
    + refine (conj eq_refl (conj eq_refl (conj eq_refl (conj eq_refl
                (conj _ (conj Hrep Hheld)))))).
      left. split; reflexivity.
    + cbn.
      refine (conj eq_refl (conj eq_refl (conj eq_refl (conj eq_refl
                (conj _ (conj Hrep Hheld)))))).
      right. split; [reflexivity|]. split; [|reflexivity].
      intro H. rewrite H, K in E. discriminate E.
Qed.

Lemma X24_witness :
  MD.update_symbols MD.started_default ["btcusdt "; "BTCUSDT"]
  = (MD.started_default, MD.Returns)
  /\ MD.update_symbols MD.started_default ["ethusdt "; "BTCUSDT"]
     = (MD.mkMD [2; 5; 10; 15]%Z true ["ETHUSDT"; "BTCUSDT"] 0 false true,
        MD.Hangs).
Proof.
  destruct (X24_update_symbols_watch_set MD.started_default
              ["btcusdt "; "BTCUSDT"] eq_refl)
    as [_ [_ [_ [_ [_ [_ [_ [H _]]]]]]]].
  split; [apply H; reflexivity|reflexivity].
Defined.

(* ================================================================== *)
(** * MarketFeed: the reconnect loop over any sequence of events *)
(* ================================================================== *)

Lemma list_index_In {A : Type} (l : list A) (i : Z) (a : A) :
  MD.list_index l i = Some a -> In a l.
Proof.
  unfold MD.list_index.
  destruct (_ && _)%bool; [|discriminate].
  apply nth_error_In.
Qed.

Lemma list_index_in_range {A : Type} (l : list A) (i : Z) :
  (0 <= i < Z.of_nat (List.length l))%Z -> MD.list_index l i <> None.
Proof.
  intros [H0 H1]. unfold MD.list_index.
  assert (E0 : (i <? 0)%Z = false) by (apply Z.ltb_ge; exact H0).
  rewrite E0.
  assert (E1 : ((0 <=? i) && (i <? Z.of_nat (List.length l)))%Z = true).
  { apply andb_true_iff. split; [apply Z.leb_le|apply Z.ltb_lt]; assumption. }
  rewrite E1. apply nth_error_Some. lia.
Qed.

Lemma step_safe (m : MD.t) (ev : MD.Event) :
  (0 <= MD._reconnect_index m)%Z ->
  MD.ws_backoff_sec m <> [] ->
  MD.ws_backoff_sec (fst (MD.step m ev)) = MD.ws_backoff_sec m
  /\ (0 <= MD._reconnect_index (fst (MD.step m ev)))%Z
  /\ MD._running (fst (MD.step m ev)) = MD._running m
  /\ ~ In MD.IndexError (snd (MD.step m ev))
  /\ (forall d, In (MD.Sleep d) (snd (MD.step m ev)) ->
                In d (MD.ws_backoff_sec m))
  /\ (MD._running m = false ->
      forall s, In s (snd (MD.step m ev)) -> s = MD.Break).
Proof.
  intros Hi Hne.
  assert (Hdis :
    MD.ws_backoff_sec (fst (MD.after_disconnect m)) = MD.ws_backoff_sec m
    /\ (0 <= MD._reconnect_index (fst (MD.after_disconnect m)))%Z
    /\ MD._running (fst (MD.after_disconnect m)) = MD._running m
    /\ snd (MD.after_disconnect m) <> MD.IndexError
    /\ (forall d, snd (MD.after_disconnect m) = MD.Sleep d ->
                  In d (MD.ws_backoff_sec m))
    /\ (MD._running m = false -> snd (MD.after_disconnect m) = MD.Break)).
  { unfold MD.after_disconnect.
    destruct (MD._running m) eqn:Hr; cbn [negb].
    2:{ cbn. repeat split; try assumption; try discriminate. }
    destruct (MD._force_reconnect_event m); cbn [fst snd].
    { cbn. repeat split; try lia; try discriminate. }
    set (i := Z.min _ _).
    assert (Hlen : (0 < Z.of_nat (List.length (MD.ws_backoff_sec m)))%Z).
    { destruct (MD.ws_backoff_sec m); [contradiction Hne; reflexivity|].
      simpl List.length. lia. }
    pose proof (list_index_in_range (MD.ws_backoff_sec m) i) as Hrange.
    destruct (MD.list_index (MD.ws_backoff_sec m) i) as [delay|] eqn:E.
    - cbn.
      repeat split; try lia; try discriminate.
      intros d Hd. inversion Hd; subst d. apply (list_index_In _ _ _ E).
    - exfalso. apply Hrange; [|reflexivity]. unfold i. lia. }
  destruct Hdis as [D1 [D2 [D3 [D4 [D5 D6]]]]].
  destruct ev; unfold MD.step.
  - destruct (MD.after_disconnect m) as [m1 s1]. cbn [fst snd] in *.
    repeat split; try assumption.
    + intros [H|[]]. apply D4. exact H.
    + intros d [H|[]]. apply D5. exact H.
    + intros Hr s [H|[]]. subst s. apply D6, Hr.
  - cbn. repeat split; try lia; try (intros _ s []); try (intros d []);
      try (intros []).
  - destruct (MD.after_disconnect m) as [m1 s1]. cbn [fst snd] in *.
    repeat split; try assumption.
    + intros [H|[]]. apply D4. exact H.
    + intros d [H|[]]. apply D5. exact H.
    + intros Hr s [H|[]]. subst s. apply D6, Hr.
  - cbn [fst snd]. unfold MD.update_symbols.
    destruct (MD._lock_held m); [|destruct (MD.list_eqb _ _)]; cbn;
      repeat split; try assumption;
      try (intros _ s []); try (intros d []); try (intros []).
Qed.

(** X25.  The reconnect loop over any sequence of connection events and
    watch-set changes, for a non-empty backoff sequence and a backoff index
    that is not negative (as [start] leaves it): the delay lookup never
    raises, every delay slept is one of the configured delays, the backoff
    sequence is never altered and the index never turns negative.  No event
    changes the running flag, so a stopped manager stays stopped and its
    loop only ever breaks: it neither sleeps nor reconnects. *)
Theorem X25_reconnect_loop_safe :
  forall (evs : list MD.Event) (m : MD.t),
    (0 <= MD._reconnect_index m)%Z ->
    MD.ws_backoff_sec m <> [] ->
    let r := MD.run m evs in
    MD.ws_backoff_sec (fst r) = MD.ws_backoff_sec m
    /\ (0 <= MD._reconnect_index (fst r))%Z
    /\ MD._running (fst r) = MD._running m
    /\ ~ In MD.IndexError (snd r)
    /\ (forall d, In (MD.Sleep d) (snd r) -> In d (MD.ws_backoff_sec m))
    /\ (MD._running m = false -> forall s, In s (snd r) -> s = MD.Break).
Proof.
  induction evs as [|ev r IH]; intros m Hi Hne; cbn zeta.
  - cbn. repeat split; try assumption; try reflexivity.
    + intros [].
    + intros d [].
    + intros _ s [].
  - destruct (step_safe m ev Hi Hne) as [S1 [S2 [S3 [S4 [S5 S6]]]]].
    simpl MD.run.
    destruct (MD.step m ev) as [m1 s1]. cbn [fst snd] in *.
    assert (Hne1 : MD.ws_backoff_sec m1 <> []) by (rewrite S1; exact Hne).
    specialize (IH m1 S2 Hne1). cbn zeta in IH.
    destruct (MD.run m1 r) as [m2 s2]. cbn [fst snd] in *.
    destruct IH as [I1 [I2 [I3 [I4 [I5 I6]]]]].
    split; [congruence|]. split; [exact I2|]. split; [congruence|].
    split; [|split].
    + intro H. apply in_app_or in H. destruct H as [H|H]; contradiction.
    + intros d H. apply in_app_or in H. destruct H as [H|H].
      * apply S5, H.
      * rewrite <- S1. apply I5, H.
    + intros Hr s H. apply in_app_or in H. destruct H as [H|H].
      * apply (S6 Hr), H.
      * apply I6; [congruence|exact H].
Qed.

Lemma X25_witness :
  let r := MD.run MD.started_default
             [MD.ConnectFailed; MD.WatchSetChanged ["ETHUSDT"];
              MD.ConnectionLost; MD.ConnectOpened; MD.ConnectionLost] in
  ~ In MD.IndexError (snd r)
  /\ (forall d, In (MD.Sleep d) (snd r) -> In d [2; 5; 10; 15]%Z).
Proof.
  destruct (X25_reconnect_loop_safe
              [MD.ConnectFailed; MD.WatchSetChanged ["ETHUSDT"];
               MD.ConnectionLost; MD.ConnectOpened; MD.ConnectionLost]
              MD.started_default) as [_ [_ [_ [H4 [H5 _]]]]].
  - vm_compute. discriminate.
  - discriminate.
  - exact (conj H4 H5).
Defined.

(* ================================================================== *)
(** * ExecutionCore: the control loop, orchestrator and engine together *)
(* ================================================================== *)

Lemma lstrip_head (s : string) (c : ascii) (r : string) :
  Py.lstrip s = String c r -> Py.is_space c = false.
Proof.
  induction s as [|c0 r0 IH]; simpl; [discriminate|].
  destruct (Py.is_space c0) eqn:E; [exact IH|].
  intro H. inversion H; subst. exact E.
Qed.

Lemma rstrip_idem (s : string) : Py.rstrip (Py.rstrip s) = Py.rstrip s.
Proof.
  induction s as [|c r IH]; simpl; [reflexivity|].
  destruct (Py.rstrip r) as [|c' t] eqn:E.
  - destruct (Py.is_space c) eqn:Hc; simpl; [reflexivity|].
    rewrite Hc. reflexivity.
  - simpl. simpl in IH. rewrite IH. reflexivity.
Qed.

Lemma rstrip_keeps_head (c : ascii) (r : string) :
  Py.is_space c = false -> exists t, Py.rstrip (String c r) = String c t.
Proof.
  intro Hc. simpl. destruct (Py.rstrip r) as [|c' t].
  - rewrite Hc. eexists. reflexivity.
  - eexists. reflexivity.
Qed.

Lemma strip_idem (s : string) : Py.strip (Py.strip s) = Py.strip s.
Proof.
  unfold Py.strip.
  destruct (Py.lstrip s) as [|c r] eqn:E; [reflexivity|].
  pose proof (lstrip_head s c r E) as Hc.
  destruct (rstrip_keeps_head c r Hc) as [t Ht].
  rewrite Ht. simpl Py.lstrip. rewrite Hc, <- Ht. apply rstrip_idem.
Qed.

Lemma normal_form (s : string) :
  Py.upper (Py.strip (Py.upper s)) = Py.strip (Py.upper s)
  /\ Py.strip (Py.strip (Py.upper s)) = Py.strip (Py.upper s).
Proof. split; [apply upper_strip_upper|apply strip_idem]. Qed.

Lemma evaluate_output_symbol (cfg : Settings) (boot_ts now : Q)
    (sym : string) (out : AI.StrategyOutput) :
  AI.symbol (AI.evaluate_output cfg boot_ts now sym out) = sym.
Proof.
  unfold AI.evaluate_output.
  destruct (AI.gate_thresholds cfg boot_ts now) as [ms mg].
  destruct (AI.is_exit_signal _); [reflexivity|].
  destruct (negb _); [reflexivity|].
  destruct (Py.Qlt_bool _ ms); [reflexivity|].
  destruct (_ <? _)%Z; reflexivity.
Qed.

Lemma evaluate_symbol_keyed (cfg : Settings) (now : Q)
    (outputs : Py.dict AI.StrategyOutput) (ai : AI.t) (symbol_ : string) :
  Ledger.cache_keyed ai ->
  Ledger.cache_keyed (fst (AI.evaluate_symbol cfg now outputs ai symbol_))
  /\ AI.symbol (snd (AI.evaluate_symbol cfg now outputs ai symbol_))
     = Py.strip (Py.upper symbol_).
Proof.
  intro K. unfold AI.evaluate_symbol.
  set (sym := Py.strip (Py.upper symbol_)).
  assert (Hfresh :
    forall d, AI.symbol d = sym ->
      Ledger.cache_keyed
        (AI.mkAI (Py.set sym now (AI._last_eval_ts ai))
                 (Py.set sym d (AI._last_decision_cache ai))
                 (AI._boot_ts ai))).
  { intros d Hd k d' Hg. cbn [AI._last_decision_cache] in Hg.
    destruct (string_dec k sym) as [E|E].
    - subst k. rewrite get_set_same in Hg. inversion Hg; subst d'.
      split; [exact Hd|].
      unfold sym. destruct (normal_form symbol_) as [H1 H2].
      rewrite H1. exact H2.
    - rewrite (get_set_other sym k d _ E) in Hg. apply (K _ _ Hg). }
  assert (Hd : AI.symbol
                 match Py.get sym outputs with
                 | Some out => AI.evaluate_output cfg (AI._boot_ts ai) now sym out
                 | None =>
                     {| AI.symbol := sym; AI.action := "HOLD"; AI.score := 0.0;
                        AI.signal := "HOLD"; AI.requested_trade_usdt := 0.0;
                        AI.sl_pct := None; AI.tp_pct := None;
                        AI.use_trailing := false; AI.trailing_sl_pct := 0.0;
                        AI.reason_tags := [];
                        AI.reject_reason := Some "NO_STRATEGY_OUTPUT_YET" |}
                 end = sym).
  { destruct (Py.get sym outputs); [apply evaluate_output_symbol|reflexivity]. }
  destruct (Py.Qlt_bool 0 _ && _).
  - destruct (Py.get sym (AI._last_decision_cache ai)) as [cached|] eqn:G;
      cbn [fst snd].
    + split; [exact K|apply (K _ _ G)].
    + split; [apply Hfresh, Hd|exact Hd].
  - cbn [fst snd]. split; [apply Hfresh, Hd|exact Hd].
Qed.

Lemma execute_entry_paper_mode (now : Q) (pos_id : string) (e : TE.t)
    (symbol_ : string) (price qty : Q) (tp sl : option Q) (ut : bool)
    (tr : Q) (tags : list string) :
  TE.paper_mode (fst (TE._execute_entry now pos_id e symbol_ price qty tp sl
                        ut tr tags))
  = TE.paper_mode e.
Proof.
  unfold TE._execute_entry.
  destruct (TE.paper_mode e) eqn:Hpm; cbn [negb].
  - destruct (Py.Qlt_bool (_ + TE.EPS) _); cbn [fst]; [exact Hpm|].
    destruct (PM.open_position _ _ _ _ _ _ _ _ _ _ _ _ _ _ _)
      as [[pm' pos]|msg]; cbn; exact Hpm.
  - assert (K : TE.paper_mode (TE._init_live_client_if_needed e) = false).
    { unfold TE._init_live_client_if_needed. rewrite Hpm.
      destruct (TE.client e); cbn; exact Hpm. }
    destruct (TE.client (TE._init_live_client_if_needed e)) as [c|];
      [|cbn [fst]; exact K].
    destruct (TE.create_order c _ _ _) as [[filled cumm]|];
      [|cbn [fst]; exact K].
    destruct (Py.Qlt_bool 0 filled && Py.Qlt_bool 0 cumm);
      destruct (PM.open_position _ _ _ _ _ _ _ _ _ _ _ _ _ _ _)
        as [[pm' pos]|msg]; cbn [fst TE.paper_mode TE.with_positions];
      exact K.
Qed.

Lemma decision_paper_mode (now : Q) (pos_id : string) (e : TE.t)
    (d : AI.AITradeDecision) :
  TE.paper_mode (fst (TE._apply_ai_decision now pos_id e d))
  = TE.paper_mode e.
Proof.
  unfold TE._apply_ai_decision.
  destruct (Py.is_empty _); [reflexivity|].
  destruct (Qle_bool _ 0); [reflexivity|].
  set (e1 := TE.with_positions _ e).
  set (e2 := fold_left _ (PM.check_exit_recommendations _ _ _ _) e1).
  assert (H2 : TE.paper_mode e2 = TE.paper_mode e).
  { unfold e2.
    rewrite (fold_close_paper_mode (fun rec : string * string => rec)).
    reflexivity. }
  destruct (String.eqb (AI.action d) "EXIT" && _); cbn [fst].
  - rewrite (fold_close_paper_mode
               (fun q : PM.Position => (PM.id q, "AI_EXIT"))).
    exact H2.
  - destruct (negb _); cbn [fst]; [exact H2|].
    unfold TE._entry_logic.
    destruct (negb (fst _)); [exact H2|].
    destruct (negb _); [exact H2|].
    destruct (Qle_bool (AI.requested_trade_usdt d) 0); [exact H2|].
    destruct (TE.paper_mode e2 && _); [exact H2|].
    destruct (Py.Qlt_bool _ _); [exact H2|].
    destruct (Qle_bool _ 0); [exact H2|].
    rewrite execute_entry_paper_mode. exact H2.
Qed.

Lemma decision_sound (now : Q) (pos_id : string) (e : TE.t)
    (d : AI.AITradeDecision) :
  Ledger.sound (TE.positions e) ->
  Ledger.sound (TE.positions (fst (TE._apply_ai_decision now pos_id e d))).
Proof.
  intro W. destruct (apply_ai_decision_via now pos_id e d) as [_ [calls E]].
  rewrite E. apply sound_run_from, W.
Qed.

(** X27.  The control loop keeps the books.  Through any number of turns
    of the loop of [_run_loop] (the orchestrator evaluates a symbol, the
    engine applies the decision), from a sound ledger and a cache whose
    decisions are filed under their own normalised symbols (the empty
    cache in particular): the ledger stays sound, the trading mode is not
    switched, the cache stays so filed, a paper balance that is not
    negative stays so, and every position open afterwards was open before
    or sits under the id drawn for one of the turns.  Every decision the
    orchestrator hands over carries the normalised form of the symbol it
    was asked about. *)
Theorem X27_control_loop_keeps_the_books :
  (forall (cfg : Settings) (now : Q) (outputs : Py.dict AI.StrategyOutput)
          (ai : AI.t) (symbol_ : string),
      Ledger.cache_keyed ai ->
      Ledger.cache_keyed (fst (AI.evaluate_symbol cfg now outputs ai symbol_))
      /\ AI.symbol (snd (AI.evaluate_symbol cfg now outputs ai symbol_))
         = Py.strip (Py.upper symbol_))
  /\ (forall (outputs : Py.dict AI.StrategyOutput) (turns : list TE.Turn)
             (ai : AI.t) (e : TE.t),
         Ledger.sound (TE.positions e) ->
         Ledger.cache_keyed ai ->
         let st' := TE.loop_turns outputs (ai, e) turns in
         Ledger.sound (TE.positions (snd st'))
         /\ TE.paper_mode (snd st') = TE.paper_mode e
         /\ Ledger.cache_keyed (fst st')
         /\ (0 <= Py.float_or (TE.paper_balance_usdt (TE.state e)) 0.0 ->
             0 <= Py.float_or
                    (TE.paper_balance_usdt (TE.state (snd st'))) 0.0)
         /\ (forall k p,
               Py.get k (PM.open_positions (TE.positions (snd st')))
               = Some p ->
               (exists p0,
                   Py.get k (PM.open_positions (TE.positions e)) = Some p0)
               \/ In k (List.map TE.fresh_id turns))).
Proof.
  split; [intros; apply evaluate_symbol_keyed; assumption|].
  intros outputs turns. unfold TE.loop_turns.
  induction turns as [|tn r IH]; intros ai e W K; cbn zeta.
  - cbn [fold_left fst snd List.map].
    split; [exact W|]. split; [reflexivity|]. split; [exact K|].
    split; [intro H; exact H|].
    intros k p H. left. exists p. exact H.
  - simpl fold_left. unfold TE.loop_turn at 2.
    destruct (evaluate_symbol_keyed (TE.settings e) (TE.eval_at tn) outputs ai
                (TE.turn_symbol tn) K) as [K1 _].
    destruct (AI.evaluate_symbol (TE.settings e) (TE.eval_at tn) outputs ai
                (TE.turn_symbol tn)) as [ai1 d].
    cbn [fst snd] in K1.
    set (e1 := fst (TE._apply_ai_decision (TE.apply_at tn) (TE.fresh_id tn)
                      e d)).
    destruct (IH ai1 e1) as [W' [P' [K' [B' F']]]].
    + apply decision_sound, W.
    + exact K1.
    + cbn zeta in W', P', K', B', F'.
      split; [exact W'|].
      split; [transitivity (TE.paper_mode e1);
              [exact P'|apply decision_paper_mode]|].
      split; [exact K'|]. split.
      * intro Hb. apply B'.
        exact (handle_balance e
                 (TE.Decision (TE.apply_at tn) (TE.fresh_id tn) d) Hb).
      * intros k p G. cbn [List.map].
        destruct (F' k p G) as [[p1 G1]|Hin]; [|right; right; exact Hin].
        apply decision_new_ids in G1. destruct G1 as [G1|[G1 _]].
        -- left. exact G1.
        -- right. left. symmetry. exact G1.
Qed.

Lemma X27_witness :
  let st' := TE.loop_turns Scenario.outputs_eth
               (Scenario.fresh_ai, Scenario.engine_two_prices)
               Scenario.two_turns in
  Ledger.sound (TE.positions (snd st'))
  /\ TE.paper_mode (snd st') = true
  /\ 0 <= Py.float_or (TE.paper_balance_usdt (TE.state (snd st'))) 0.0.
Proof.
  destruct X27_control_loop_keeps_the_books as [_ H].
  destruct (H Scenario.outputs_eth Scenario.two_turns Scenario.fresh_ai
              Scenario.engine_two_prices) as [H1 [H2 [_ [H4 _]]]].
  - apply (sound_run_from DEFAULT_SETTINGS [Scenario.open_btc] PM.empty
             sound_empty).
  - intros k d G. discriminate G.
  - refine (conj H1 (conj H2 (H4 _))).
    apply Qle_bool_iff. reflexivity.
Defined.

(* ================================================================== *)
(** * MarketFeed: ticker messages *)
(* ================================================================== *)

Lemma ticker_array_spec (watchset kline_intervals : list string)
    (arr : list MD.Ticker) :
  forall st : MD.Stores,
    let r := MD._handle_ticker_array watchset kline_intervals st arr in
    (forall sym price chg,
        In (sym, price, chg) (snd r) ->
        In sym watchset /\ Py.is_empty sym = false
        /\ In (MD.mkTicker (Some sym) (Some price) (Some chg)) arr)
    /\ (forall sym,
          ~ In sym (List.map (fun ev => fst (fst ev)) (snd r)) ->
          Py.get sym (MD.prices (fst r)) = Py.get sym (MD.prices st)
          /\ Py.get sym (MD.change_24h (fst r))
             = Py.get sym (MD.change_24h st)
          /\ Py.get sym (MD.klines (fst r)) = Py.get sym (MD.klines st))
    /\ (forall evs1 sym price chg evs2,
          snd r = (evs1 ++ (sym, price, chg) :: evs2)%list ->
          ~ In sym (List.map (fun ev => fst (fst ev)) evs2) ->
          Py.get sym (MD.prices (fst r)) = Some price
          /\ Py.get sym (MD.change_24h (fst r)) = Some chg
          /\ Py.get sym (MD.klines (fst r)) <> None)
    /\ (forall sym d,
          Py.get sym (MD.klines st) = Some d ->
          Py.get sym (MD.klines (fst r)) = Some d).
Proof.
  induction arr as [|t rest IH]; intro st; cbn zeta.
  - cbn. split; [intros sym price chg []|].
    split; [intros sym _; repeat split; reflexivity|].
    split; [|intros sym d H; exact H].
    intros evs1 sym price chg evs2 H. destruct evs1; discriminate H.
  - assert (Hskip :
      forall sym price chg,
        In (MD.mkTicker (Some sym) (Some price) (Some chg)) rest ->
        In (MD.mkTicker (Some sym) (Some price) (Some chg)) (t :: rest))
      by (intros sym price chg H; right; exact H).
    assert (Hsame :
      let r := MD._handle_ticker_array watchset kline_intervals st rest in
      (forall sym price chg,
          In (sym, price, chg) (snd r) ->
          In sym watchset /\ Py.is_empty sym = false
          /\ In (MD.mkTicker (Some sym) (Some price) (Some chg)) (t :: rest))
      /\ (forall sym,
            ~ In sym (List.map (fun ev => fst (fst ev)) (snd r)) ->
            Py.get sym (MD.prices (fst r)) = Py.get sym (MD.prices st)
            /\ Py.get sym (MD.change_24h (fst r))
               = Py.get sym (MD.change_24h st)
            /\ Py.get sym (MD.klines (fst r)) = Py.get sym (MD.klines st))
      /\ (forall evs1 sym price chg evs2,
            snd r = (evs1 ++ (sym, price, chg) :: evs2)%list ->
            ~ In sym (List.map (fun ev => fst (fst ev)) evs2) ->
            Py.get sym (MD.prices (fst r)) = Some price
            /\ Py.get sym (MD.change_24h (fst r)) = Some chg
            /\ Py.get sym (MD.klines (fst r)) <> None)
      /\ (forall sym d,
            Py.get sym (MD.klines st) = Some d ->
            Py.get sym (MD.klines (fst r)) = Some d)).
    { destruct (IH st) as [A [B [C D]]]. cbn zeta.
      split; [|split; [exact B|split; [exact C|exact D]]].
      intros sym price chg H. destruct (A _ _ _ H) as [H1 [H2 H3]].
      split; [exact H1|]. split; [exact H2|apply Hskip, H3]. }
    simpl MD._handle_ticker_array.
    destruct (MD.ticker_s t) as [sym0|] eqn:Es; [|exact Hsame].
    destruct (Py.is_empty sym0) eqn:Hemp; cbn [orb]; [exact Hsame|].
    destruct (MD.mem sym0 watchset) eqn:Hmem; cbn [negb]; [|exact Hsame].
    destruct (MD.ticker_c t) as [price0|] eqn:Ec; [|exact Hsame].
    destruct (MD.ticker_P t) as [chg0|] eqn:EP; [|exact Hsame].
    clear Hsame.
    set (st1 := MD.mkStores _ _ _).
    destruct (IH st1) as [A [B [C D]]]. cbn zeta in A, B, C, D.
    destruct (MD._handle_ticker_array watchset kline_intervals st1 rest)
      as [st2 evs] eqn:Er.
    cbn [fst snd] in *.
    assert (Et : t = MD.mkTicker (Some sym0) (Some price0) (Some chg0)).
    { destruct t; cbn in *; subst; reflexivity. }
    assert (Hk1 : Py.get sym0 (MD.klines st1) <> None).
    { unfold st1. cbn [MD.klines].
      destruct (Py.get sym0 (MD.klines st)) eqn:G; [rewrite G; discriminate|].
      rewrite get_set_same. discriminate. }
    split; [|split; [|split]].
    + intros sym price chg [H|H].
      * inversion H; subst. apply mem_In in Hmem.
        split; [exact Hmem|]. split; [exact Hemp|left; reflexivity].
      * destruct (A _ _ _ H) as [H1 [H2 H3]].
        split; [exact H1|]. split; [exact H2|right; exact H3].
    + intros sym Hno. cbn [List.map fst] in Hno.
      assert (Hne : sym <> sym0) by (intro E; apply Hno; left; symmetry; exact E).
      destruct (B sym) as [B1 [B2 B3]];
        [intro K; apply Hno; right; exact K|].
      rewrite B1, B2, B3. unfold st1. cbn [MD.prices MD.change_24h MD.klines].
      rewrite !(get_set_other sym0 sym _ _ Hne).
      repeat split.
      destruct (Py.get sym0 (MD.klines st)); [reflexivity|].
      apply get_set_other, Hne.
    + intros evs1 sym price chg evs2 Hev Hno.
      destruct evs1 as [|ev1 evs1'].
      * cbn [app] in Hev. inversion Hev; subst.
        destruct (B sym Hno) as [B1 [B2 B3]].
        rewrite B1, B2, B3. unfold st1. cbn [MD.prices MD.change_24h].
        rewrite !get_set_same. repeat split. exact Hk1.
      * cbn [app] in Hev. inversion Hev; subst.
        apply (C evs1' sym price chg evs2 eq_refl Hno).
    + intros sym d G. apply D. unfold st1. cbn [MD.klines].
      destruct (Py.get sym0 (MD.klines st)) eqn:G0; [exact G|].
      destruct (string_dec sym sym0) as [E|E]; [subst; congruence|].
      rewrite (get_set_other sym0 sym _ _ E). exact G.
Qed.

Lemma update_price_shape (pm : PM.t) (symbol_ : string) (price : Q) :
  PM.closed_positions (PM.update_price pm symbol_ price)
  = PM.closed_positions pm
  /\ Py.keys (PM.open_positions (PM.update_price pm symbol_ price))
     = Py.keys (PM.open_positions pm).
Proof.
  unfold PM.update_price.
  destruct (Qle_bool price 0 || _); [split; reflexivity|].
  cbn [PM.open_positions PM.closed_positions].
  split; [reflexivity|apply keys_map_values].
Qed.

(** A price tick changes neither the paper balance nor the entry value of
    any open position. *)
Lemma on_price_equity (e : TE.t) (symbol_ : string) (price : Q) :
  Ledger.paper_equity (TE._on_price e symbol_ price) = Ledger.paper_equity e.
Proof.
  unfold Ledger.paper_equity, TE._on_price.
  cbn [TE.state TE.positions TE.with_positions].
  unfold PM.update_market_price, PM.update_price.
  destruct (Qle_bool price 0 || _); [reflexivity|].
  unfold PM.get_used_bot_balance. cbn [PM.open_positions].
  rewrite used_fold_update. reflexivity.
Qed.

Lemma fold_on_price (evs : list (string * Q * Q)) :
  forall e : TE.t,
    let e' := fold_left
                (fun e ev => TE._on_price e (fst (fst ev)) (snd (fst ev)))
                evs e in
    TE.prices e' = TE.prices e
    /\ TE.state e' = TE.state e
    /\ TE.risk e' = TE.risk e
    /\ Ledger.paper_equity e' = Ledger.paper_equity e
    /\ PM.closed_positions (TE.positions e')
       = PM.closed_positions (TE.positions e)
    /\ Py.keys (PM.open_positions (TE.positions e'))
       = Py.keys (PM.open_positions (TE.positions e))
    /\ (forall k p,
          Py.get k (PM.open_positions (TE.positions e)) = Some p ->
          (forall ev, In ev evs ->
             Py.upper (PM.symbol p) <> Py.strip (Py.upper (fst (fst ev)))) ->
          Py.get k (PM.open_positions (TE.positions e')) = Some p).
Proof.
  induction evs as [|ev r IH]; intro e; cbn zeta; simpl fold_left.
  - repeat split; try reflexivity. intros k p H _. exact H.
  - destruct (IH (TE._on_price e (fst (fst ev)) (snd (fst ev))))
      as [I1 [I2 [I3 [I4 [I5 [I6 I7]]]]]].
    cbn zeta in I1, I2, I3, I4, I5, I6, I7.
    destruct (update_price_shape (TE.positions e) (fst (fst ev))
                (snd (fst ev))) as [U1 U2].
    split; [rewrite I1; reflexivity|]. split; [rewrite I2; reflexivity|].
    split; [rewrite I3; reflexivity|].
    split; [rewrite I4; apply on_price_equity|].
    split; [rewrite I5; exact U1|]. split; [rewrite I6; exact U2|].
    intros k p Hg Hno. apply I7.
    + unfold TE._on_price. cbn [TE.positions TE.with_positions].
      apply update_price_off_symbol; [exact Hg|].
      apply Hno. left. reflexivity.
    + intros ev' Hin. apply Hno. right. exact Hin.
Qed.

(** X28.  A [!ticker@arr] message.  Every price handed to the listeners
    belongs to a non-blank symbol of the watch set and is read off an
    element of the message whose fields all converted; a symbol for which
    nothing is emitted keeps its stored price, 24h change and candles; the
    stores end up holding, for each emitted symbol, the values of its last
    emitted element; and no stored candle list is ever altered.  On the
    engine side the message moves no money: the state document, the paper
    equity, the closed history and the set of open ids are unchanged, and an
    open position whose symbol matches none of the emitted symbols is left
    exactly as it was. *)
Theorem X28_ticker_message :
  forall (watchset kline_intervals : list string) (arr : list MD.Ticker)
         (st : MD.Stores) (e : TE.t),
    let r := MD._handle_ticker_array watchset kline_intervals st arr in
    let e' := snd (Wiring.on_ticker_array watchset kline_intervals st e arr) in
    ((forall sym price chg,
         In (sym, price, chg) (snd r) ->
         In sym watchset /\ Py.is_empty sym = false
         /\ In (MD.mkTicker (Some sym) (Some price) (Some chg)) arr)
     /\ (forall sym,
           ~ In sym (List.map (fun ev => fst (fst ev)) (snd r)) ->
           Py.get sym (MD.prices (fst r)) = Py.get sym (MD.prices st)
           /\ Py.get sym (MD.change_24h (fst r))
              = Py.get sym (MD.change_24h st)
           /\ Py.get sym (MD.klines (fst r)) = Py.get sym (MD.klines st))
     /\ (forall evs1 sym price chg evs2,
           snd r = (evs1 ++ (sym, price, chg) :: evs2)%list ->
           ~ In sym (List.map (fun ev => fst (fst ev)) evs2) ->
           Py.get sym (MD.prices (fst r)) = Some price
           /\ Py.get sym (MD.change_24h (fst r)) = Some chg
           /\ Py.get sym (MD.klines (fst r)) <> None)
     /\ (forall sym d,
           Py.get sym (MD.klines st) = Some d ->
           Py.get sym (MD.klines (fst r)) = Some d))
    /\ fst (Wiring.on_ticker_array watchset kline_intervals st e arr) = fst r
    /\ TE.prices e' = MD.prices (fst r)
    /\ TE.state e' = TE.state e
    /\ Ledger.paper_equity e' = Ledger.paper_equity e
    /\ PM.closed_positions (TE.positions e')
       = PM.closed_positions (TE.positions e)
    /\ Py.keys (PM.open_positions (TE.positions e'))
       = Py.keys (PM.open_positions (TE.positions e))
    /\ (forall k p,
          Py.get k (PM.open_positions (TE.positions e)) = Some p ->
          (forall ev, In ev (snd r) ->
             Py.upper (PM.symbol p) <> Py.strip (Py.upper (fst (fst ev)))) ->
          Py.get k (PM.open_positions (TE.positions e')) = Some p).
Proof.
  intros watchset kline_intervals arr st e r e'.
  split; [exact (ticker_array_spec watchset kline_intervals arr st)|].
  subst e'. unfold Wiring.on_ticker_array. subst r.
  destruct (MD._handle_ticker_array watchset kline_intervals st arr)
    as [st' evs].
  cbn [fst snd].
  destruct (fold_on_price evs (Wiring.with_prices (MD.prices st') e))
    as [F1 [F2 [_ [F4 [F5 [F6 F7]]]]]].
  cbn zeta in F1, F2, F4, F5, F6, F7.
  split; [reflexivity|]. split; [exact F1|]. split; [exact F2|].
  split; [exact F4|]. split; [exact F5|]. split; [exact F6|exact F7].
Qed.

Lemma X28_witness :
  let r := MD._handle_ticker_array ["ETHUSDT"] ["15m"; "1h"]
             Scenario.empty_stores Scenario.tickers in
  let e' := snd (Wiring.on_ticker_array ["ETHUSDT"] ["15m"; "1h"]
                   Scenario.empty_stores Scenario.engine_two_prices
                   Scenario.tickers) in
  Py.get "ETHUSDT" (MD.prices (fst r)) = Some 2010
  /\ Py.get "p1" (PM.open_positions (TE.positions e'))
     = Some Scenario.position1.
Proof.
  destruct (X28_ticker_message ["ETHUSDT"] ["15m"; "1h"] Scenario.tickers
              Scenario.empty_stores Scenario.engine_two_prices)
    as [[_ [_ [C _]]] [_ [_ [_ [_ [_ [_ F]]]]]]].
  split.
  - apply (C [] "ETHUSDT" 2010 1 []); [reflexivity|intros []].
  - apply F; [reflexivity|].
    intros ev [E|[]]. subst ev. discriminate.
Defined.

(* ================================================================== *)
(** * MarketFeed: kline messages *)
(* ================================================================== *)







(* ================================================================== *)
(** * MarketFeed: stream names, built and parsed back *)
(* ================================================================== *)









